(** * Verification of the ND-JSON to Avro converters

    The repository holds two scripts, [python-avro/convert.py] and
    [python-fastavro/convert.py].  Each one reads an Avro schema, reads a
    file of newline-delimited JSON events, maps every line through
    [transform_record] and hands the resulting records to an Avro writer.

    The scripts are glue around library calls ([json.loads],
    [dateutil.parser.parse], [int], [decimal.Decimal], [Decimal.shift],
    [Decimal.to_integral_value], [datetime.replace]).  The embedding keeps
    the scripts' own control flow (evaluation order of the dictionary
    display, the streaming and the batch driver) and models the library
    calls they make:

    - text is a Rocq [string], a sequence of bytes; on ASCII text bytes and
      Python characters coincide;
    - the two parsers that cannot reasonably be written out (the JSON
      scanner and dateutil's permissive date parser) are fields of the
      class [Externals], so that every general theorem holds for whatever
      these parsers accept; executable reference instances are given for
      evaluating concrete lines;
    - [int] follows [PyLong_FromString], with the default limit of 4300
      digits on the conversion of text;
    - [Decimal] and the decimal operations follow CPython's [decimal]
      module with the default context (precision 28, [InvalidOperation]
      trapped): the operations as [_pydecimal.py] spells them out, the
      limits on exponents as the C implementation of a 64-bit build has
      them, which is the one [import decimal] loads. *)

From Stdlib Require Import ZArith NArith Ascii String List Bool Lia.
From stdpp Require Import base option list strings gmap.

Set Warnings "-register-all".

Local Open Scope string_scope.
Local Open Scope Z_scope.

(** ** Exceptions and the error monad *)

(** The exception classes the scripts can raise.  [JSONDecodeError] and
    [ParserError] are subclasses of [ValueError] in Python;
    [InvalidOperation] is a subclass of [ArithmeticError], [RecursionError]
    of [RuntimeError]. *)
Inductive pyerr : Type :=
| KeyError (key : string)
| TypeError
| ValueError
| JSONDecodeError
| RecursionError
| ParserError
| OverflowError
| InvalidOperation
| OSError (path : string)
| LibraryError (name : string).

Inductive result (A : Type) : Type :=
| OK (a : A)
| Err (e : pyerr).
Arguments OK {A} a.
Arguments Err {A} e.

#[global] Instance result_ret : MRet result := fun A a => OK a.

#[global] Instance result_bind : MBind result := fun A B k m =>
  match m with
  | OK a => k a
  | Err e => Err e
  end.

Definition succeeds {A : Type} (m : result A) : Prop :=
  exists a, m = OK a.

Definition fails {A : Type} (m : result A) : Prop :=
  exists e, m = Err e.

(** ** JSON documents and Python values *)

(** The three non-standard constants [json.loads] accepts. *)
Inductive json_constant : Type := JNaN | JInfinity | JNegInfinity.

(** A scanned JSON document.  Number literals keep their source text: the
    scanner hands it to [parse_int] (no fraction, no exponent) or to
    [parse_float]. *)
Inductive json : Type :=
| JNull
| JBool (b : bool)
| JInt (literal : string)
| JFloat (literal : string)
| JConst (c : json_constant)
| JString (s : string)
| JArray (items : list json)
| JObject (members : list (string * json)).

(** The only floats that can reach the transformer are the ones
    [parse_constant] makes, since every number literal goes through the
    [str] hooks. *)
Inductive pyfloat : Type := FNaN | FInf | FNegInf.

Inductive pyval : Type :=
| PyNone
| PyBool (b : bool)
| PyFloat (f : pyfloat)
| PyStr (s : string)
| PyList (items : list pyval)
| PyDict (d : gmap string pyval).

Definition float_of_constant (c : json_constant) : pyfloat :=
  match c with
  | JNaN => FNaN
  | JInfinity => FInf
  | JNegInfinity => FNegInf
  end.

(** [dict(pairs)]: pairs are inserted left to right, so that the last
    occurrence of a duplicated key wins. *)
Definition dict_of_pairs (pairs : list (string * pyval)) : gmap string pyval :=
  fold_left (fun d kv => <[kv.1 := kv.2]> d) pairs ∅.

(** The decoder of [json.loads], with its [parse_float] and [parse_int]
    hooks. *)
Fixpoint decode (parse_float parse_int : string -> pyval) (j : json) : pyval :=
  match j with
  | JNull => PyNone
  | JBool b => PyBool b
  | JInt s => parse_int s
  | JFloat s => parse_float s
  | JConst c => PyFloat (float_of_constant c)
  | JString s => PyStr s
  | JArray items => PyList (map (decode parse_float parse_int) items)
  | JObject members =>
      PyDict (dict_of_pairs
                (map (fun kv => (kv.1, decode parse_float parse_int kv.2)) members))
  end.

(** [data[key]] for a string key. *)
Definition subscript (data : pyval) (key : string) : result pyval :=
  match data with
  | PyDict d =>
      match d !! key with
      | Some v => OK v
      | None => Err (KeyError key)
      end
  | _ => Err TypeError
  end.

(** ** Characters and digit strings *)

Definition code (c : ascii) : N := N_of_ascii c.

Definition is_digit (c : ascii) : bool :=
  (48 <=? code c)%N && (code c <=? 57)%N.

Definition digit_value (c : ascii) : N := (code c - 48)%N.

Definition is_ascii (c : ascii) : bool := (code c <? 128)%N.

Definition lower (c : ascii) : ascii :=
  if (65 <=? code c)%N && (code c <=? 90)%N
  then ascii_of_N (code c + 32)
  else c.

(** C's [isspace] in the C locale, which [PyLong_FromString] uses:
    tab, line feed, vertical tab, form feed, carriage return, space. *)
Definition Py_ISSPACE (c : ascii) : bool :=
  ((9 <=? code c)%N && (code c <=? 13)%N) || (code c =? 32)%N.

(** [Py_UNICODE_ISSPACE] on the ASCII range, which [str.strip] and
    [Decimal] use: the above and the separators 0x1C to 0x1F. *)
Definition Py_UNICODE_ISSPACE (c : ascii) : bool :=
  Py_ISSPACE c || ((28 <=? code c)%N && (code c <=? 31)%N).

(** The value of a run of decimal digits, most significant first. *)
Definition digits_value (ds : list ascii) : N :=
  fold_left (fun acc c => (acc * 10 + digit_value c)%N) ds 0%N.

(** The longest prefix of digits, and the rest. *)
Fixpoint span_digits (l : list ascii) : list ascii * list ascii :=
  match l with
  | c :: t =>
      if is_digit c
      then let '(ds, rest) := span_digits t in (c :: ds, rest)
      else ([], l)
  | [] => ([], [])
  end.

Fixpoint drop_while (p : ascii -> bool) (l : list ascii) : list ascii :=
  match l with
  | c :: t => if p c then drop_while p t else l
  | [] => []
  end.

(** [str.strip()] restricted to ASCII white space. *)
Definition strip (l : list ascii) : list ascii :=
  rev (drop_while Py_UNICODE_ISSPACE (rev (drop_while Py_UNICODE_ISSPACE l))).

Definition ascii_text (s : string) : bool :=
  forallb is_ascii (list_ascii_of_string s).

(** ** Dates and times *)

(** A [datetime.datetime]; [tzinfo] is [None] for a naive value and
    otherwise holds the UTC offset of the attached time zone, in seconds. *)
Record datetime : Type := Datetime {
  year : Z;
  month : Z;
  day : Z;
  hour : Z;
  minute : Z;
  second : Z;
  microsecond : Z;
  tzinfo : option Z
}.

(** [timezone.utc] *)
Definition timezone_utc : Z := 0.

(** [dt.replace(tzinfo=tz)]: every clock field is kept, only the attached
    zone changes. *)
Definition replace_tzinfo (dt : datetime) (tz : Z) : datetime :=
  {| year := year dt; month := month dt; day := day dt;
     hour := hour dt; minute := minute dt; second := second dt;
     microsecond := microsecond dt; tzinfo := Some tz |}.

Definition is_leap (y : Z) : bool :=
  (y mod 4 =? 0) && (negb (y mod 100 =? 0) || (y mod 400 =? 0)).

Definition days_before_year (y : Z) : Z :=
  let p := y - 1 in p * 365 + p / 4 - p / 100 + p / 400.

Definition days_in_month (y m : Z) : Z :=
  if m =? 2 then (if is_leap y then 29 else 28)
  else if (m =? 4) || (m =? 6) || (m =? 9) || (m =? 11) then 30
  else 31.

Definition days_before_month (y m : Z) : Z :=
  fold_left (fun acc k => acc + days_in_month y (Z.of_nat k))
            (seq 1 (Z.to_nat (m - 1))) 0.

(** [date.toordinal]: the proleptic Gregorian ordinal, 1 for 0001-01-01. *)
Definition ymd2ord (y m d : Z) : Z :=
  days_before_year y + days_before_month y m + d.

(** Seconds shown by the clock fields, counted from 1970-01-01T00:00:00. *)
Definition wall_seconds (dt : datetime) : Z :=
  (ymd2ord (year dt) (month dt) (day dt) - 719163) * 86400
  + hour dt * 3600 + minute dt * 60 + second dt.

(** The absolute instant of an aware value, in microseconds since the
    epoch: the clock reading minus the UTC offset.  A naive value denotes
    no instant. *)
Definition instant (dt : datetime) : option Z :=
  match tzinfo dt with
  | Some off => Some ((wall_seconds dt - off) * 1000000 + microsecond dt)
  | None => None
  end.

(** ** [int] *)

(** The digit loop of [PyLong_FromString] in base 10: digits, with single
    underscores allowed between them.  [prev_underscore] records that the
    previous character was an underscore; two in a row and a trailing one
    are errors. *)
Fixpoint scan_int_digits (acc : N) (prev_underscore : bool) (l : list ascii)
  : option (N * list ascii) :=
  match l with
  | c :: t =>
      if is_digit c then scan_int_digits (acc * 10 + digit_value c)%N false t
      else if Ascii.eqb c "_" then
        (if prev_underscore then None else scan_int_digits acc true t)
      else if prev_underscore then None else Some (acc, l)
  | [] => if prev_underscore then None else Some (acc, [])
  end.

Definition split_sign (l : list ascii) : bool * list ascii :=
  match l with
  | c :: t =>
      if Ascii.eqb c "-" then (true, t)
      else if Ascii.eqb c "+" then (false, t)
      else (false, l)
  | [] => (false, [])
  end.

Definition apply_sign (negative : bool) (n : N) : Z :=
  if negative then - Z.of_N n else Z.of_N n.

(** [sys.int_info.default_max_str_digits]: the largest number of digits
    [int] converts from text, unless the limit is changed; the scripts do
    not change it. *)
Definition int_max_str_digits : N := 4300.

(** The number of digits the digit loop counts: those in the run of digits
    and underscores at the head of [l].  Leading zeros count, underscores
    do not. *)
Fixpoint count_int_digits (l : list ascii) : N :=
  match l with
  | c :: t =>
      if is_digit c then N.succ (count_int_digits t)
      else if Ascii.eqb c "_" then count_int_digits t
      else 0%N
  | [] => 0%N
  end.

(** [int(text)] on ASCII text: leading white space, an optional sign, the
    digits (the first character after the sign has to be a digit, and there
    are at most [int_max_str_digits] of them), trailing white space, and
    nothing else. *)
Definition int_of_ascii (l : list ascii) : option Z :=
  let '(negative, body) := split_sign (drop_while Py_ISSPACE l) in
  match body with
  | c :: _ =>
      if is_digit c then
        match scan_int_digits 0 false body with
        | Some (n, rest) =>
            if (int_max_str_digits <? count_int_digits body)%N then None
            else
              match drop_while Py_ISSPACE rest with
              | [] => Some (apply_sign negative n)
              | _ :: _ => None
              end
        | None => None
        end
      else None
  | [] => None
  end.

(** ** [decimal.Decimal] *)

(** A decimal number as [decimal] stores it: sign, coefficient and
    exponent for a finite number (the value is [coefficient * 10^exponent],
    negated when [sign] is set), or one of the special values. *)
Inductive Decimal : Type :=
| Finite (sign : bool) (coefficient : N) (exponent : Z)
| Infinity (sign : bool)
| NaN (sign : bool) (signaling : bool) (payload : N).

Fixpoint strip_prefix (p l : list ascii) : option (list ascii) :=
  match p, l with
  | [], _ => Some l
  | a :: p', b :: l' => if Ascii.eqb a b then strip_prefix p' l' else None
  | _ :: _, [] => None
  end.

Definition all_digits (l : list ascii) : bool := forallb is_digit l.

(** The limits of the C implementation on a 64-bit build: [decimal.MAX_PREC],
    [decimal.MAX_EMAX] and [decimal.MIN_ETINY]. *)
Definition MAX_PREC : Z := 999999999999999999.
Definition MAX_EMAX : Z := 999999999999999999.
Definition MIN_ETINY : Z := -1999999999999999997.

(** The number of significant digits of a run of digits: leading zeros do
    not count, and zero has one digit. *)
Definition significant_digits (ds : list ascii) : Z :=
  Z.max 1 (Z.of_nat (length (drop_while (fun c => Ascii.eqb c "0") ds))).

(** The constructor converts exactly or not at all: the number has to be
    representable as it is written, with at most [MAX_PREC] digits, its
    exponent not below [MIN_ETINY] and the exponent of its leading digit
    not above [MAX_EMAX]. *)
Definition exactly_representable (ds : list ascii) (places exp : Z) : bool :=
  (places <=? MAX_PREC) && (significant_digits ds <=? MAX_PREC)
  && (MIN_ETINY <=? exp) && (exp + significant_digits ds - 1 <=? MAX_EMAX).

(** The numeric alternative of the constructor's pattern: integer digits,
    an optional fraction, an optional exponent, with a digit at the start
    or right after the leading point. *)
Definition parse_number (body : list ascii) : option (N * Z) :=
  let '(intpart, r1) := span_digits body in
  let '(fracpart, r2) :=
    match r1 with
    | c :: t => if Ascii.eqb c "." then span_digits t else ([], r1)
    | [] => ([], [])
    end in
  match (intpart ++ fracpart)%list with
  | [] => None
  | _ :: _ =>
      let coeff := digits_value (intpart ++ fracpart)%list in
      let places := Z.of_nat (length fracpart) in
      let finite (exp : Z) :=
        if exactly_representable (intpart ++ fracpart)%list places exp
        then Some (coeff, exp) else None in
      match r2 with
      | [] => finite (- places)
      | c :: t =>
          if Ascii.eqb (lower c) "e" then
            let '(negative, t') := split_sign t in
            let '(expdigits, r3) := span_digits t' in
            match expdigits, r3 with
            | _ :: _, [] =>
                finite (apply_sign negative (digits_value expdigits) - places)
            | _, _ => None
            end
          else None
      end
  end.

(** The special alternatives: [Inf], [Infinity], [NaN] and [sNaN] with
    optional diagnostic digits, in any letter case. *)
Definition parse_special (sign : bool) (body : list ascii) : option Decimal :=
  let low := map lower body in
  match strip_prefix (list_ascii_of_string "inf") low with
  | Some [] => Some (Infinity sign)
  | Some rest =>
      match strip_prefix (list_ascii_of_string "inity") rest with
      | Some [] => Some (Infinity sign)
      | _ => None
      end
  | None =>
      match strip_prefix (list_ascii_of_string "nan") low with
      | Some diag =>
          if all_digits diag then Some (NaN sign false (digits_value diag)) else None
      | None =>
          match strip_prefix (list_ascii_of_string "snan") low with
          | Some diag =>
              if all_digits diag then Some (NaN sign true (digits_value diag)) else None
          | None => None
          end
      end
  end.

(** [Decimal(text)] on ASCII text: [text.strip().replace("_", "")] is
    matched against the pattern.  No rounding takes place: the coefficient
    keeps every digit of the text, and a number beyond the limits is
    rejected like text that is no number. *)
Definition Decimal_of_ascii (l : list ascii) : option Decimal :=
  let cleaned := filter (fun c => negb (Ascii.eqb c "_")) (strip l) in
  let '(sign, body) := split_sign cleaned in
  match parse_number body with
  | Some (coeff, exp) => Some (Finite sign coeff exp)
  | None => parse_special sign body
  end.

(** The precision of the default context. *)
Definition prec : Z := 28.

Definition pow10 (k : Z) : N := (10 ^ Z.to_N k)%N.

(** [_check_nans] for one operand under the default traps: a signaling
    NaN raises, a quiet one is returned with its payload cut to the
    precision. *)
Definition check_nans (self : Decimal) : option (result Decimal) :=
  match self with
  | NaN _ true _ => Some (Err InvalidOperation)
  | NaN s false p => Some (OK (NaN s false (p mod pow10 prec)%N))
  | _ => None
  end.

(** [self.shift(other)] for an integer [other]: the coefficient is padded
    or cut to exactly [prec] digits, moved by [other] places and cut to
    [prec] digits again; the sign and the exponent are unchanged. *)
Definition shift (self : Decimal) (other : Z) : result Decimal :=
  match check_nans self with
  | Some r => r
  | None =>
      if (other <? - prec) || (prec <? other) then Err InvalidOperation
      else
        match self with
        | Finite s c e =>
            let rotdig := (c mod pow10 prec)%N in
            let shifted :=
              if other <? 0 then (rotdig / pow10 (- other))%N
              else ((rotdig * pow10 other) mod pow10 prec)%N in
            OK (Finite s shifted e)
        | _ => OK self
        end
  end.

Inductive rounding : Type := ROUND_HALF_EVEN | ROUND_HALF_UP.

(** The rounding helpers look at the digits that are dropped.  Here [kept]
    is the number made of the digits that stay, [dropped] the number made
    of the [k] digits that go: 1 rounds away from zero, 0 is exact, -1
    truncates. *)
Definition round_half_up (dropped : N) (k : Z) : Z :=
  if (5 * pow10 (k - 1) <=? dropped)%N then 1
  else if (dropped =? 0)%N then 0
  else -1.

Definition round_half_even (kept dropped : N) (k : Z) : Z :=
  if (dropped =? 5 * pow10 (k - 1))%N && N.even kept then -1
  else round_half_up dropped k.

Definition pick_rounding_function (r : rounding) (kept dropped : N) (k : Z) : Z :=
  match r with
  | ROUND_HALF_EVEN => round_half_even kept dropped k
  | ROUND_HALF_UP => round_half_up dropped k
  end.

(** [_rescale(0, rounding)] of a finite number with a negative exponent:
    the last [- e] digits are dropped and the rest is rounded. *)
Definition rescale0 (r : rounding) (s : bool) (c : N) (e : Z) : Decimal :=
  if (c =? 0)%N then Finite s 0 0
  else
    let k := - e in
    let kept := (c / pow10 k)%N in
    let dropped := (c mod pow10 k)%N in
    let changed := pick_rounding_function r kept dropped k in
    Finite s (if changed =? 1 then (kept + 1)%N else kept) 0.

(** [self.to_integral_value(rounding)] *)
Definition to_integral_value (self : Decimal) (r : rounding) : result Decimal :=
  match self with
  | Finite s c e => if 0 <=? e then OK self else OK (rescale0 r s c e)
  | Infinity _ => OK self
  | NaN _ _ _ =>
      match check_nans self with
      | Some res => res
      | None => OK self
      end
  end.

(** The integer a finite decimal with a non-negative exponent stands for. *)
Definition integral (d : Decimal) : option Z :=
  match d with
  | Finite s c e =>
      if 0 <=? e then Some (apply_sign s (c * pow10 e)%N) else None
  | _ => None
  end.

(** ** The event record and the library calls left abstract *)

(** The dictionary [transform_record] returns.  Its six keys are fixed, so
    it is a record here.  The three pass-through fields hold whatever value
    the decoded line holds. *)
Record record : Type := Record {
  eventType : pyval;
  eventId : pyval;
  timestamp : datetime;
  userId : pyval;
  itemsInCart : Z;
  totalValue : Decimal
}.

(** Library behaviour that is not written out in this file:
    - [json_scan]: the scanner of [json.loads] where the scripts call it,
      from text to a document; [None] when it raises.  The scanner is
      recursive: it raises [JSONDecodeError] on text that is not
      well-formed JSON, and [RecursionError] when the nesting of the text
      uses up what is left of the interpreter's recursion limit at the
      call;
    - [json_too_deep]: whether the exception the scanner raises on the
      text is [RecursionError];
    - [dateutil_parser_parse]: [dateutil.parser.parse];
    - [int_of_unicode], [Decimal_of_unicode]: [int] and [Decimal] on text
      with characters outside ASCII, where the Unicode tables of digits and
      white space decide; [None] when the text is rejected, with
      [ValueError] and [InvalidOperation] as for ASCII text;
    - [Decimal_of_sequence]: [Decimal] applied to a list. *)
Class Externals : Type := {
  json_scan : string -> option json;
  json_too_deep : string -> bool;
  dateutil_parser_parse : pyval -> result datetime;
  int_of_unicode : string -> option Z;
  Decimal_of_unicode : string -> option Decimal;
  Decimal_of_sequence : list pyval -> result Decimal
}.

Section LibraryCalls.
Context `{Externals}.

(** [json.loads(s, parse_float=..., parse_int=...)] *)
Definition json_loads (parse_float parse_int : string -> pyval) (s : string)
  : result pyval :=
  match json_scan s with
  | Some j => OK (decode parse_float parse_int j)
  | None => Err (if json_too_deep s then RecursionError else JSONDecodeError)
  end.

(** [int(v)] *)
Definition py_int (v : pyval) : result Z :=
  match v with
  | PyStr s =>
      match (if ascii_text s then int_of_ascii (list_ascii_of_string s)
             else int_of_unicode s) with
      | Some n => OK n
      | None => Err ValueError
      end
  | PyBool b => OK (if b then 1 else 0)
  | PyFloat FNaN => Err ValueError
  | PyFloat _ => Err OverflowError
  | PyNone | PyList _ | PyDict _ => Err TypeError
  end.

(** [decimal.Decimal(v)] *)
Definition decimal_Decimal (v : pyval) : result Decimal :=
  match v with
  | PyStr s =>
      match (if ascii_text s then Decimal_of_ascii (list_ascii_of_string s)
             else Decimal_of_unicode s) with
      | Some d => OK d
      | None => Err InvalidOperation
      end
  | PyBool b => OK (Finite false (if b then 1 else 0)%N 0)
  | PyFloat FNaN => OK (NaN false false 0)
  | PyFloat FInf => OK (Infinity false)
  | PyFloat FNegInf => OK (Infinity true)
  | PyList items => Decimal_of_sequence items
  | PyNone | PyDict _ => Err TypeError
  end.
End LibraryCalls.

(** The built-in [str], as the scripts pass it for [parse_float] and
    [parse_int]: called on the text of a literal, it returns that text. *)
Definition str (s : string) : pyval := PyStr s.

(** ** The outside world *)

(** What a run does to the outside world, in order. *)
Inductive event : Type :=
| EStderr (text : string)              (* print(text, file=sys.stderr) *)
| ETraceback (e : pyerr)               (* report of an uncaught exception *)
| EOpenRead (path : string)            (* open(path) *)
| EOpenWrite (path : string)           (* open(path, "wb") *)
| EClose (path : string)
| EAppend (r : record)                 (* DataFileWriter.append(r) *)
| EWrite (rs : list record).           (* fastavro.writer(f, schema, rs) *)

(** The file system and the trace of the run.  A path stands for the file
    it names: two paths name the same file exactly when they are equal
    (there are no links and no second spelling of a path).  [locked] holds
    the paths that cannot be opened for writing. *)
Record world : Type := World {
  files : gmap string string;
  locked : gset string;
  trace : list event
}.

Inductive exn : Type :=
| SystemExit (status : Z)
| Exception (e : pyerr).

(** Computations that change the world and either return or raise. *)
Definition io (A : Type) : Type := world -> world * (exn + A).

#[global] Instance io_ret : MRet io := fun A a w => (w, inr a).

#[global] Instance io_bind : MBind io := fun A B k m w =>
  match m w with
  | (w', inr a) => k a w'
  | (w', inl x) => (w', inl x)
  end.

Definition emit (e : event) : io unit := fun w =>
  ({| files := files w; locked := locked w; trace := trace w ++ [e] |}, inr tt).

Definition raise {A : Type} (x : exn) : io A := fun w => (w, inl x).

Definition lift {A : Type} (r : result A) : io A :=
  match r with
  | OK a => mret a
  | Err e => raise (Exception e)
  end.

(** [try: body finally: cleanup] *)
Definition finally {A : Type} (body : io A) (cleanup : io unit) : io A := fun w =>
  match body w with
  | (w', r) =>
      match cleanup w' with
      | (w'', inr _) => (w'', r)
      | (w'', inl x) => (w'', inl x)
      end
  end.

(** [with open(path) as f: body(f.read())] *)
Definition with_open_read {A : Type} (path : string) (body : string -> io A) : io A :=
  emit (EOpenRead path) ≫= fun _ : unit =>
  (fun w =>
     match files w !! path with
     | Some content => finally (body content) (emit (EClose path)) w
     | None => raise (Exception (OSError path)) w
     end) : io A.

(** [with open(path, "wb") as f: body]: the file is created, or emptied if
    it exists, when it is opened. *)
Definition with_open_write {A : Type} (path : string) (body : io A) : io A :=
  emit (EOpenWrite path) ≫= fun _ : unit =>
  (fun w =>
     if decide (path ∈ locked w) then raise (Exception (OSError path)) w
     else
       finally body (emit (EClose path))
         {| files := <[path := EmptyString]> (files w); locked := locked w; trace := trace w |})
  : io A.

(** [f.readlines()]: the lines of the text, each with its line feed. *)
Fixpoint split_lines (cur : list ascii) (l : list ascii) : list string :=
  match l with
  | [] =>
      match cur with
      | [] => []
      | _ :: _ => [string_of_list_ascii (rev cur)]
      end
  | c :: t =>
      if Ascii.eqb c "010"
      then string_of_list_ascii (rev (c :: cur)) :: split_lines [] t
      else split_lines (c :: cur) t
  end.

Definition readlines (content : string) : list string :=
  split_lines [] (list_ascii_of_string content).

(** The Avro libraries: schemas and the writers' check of a datum against
    the schema. *)
Class AvroLibrary : Type := {
  schema : Type;
  load_schema : string -> result schema;
  datum_valid : schema -> record -> bool
}.

(** The process: run the script body, report an uncaught exception, and
    give the exit status. *)
Definition run (body : io unit) (w : world) : world * Z :=
  match body w with
  | (w', inr _) => (w', 0)
  | (w', inl (SystemExit status)) => (w', status)
  | (w', inl (Exception e)) =>
      ({| files := files w'; locked := locked w';
          trace := trace w' ++ [ETraceback e] |}, 1)
  end.

(** The records handed to an Avro writer during a run, in order. *)
Fixpoint handed (tr : list event) : list record :=
  match tr with
  | [] => []
  | EAppend r :: t => r :: handed t
  | EWrite rs :: t => (rs ++ handed t)%list
  | _ :: t => handed t
  end.

Definition quote : string := String "034" EmptyString.

(** The module docstring, [__doc__], the same in both scripts. *)
Definition doc : string :=
  " Converts an example ND/JSON file into an Avro file using the " ++ quote
  ++ "avro" ++ quote ++ " package.

    Invocation:

        PYTHONPATH=./lib convert.py SCHEMA_FILE JSON_FILE AVRO_RILE
    ".

Definition newline : string := String "010" EmptyString.

(** [print(text, file=sys.stderr)] *)
Definition print_stderr (text : string) : io unit := emit (EStderr (text ++ newline)).

(** [sys.exit(status)] *)
Definition sys_exit {A : Type} (status : Z) : io A := raise (SystemExit status).

(** ** The two scripts *)

Module PythonAvro.
Section WithExternals.
Context `{Externals} `{AvroLibrary}.

Definition transform_record (json_str : string) : result record :=
  data ← json_loads str str json_str;
  event_type ← subscript data "eventType";
  event_id ← subscript data "eventId";
  ts ← subscript data "timestamp";
  parsed ← dateutil_parser_parse ts;
  user_id ← subscript data "userId";
  items ← subscript data "itemsInCart";
  items_in_cart ← py_int items;
  total ← subscript data "totalValue";
  dec ← decimal_Decimal total;
  shifted ← shift dec 2;
  total_value ← to_integral_value shifted ROUND_HALF_EVEN;
  mret {| eventType := event_type;
          eventId := event_id;
          timestamp := replace_tzinfo parsed timezone_utc;
          userId := user_id;
          itemsInCart := items_in_cart;
          totalValue := total_value |}.

(** The loop [for line in f.readlines(): writer.append(transform_record(line))];
    [append] checks the datum against the schema. *)
Fixpoint append_all (sch : schema) (lines : list string) : io unit :=
  match lines with
  | [] => mret tt
  | line :: rest =>
      r ← lift (transform_record line);
      _ ← emit (EAppend r);
      _ ← (if datum_valid sch r then mret tt
           else raise (Exception (LibraryError "AvroTypeException")));
      append_all sch rest
  end.

Definition main (argv : list string) : io unit :=
  if negb (length argv =? 4)%nat then
    _ ← print_stderr doc;
    sys_exit 1
  else
    let schema_file := nth 1 argv EmptyString in
    let json_file := nth 2 argv EmptyString in
    let avro_file := nth 3 argv EmptyString in
    sch ← with_open_read schema_file (fun text => lift (load_schema text));
    with_open_write avro_file
      (with_open_read json_file (fun text => append_all sch (readlines text))).
End WithExternals.
End PythonAvro.

Module PythonFastavro.
Section WithExternals.
Context `{Externals} `{AvroLibrary}.

Definition transform_record (json_str : string) : result record :=
  data ← json_loads str str json_str;
  event_type ← subscript data "eventType";
  event_id ← subscript data "eventId";
  ts ← subscript data "timestamp";
  parsed ← dateutil_parser_parse ts;
  user_id ← subscript data "userId";
  items ← subscript data "itemsInCart";
  items_in_cart ← py_int items;
  total ← subscript data "totalValue";
  total_value ← decimal_Decimal total;
  mret {| eventType := event_type;
          eventId := event_id;
          timestamp := replace_tzinfo parsed timezone_utc;
          userId := user_id;
          itemsInCart := items_in_cart;
          totalValue := total_value |}.

(** [fastavro.writer(f, schema, records)] *)
Definition fastavro_writer (sch : schema) (records : list record) : io unit :=
  _ ← emit (EWrite records);
  if forallb (datum_valid sch) records then mret tt
  else raise (Exception (LibraryError "ValidationError")).

Definition main (argv : list string) : io unit :=
  if negb (length argv =? 4)%nat then
    _ ← print_stderr doc;
    sys_exit 1
  else
    let schema_file := nth 1 argv EmptyString in
    let json_file := nth 2 argv EmptyString in
    let avro_file := nth 3 argv EmptyString in
    sch ← with_open_read schema_file (fun text => lift (load_schema text));
    transformed ← with_open_read json_file
                    (fun text => lift (mapM transform_record (readlines text)));
    with_open_write avro_file (fastavro_writer sch transformed).
End WithExternals.
End PythonFastavro.


(** ** Reference instances of the abstract library calls

    An executable scanner for JSON text and a parser for ISO 8601
    timestamps, one of the formats [dateutil.parser.parse] accepts.  They
    serve to evaluate the scripts on concrete lines. *)

Module Reference.

Definition is_json_space (c : ascii) : bool :=
  (code c =? 32)%N || (code c =? 9)%N || (code c =? 10)%N || (code c =? 13)%N.

Definition skip_space (l : list ascii) : list ascii := drop_while is_json_space l.

Definition hex_value (c : ascii) : option N :=
  let n := code c in
  if (48 <=? n)%N && (n <=? 57)%N then Some (n - 48)%N
  else if (97 <=? n)%N && (n <=? 102)%N then Some (n - 87)%N
  else if (65 <=? n)%N && (n <=? 70)%N then Some (n - 55)%N
  else None.

(** Four hexadecimal digits. *)
Definition hex4 (l : list ascii) : option (N * list ascii) :=
  match l with
  | a :: b :: c :: d :: rest =>
      match hex_value a, hex_value b, hex_value c, hex_value d with
      | Some x, Some y, Some z, Some t =>
          Some (((x * 16 + y) * 16 + z) * 16 + t, rest)%N
      | _, _, _, _ => None
      end
  | _ => None
  end.

(** The bytes of a code point in UTF-8. *)
Definition utf8 (cp : N) : list ascii :=
  if (cp <? 128)%N then [ascii_of_N cp]
  else if (cp <? 2048)%N then
    [ascii_of_N (192 + cp / 64); ascii_of_N (128 + cp mod 64)]
  else if (cp <? 65536)%N then
    [ascii_of_N (224 + cp / 4096); ascii_of_N (128 + (cp / 64) mod 64);
     ascii_of_N (128 + cp mod 64)]
  else
    [ascii_of_N (240 + cp / 262144); ascii_of_N (128 + (cp / 4096) mod 64);
     ascii_of_N (128 + (cp / 64) mod 64); ascii_of_N (128 + cp mod 64)].

(** A [\uXXXX] escape, with the low half of a surrogate pair when one
    follows; [l] starts after the [u]. *)
Definition unicode_escape (l : list ascii) : option (list ascii * list ascii) :=
  match hex4 l with
  | Some (hi, rest) =>
      let single := Some (utf8 hi, rest) in
      if (55296 <=? hi)%N && (hi <=? 56319)%N then
        match rest with
        | b :: u :: rest' =>
            if Ascii.eqb b "\" && Ascii.eqb u "u" then
              match hex4 rest' with
              | Some (lo, rest'') =>
                  if (56320 <=? lo)%N && (lo <=? 57343)%N
                  then Some (utf8 (65536 + (hi - 55296) * 1024 + (lo - 56320)), rest'')%N
                  else single
              | None => None
              end
            else single
        | _ => single
        end
      else single
  | None => None
  end.

Definition simple_escape (c : ascii) : option ascii :=
  if Ascii.eqb c "034" then Some "034"%char
  else if Ascii.eqb c "\" then Some "\"%char
  else if Ascii.eqb c "/" then Some "/"%char
  else if Ascii.eqb c "b" then Some "008"%char
  else if Ascii.eqb c "f" then Some "012"%char
  else if Ascii.eqb c "n" then Some "010"%char
  else if Ascii.eqb c "r" then Some "013"%char
  else if Ascii.eqb c "t" then Some "009"%char
  else None.

(** The body of a string literal, after the opening quote. *)
Fixpoint scan_string (fuel : nat) (acc : list ascii) (l : list ascii)
  : option (string * list ascii) :=
  match fuel with
  | O => None
  | S fuel' =>
      match l with
      | [] => None
      | c :: t =>
          if Ascii.eqb c "034" then Some (string_of_list_ascii (rev acc), t)
          else if Ascii.eqb c "\" then
            match t with
            | e :: t' =>
                if Ascii.eqb e "u" then
                  match unicode_escape t' with
                  | Some (bytes, rest) => scan_string fuel' (rev bytes ++ acc)%list rest
                  | None => None
                  end
                else
                  match simple_escape e with
                  | Some x => scan_string fuel' (x :: acc) t'
                  | None => None
                  end
            | [] => None
            end
          else if (code c <? 32)%N then None
          else scan_string fuel' (c :: acc) t
      end
  end.

(** A number literal: an optional minus, then a zero or a non-zero digit
    with more digits, then an optional fraction (a point and at least one
    digit), then an optional exponent (e or E, an optional sign and at
    least one digit); the longest match is taken. *)
Definition scan_number (l : list ascii) : option (json * list ascii) :=
  let '(minus, l1) :=
    match l with
    | c :: t => if Ascii.eqb c "-" then ([c], t) else ([], l)
    | [] => ([], l)
    end in
  let '(ds, r1) := span_digits l1 in
  let int_match :=
    match ds with
    | [] => None
    | d :: more =>
        if Ascii.eqb d "0" then Some ([d], (more ++ r1)%list) else Some (ds, r1)
    end in
  match int_match with
  | None => None
  | Some (intpart, r2) =>
      let '(frac, r3) :=
        match r2 with
        | c :: t =>
            if Ascii.eqb c "." then
              match span_digits t with
              | ([], _) => ([], r2)
              | (fs, rest) => (c :: fs, rest)
              end
            else ([], r2)
        | [] => ([], r2)
        end in
      let '(expo, r4) :=
        match r3 with
        | c :: t =>
            if Ascii.eqb (lower c) "e" then
              let '(sgn, t') :=
                match t with
                | s :: t'' =>
                    if Ascii.eqb s "-" || Ascii.eqb s "+" then ([s], t'') else ([], t)
                | [] => ([], t)
                end in
              match span_digits t' with
              | ([], _) => ([], r3)
              | (es, rest) => ((c :: sgn) ++ es, rest)%list
              end
            else ([], r3)
        | [] => ([], r3)
        end in
      let text := string_of_list_ascii (minus ++ intpart ++ frac ++ expo)%list in
      match frac, expo with
      | [], [] => Some (JInt text, r4)
      | _, _ => Some (JFloat text, r4)
      end
  end.

Definition keywords : list (string * json) :=
  [("null", JNull); ("true", JBool true); ("false", JBool false);
   ("NaN", JConst JNaN); ("Infinity", JConst JInfinity);
   ("-Infinity", JConst JNegInfinity)].

Fixpoint scan_keyword (ks : list (string * json)) (l : list ascii)
  : option (json * list ascii) :=
  match ks with
  | [] => None
  | (k, v) :: ks' =>
      match strip_prefix (list_ascii_of_string k) l with
      | Some rest => Some (v, rest)
      | None => scan_keyword ks' l
      end
  end.

(** What the scanner makes of a text: a result, or one of its two
    errors. *)
Inductive scanned (A : Type) : Type :=
| Scanned (a : A)
| Malformed
| TooDeep.
Arguments Scanned {A} a.
Arguments Malformed {A}.
Arguments TooDeep {A}.

(** The scanner reports text that is not JSON in two ways.  Where a value
    is expected and none starts, it stops, and [raw_decode] raises
    [JSONDecodeError] at the top.  In the other cases (a string that does
    not end, a missing delimiter, a missing key) it builds the
    [JSONDecodeError] itself, where it stands, which takes three more
    levels of the recursion limit. *)
Definition error_levels : nat := 3.

Definition error_here {A : Type} (room : nat) : scanned A :=
  if (error_levels <=? room)%nat then Malformed else TooDeep.

(** One value, then the items of an array and the members of an object
    up to the closing bracket.  [room] is what is left of the recursion
    limit: the scanner enters one level for every array and object it
    opens, and the call of [parse_int], [parse_float] or [parse_constant]
    on a literal takes a level as well. *)
Fixpoint scan_value (fuel room : nat) (l : list ascii) : scanned (json * list ascii) :=
  match fuel with
  | O => Malformed
  | S fuel' =>
      match l with
      | [] => Malformed
      | c :: t =>
          if Ascii.eqb c "034" then
            match scan_string (length t) [] t with
            | Some (s, rest) => Scanned (JString s, rest)
            | None => error_here room
            end
          else if Ascii.eqb c "[" then
            match room with
            | O => TooDeep
            | S room' =>
                match skip_space t with
                | c' :: rest =>
                    if Ascii.eqb c' "]" then Scanned (JArray [], rest)
                    else scan_items fuel' room' [] (c' :: rest)
                | [] => Malformed
                end
            end
          else if Ascii.eqb c "{" then
            match room with
            | O => TooDeep
            | S room' =>
                match skip_space t with
                | c' :: rest =>
                    if Ascii.eqb c' "}" then Scanned (JObject [], rest)
                    else scan_members fuel' room' [] (c' :: rest)
                | [] => error_here room'
                end
            end
          else
            match scan_number l with
            | Some r => match room with O => TooDeep | S _ => Scanned r end
            | None =>
                match scan_keyword keywords l with
                | Some (JConst k, rest) =>
                    match room with O => TooDeep | S _ => Scanned (JConst k, rest) end
                | Some r => Scanned r
                | None => Malformed
                end
            end
      end
  end
with scan_items (fuel room : nat) (acc : list json) (l : list ascii)
  : scanned (json * list ascii) :=
  match fuel with
  | O => Malformed
  | S fuel' =>
      match scan_value fuel' room l with
      | Scanned (v, rest) =>
          match skip_space rest with
          | c :: rest' =>
              if Ascii.eqb c "]" then Scanned (JArray (rev (v :: acc)), rest')
              else if Ascii.eqb c ","
              then scan_items fuel' room (v :: acc) (skip_space rest')
              else error_here room
          | [] => error_here room
          end
      | Malformed => Malformed
      | TooDeep => TooDeep
      end
  end
with scan_members (fuel room : nat) (acc : list (string * json)) (l : list ascii)
  : scanned (json * list ascii) :=
  match fuel with
  | O => Malformed
  | S fuel' =>
      match l with
      | q :: t =>
          if Ascii.eqb q "034" then
            match scan_string (length t) [] t with
            | Some (key, rest) =>
                match skip_space rest with
                | colon :: rest1 =>
                    if Ascii.eqb colon ":" then
                      match scan_value fuel' room (skip_space rest1) with
                      | Scanned (v, rest2) =>
                          match skip_space rest2 with
                          | c :: rest3 =>
                              if Ascii.eqb c "}"
                              then Scanned (JObject (rev ((key, v) :: acc)), rest3)
                              else if Ascii.eqb c ","
                              then scan_members fuel' room ((key, v) :: acc)
                                     (skip_space rest3)
                              else error_here room
                          | [] => error_here room
                          end
                      | Malformed => Malformed
                      | TooDeep => TooDeep
                      end
                    else error_here room
                | [] => error_here room
                end
            | None => error_here room
            end
          else error_here room
      | [] => error_here room
      end
  end.

(** The levels left when the streaming script calls [json.loads] with the
    default recursion limit of 1000: the call happens five frames deep
    (the module, [transform_record], [loads], [decode], [raw_decode]) and
    the scanner may go down to level 999.  The list comprehension of the
    batch script adds a frame. *)
Definition recursion_room : nat := 994.

(** The whole document: white space, one value, white space.  The fuel is
    enough for every text: each call reads a character of its own, except
    that an opening bracket stands for two calls. *)
Definition scan_outcome (s : string) : scanned json :=
  let l := skip_space (list_ascii_of_string s) in
  match scan_value (S (2 * length l)) recursion_room l with
  | Scanned (j, rest) =>
      match skip_space rest with
      | [] => Scanned j
      | _ :: _ => Malformed
      end
  | Malformed => Malformed
  | TooDeep => TooDeep
  end.

Definition scan_document (s : string) : option json :=
  match scan_outcome s with
  | Scanned j => Some j
  | Malformed | TooDeep => None
  end.

Definition too_deep (s : string) : bool :=
  match scan_outcome s with
  | TooDeep => true
  | Scanned _ | Malformed => false
  end.

(** Two and four decimal digits. *)
Definition digits2 (l : list ascii) : option (Z * list ascii) :=
  match l with
  | a :: b :: rest =>
      if is_digit a && is_digit b
      then Some (Z.of_N (digits_value [a; b]), rest)
      else None
  | _ => None
  end.

Definition digits4 (l : list ascii) : option (Z * list ascii) :=
  match l with
  | a :: b :: c :: d :: rest =>
      if is_digit a && is_digit b && is_digit c && is_digit d
      then Some (Z.of_N (digits_value [a; b; c; d]), rest)
      else None
  | _ => None
  end.

Definition expect (c : ascii) (l : list ascii) : option (list ascii) :=
  match l with
  | x :: rest => if Ascii.eqb x c then Some rest else None
  | [] => None
  end.

(** The zone suffix: nothing (a naive value), [Z], or a signed
    [HH:MM] offset. *)
Definition iso_zone (l : list ascii) : option (option Z) :=
  match l with
  | [] => Some None
  | c :: rest =>
      if Ascii.eqb c "Z" then
        match rest with [] => Some (Some 0) | _ :: _ => None end
      else if Ascii.eqb c "+" || Ascii.eqb c "-" then
        match digits2 rest with
        | Some (h, r1) =>
            match expect ":" r1 with
            | Some r2 =>
                match digits2 r2 with
                | Some (m, []) =>
                    if (h <? 24) && (m <? 60) then
                      let off := h * 3600 + m * 60 in
                      Some (Some (if Ascii.eqb c "-" then - off else off))
                    else None
                | _ => None
                end
            | None => None
            end
        | None => None
        end
      else None
  end.

(** Up to six fraction digits, as microseconds. *)
Definition iso_fraction (l : list ascii) : option (Z * list ascii) :=
  match l with
  | c :: t =>
      if Ascii.eqb c "." then
        let '(ds, rest) := span_digits t in
        let n := length ds in
        if (1 <=? n)%nat && (n <=? 6)%nat
        then Some (Z.of_N (digits_value ds) * 10 ^ Z.of_nat (6 - n), rest)
        else None
      else Some (0, l)
  | [] => Some (0, [])
  end.

(** [YYYY-MM-DD], then [T] or a space, [HH:MM:SS], an optional fraction
    and an optional zone. *)
Definition iso8601 (s : string) : option datetime :=
  y ← digits4 (list_ascii_of_string s);
  r1 ← expect "-" y.2;
  mo ← digits2 r1;
  r2 ← expect "-" mo.2;
  d ← digits2 r2;
  r3 ← match d.2 with
       | c :: t => if Ascii.eqb c "T" || Ascii.eqb c " " then Some t else None
       | [] => None
       end;
  h ← digits2 r3;
  r4 ← expect ":" h.2;
  mi ← digits2 r4;
  r5 ← expect ":" mi.2;
  se ← digits2 r5;
  us ← iso_fraction se.2;
  tz ← iso_zone us.2;
  if (1 <=? y.1) && (1 <=? mo.1) && (mo.1 <=? 12) && (1 <=? d.1)
     && (d.1 <=? days_in_month y.1 mo.1)
     && (h.1 <? 24) && (mi.1 <? 60) && (se.1 <? 60)
  then Some {| year := y.1; month := mo.1; day := d.1;
               hour := h.1; minute := mi.1; second := se.1;
               microsecond := us.1; tzinfo := tz |}
  else None.

(** [dateutil.parser.parse] on the ISO 8601 fragment: other text is
    rejected with [ParserError], a value that is not text with
    [TypeError]. *)
Definition parse_timestamp (v : pyval) : result datetime :=
  match v with
  | PyStr s =>
      match iso8601 s with
      | Some dt => OK dt
      | None => Err ParserError
      end
  | _ => Err TypeError
  end.

(** The reference instance.  The conversions of text outside ASCII and of
    sequences are not evaluated by any example; they are rejected here. *)
Definition externals : Externals :=
  {| json_scan := scan_document;
     json_too_deep := too_deep;
     dateutil_parser_parse := parse_timestamp;
     int_of_unicode := fun _ => None;
     Decimal_of_unicode := fun _ => None;
     Decimal_of_sequence := fun _ => Err ValueError |}.

(** An Avro library that takes the schema text as the schema and accepts
    every datum. *)
Definition avro_library : AvroLibrary :=
  {| schema := string;
     load_schema := fun text => OK text;
     datum_valid := fun _ _ => true |}.

End Reference.

(** ** Notions used to state the properties *)

(** The value a JSON object binds to a key: the last member with that
    key, as in Python's [dict]. *)
Fixpoint json_member (members : list (string * json)) (key : string) : option json :=
  match members with
  | [] => None
  | (k, v) :: rest =>
      match json_member rest key with
      | Some v' => Some v'
      | None => if decide (k = key) then Some v else None
      end
  end.

(** The six keys [transform_record] reads, in the order it reads them. *)
Definition required_keys : list string :=
  ["eventType"; "eventId"; "timestamp"; "userId"; "itemsInCart"; "totalValue"].

Section Steps.
Context `{Externals}.

(** The steps the two variants share, all successful: the line scans to
    the document [j], the four lookups that are passed through or need
    no conversion succeed, the time stamp parses to [parsed] and the item
    count converts to [n]; [total] is the value found under
    [totalValue]. *)
Definition common_steps (line : string) (j : json)
    (event_type event_id : pyval) (parsed : datetime) (user_id : pyval)
    (n : Z) (total : pyval) : Prop :=
  let data := decode str str j in
  json_scan line = Some j
  /\ subscript data "eventType" = OK event_type
  /\ subscript data "eventId" = OK event_id
  /\ (exists ts, subscript data "timestamp" = OK ts
                 /\ dateutil_parser_parse ts = OK parsed)
  /\ subscript data "userId" = OK user_id
  /\ (exists items, subscript data "itemsInCart" = OK items
                    /\ py_int items = OK n)
  /\ subscript data "totalValue" = OK total.
End Steps.

(** *** Instants *)

(** What normalising to UTC asks of the time stamp [out] made from the
    parsed value [parsed]: [out] is attached to UTC, and it denotes the
    instant of [parsed] when [parsed] is aware, or shows the clock reading
    of [parsed] when [parsed] is naive. *)
Definition normalised_to_utc (parsed out : datetime) : Prop :=
  tzinfo out = Some 0
  /\ match tzinfo parsed with
     | Some _ => instant out = instant parsed
     | None => out = replace_tzinfo parsed 0
     end.

(** *** Rounding *)

(** [m] is the integer nearest to the fraction [n / d], the even one of
    the two when [n / d] lies half way between them. *)
Definition nearest_half_even (n d m : Z) : Prop :=
  2 * Z.abs (n - m * d) <= d
  /\ (2 * Z.abs (n - m * d) = d -> Z.even m = true).

(** One hundred times the value of the finite decimal with sign [s],
    coefficient [c] and exponent [e], as a fraction: numerator and
    denominator. *)
Definition cents_fraction (s : bool) (c : N) (e : Z) : Z * Z :=
  if 0 <=? e + 2
  then (apply_sign s c * 10 ^ (e + 2), 1)
  else (apply_sign s c, 10 ^ (- (e + 2))).

(** The number of decimal digits of a coefficient is at most [k]. *)
Definition digits_at_most (k : Z) (c : N) : Prop := (c < pow10 k)%N.

(** The decimal [out] is the integer nearest, ties to even, to one hundred
    times the value of the finite decimal [(s, c, e)]. *)
Definition rounds_cents (s : bool) (c : N) (e : Z) (out : Decimal) : Prop :=
  exists m, integral out = Some m
            /\ nearest_half_even (cents_fraction s c e).1 (cents_fraction s c e).2 m.

(** *** Integer text *)

(** Groups of digits joined by single underscores. *)
Definition join_groups (groups : list (list ascii)) : list ascii :=
  match groups with
  | [] => []
  | g :: more => (g ++ flat_map (fun g' => "_"%char :: g') more)%list
  end.

(** No sign, a plus or a minus. *)
Definition sign_text (signed : list ascii) (negative : bool) : Prop :=
  (signed = [] /\ negative = false)
  \/ (signed = ["+"%char] /\ negative = false)
  \/ (signed = ["-"%char] /\ negative = true).

(** The text [s] is the representation of the integer [n]: an optional
    sign and decimal digits, read positionally; as Python writes integers,
    single underscores may separate groups of digits and white space may
    surround the whole.  With [max_digits] the number of digits is bounded
    as well. *)
Definition integer_text (max_digits : option N) (s : string) (n : Z) : Prop :=
  exists before signed negative groups after,
    list_ascii_of_string s = (before ++ signed ++ join_groups groups ++ after)%list
    /\ forallb Py_ISSPACE before = true
    /\ forallb Py_ISSPACE after = true
    /\ sign_text signed negative
    /\ groups <> []
    /\ Forall (fun g => g <> [] /\ all_digits g = true) groups
    /\ match max_digits with
       | Some m => (N.of_nat (length (concat groups)) <= m)%N
       | None => True
       end
    /\ n = apply_sign negative (digits_value (concat groups)).

(** The value of a run of digits read after the digits that gave [acc]. *)
Definition digits_from (acc : N) (ds : list ascii) : N :=
  fold_left (fun a c => (a * 10 + digit_value c)%N) ds acc.

(** What can follow the digits of an integer: nothing, or a character that
    is neither a digit nor an underscore. *)
Definition ends_digits (tail : list ascii) : Prop :=
  match tail with
  | [] => True
  | c :: _ => is_digit c = false /\ Ascii.eqb c "_" = false
  end.

(** *** Requoting numbers *)

(** [v'] is [v], or [v] is a number literal and [v'] is the string with the
    same characters. *)
Definition requoted (v v' : json) : Prop :=
  v' = v
  \/ (exists s, (v = JInt s \/ v = JFloat s) /\ v' = JString s).

(** Two member lists that differ only by requoting numbers. *)
Definition members_requoted (ms ms' : list (string * json)) : Prop :=
  Forall2 (fun m m' => m.1 = m'.1 /\ requoted m.2 m'.2) ms ms'.

(** *** Error classes of the specification *)

Inductive error_class : Type :=
| KeyErrorClass
| ParseErrorClass
| ValueErrorClass
| OtherClass.

(** [JSONDecodeError] is the parse error; the errors raised for malformed
    text by the date parser, by [int] and by [Decimal] count as value
    errors. *)
Definition class_of (e : pyerr) : error_class :=
  match e with
  | KeyError _ => KeyErrorClass
  | JSONDecodeError => ParseErrorClass
  | ValueError | ParserError | InvalidOperation | OverflowError => ValueErrorClass
  | TypeError | RecursionError | OSError _ | LibraryError _ => OtherClass
  end.

(** *** Example lines *)

Definition quoted (s : string) : string := quote ++ s ++ quote.

(** A line with the given time stamp, item count and total; the last two
    are written into the line as they are, so that they can be given with
    or without quotes. *)
Definition example_line (ts items total : string) : string :=
  "{" ++ quoted "eventType" ++ ": " ++ quoted "addToCart" ++ ", "
  ++ quoted "eventId" ++ ": " ++ quoted "e-1" ++ ", "
  ++ quoted "timestamp" ++ ": " ++ quoted ts ++ ", "
  ++ quoted "userId" ++ ": " ++ quoted "u-7" ++ ", "
  ++ quoted "itemsInCart" ++ ": " ++ items ++ ", "
  ++ quoted "totalValue" ++ ": " ++ total ++ "}" ++ newline.

(** *** Outcome by first failure *)

(** The decimal conversion of the scaled variant, as one step. *)
Definition scaled_total `{Externals} (v : pyval) : result Decimal :=
  dec ← decimal_Decimal v;
  shifted ← shift dec 2;
  to_integral_value shifted ROUND_HALF_EVEN.

(** The document of a line, or the error of the scanner. *)
Definition json_document `{Externals} (line : string) : result json :=
  match json_scan line with
  | Some j => OK j
  | None => Err (if json_too_deep line then RecursionError else JSONDecodeError)
  end.

(** The outcome of a transformation, told in the order of the checks: the
    scanner has to return a document, the document has to be an object, and
    then, field after field in the order [eventType], [eventId],
    [timestamp], [userId], [itemsInCart], [totalValue], the key has to be
    present and its conversion (if it has one) has to accept the value.
    The first check that fails gives the error; [conv] is the conversion of
    [totalValue]. *)
Definition outcome_by_first_failure `{Externals} (conv : pyval -> result Decimal)
    (document : result json) : result record :=
  match document with
  | Err e => Err e
  | OK (JObject ms) =>
      let field (key : string) : result pyval :=
        match json_member ms key with
        | Some v => OK (decode str str v)
        | None => Err (KeyError key)
        end in
      event_type ← field "eventType";
      event_id ← field "eventId";
      ts ← field "timestamp";
      parsed ← dateutil_parser_parse ts;
      user_id ← field "userId";
      items ← field "itemsInCart";
      n ← py_int items;
      total ← field "totalValue";
      d ← conv total;
      OK {| eventType := event_type; eventId := event_id;
            timestamp := replace_tzinfo parsed timezone_utc;
            userId := user_id; itemsInCart := n; totalValue := d |}
  | OK _ => Err TypeError
  end.

(** The three failure conditions the specification names, read on the
    decoded document: the line is not well-formed JSON; one of the six keys
    is missing from the object; the time stamp or a numeric field is there
    and its conversion rejects it. *)
Definition malformed_json `{Externals} (line : string) : Prop :=
  json_scan line = None /\ json_too_deep line = false.

(** The line is nested more deeply than the recursion limit lets the
    scanner go. *)
Definition nested_too_deep `{Externals} (line : string) : Prop :=
  json_scan line = None /\ json_too_deep line = true.

Definition key_missing `{Externals} (line : string) : Prop :=
  exists j k, json_scan line = Some j /\ In k required_keys
              /\ subscript (decode str str j) k = Err (KeyError k).

Definition field_malformed `{Externals} (conv : pyval -> result Decimal)
    (line : string) : Prop :=
  exists j v, json_scan line = Some j
    /\ ((subscript (decode str str j) "timestamp" = OK v /\ fails (dateutil_parser_parse v))
        \/ (subscript (decode str str j) "itemsInCart" = OK v /\ fails (py_int v))
        \/ (subscript (decode str str j) "totalValue" = OK v /\ fails (conv v))).

Definition not_an_object `{Externals} (line : string) : Prop :=
  exists j, json_scan line = Some j /\ forall ms, j <> JObject ms.

(** The error behaviour the specification states for a transformer [t]:
    each condition leads to a failure of its class, and [t] succeeds exactly
    when none of the three conditions holds. *)
Definition error_claim `{Externals} (t : string -> result record)
    (conv : pyval -> result Decimal) (line : string) : Prop :=
  (malformed_json line -> exists e, t line = Err e /\ class_of e = ParseErrorClass)
  /\ (key_missing line -> exists e, t line = Err e /\ class_of e = KeyErrorClass)
  /\ (field_malformed conv line -> exists e, t line = Err e /\ class_of e = ValueErrorClass)
  /\ (succeeds (t line) <->
      ~ malformed_json line /\ ~ key_missing line /\ ~ field_malformed conv line).

(** *** Valid lines *)

(** The conversion of the field [key] accepts the value [v]; the
    pass-through fields have no conversion, and [conv] is the conversion of
    [totalValue]. *)
Definition accepted `{Externals} (conv : pyval -> result Decimal)
    (key : string) (v : pyval) : Prop :=
  if String.eqb key "timestamp" then succeeds (dateutil_parser_parse v)
  else if String.eqb key "itemsInCart" then succeeds (py_int v)
  else if String.eqb key "totalValue" then succeeds (conv v)
  else True.

(** The object holds every key of [keys], with a value its conversion
    accepts.  A line is valid for a variant when it is an object whose six
    fields are valid. *)
Definition fields_valid `{Externals} (conv : pyval -> result Decimal)
    (keys : list string) (ms : list (string * json)) : Prop :=
  forall k, In k keys ->
    exists v, json_member ms k = Some v /\ accepted conv k (decode str str v).

(** The decoded value a JSON object holds under a key. *)
Definition field_value (ms : list (string * json)) (key : string) : pyval :=
  match json_member ms key with
  | Some v => decode str str v
  | None => PyNone
  end.

(** The required keys other than [itemsInCart]. *)
Definition other_keys : list string :=
  ["eventType"; "eventId"; "timestamp"; "userId"; "totalValue"].

(** What the specification says of [itemsInCart], for a notion [valid] of
    the text of a valid integer: when the field holds such a text, every
    output shows the integer, and there is an output when the other fields
    are valid; when it holds another text, the transformation fails. *)
Definition items_claim `{Externals} (valid : string -> Z -> Prop) (line : string) : Prop :=
  forall ms v s,
    json_scan line = Some (JObject ms) ->
    json_member ms "itemsInCart" = Some v ->
    decode str str v = PyStr s ->
    (forall n, valid s n ->
       (forall r, PythonAvro.transform_record line = OK r
                  \/ PythonFastavro.transform_record line = OK r ->
                  itemsInCart r = n)
       /\ (fields_valid scaled_total other_keys ms ->
           exists r, PythonAvro.transform_record line = OK r /\ itemsInCart r = n)
       /\ (fields_valid decimal_Decimal other_keys ms ->
           exists r, PythonFastavro.transform_record line = OK r /\ itemsInCart r = n))
    /\ (ascii_text s = true -> (forall n, ~ valid s n) ->
        fails (PythonAvro.transform_record line)
        /\ fails (PythonFastavro.transform_record line)).

(** *** Concrete inputs *)

(** The time stamp with an offset of minus five hours, and the instant it
    denotes written in UTC. *)
Definition offset_timestamp : string := "2023-01-25T10:00:00-05:00".
Definition offset_timestamp_in_utc : string := "2023-01-25T15:00:00Z".

Definition offset_line : string :=
  example_line offset_timestamp (quoted "3") (quoted "19.995").

Definition offset_members : list (string * json) :=
  [("eventType", JString "addToCart"); ("eventId", JString "e-1");
   ("timestamp", JString offset_timestamp); ("userId", JString "u-7");
   ("itemsInCart", JString "3"); ("totalValue", JString "19.995")].

(** The same line with the two numbers written without quotes. *)
Definition unquoted_line : string := example_line offset_timestamp "3" "19.995".

Definition unquoted_members : list (string * json) :=
  [("eventType", JString "addToCart"); ("eventId", JString "e-1");
   ("timestamp", JString offset_timestamp); ("userId", JString "u-7");
   ("itemsInCart", JInt "3"); ("totalValue", JFloat "19.995")].

Definition clock_10 (tz : option Z) : datetime :=
  {| year := 2023; month := 1; day := 25; hour := 10; minute := 0; second := 0;
     microsecond := 0; tzinfo := tz |}.

Definition offset_record (total : Decimal) : record :=
  {| eventType := PyStr "addToCart"; eventId := PyStr "e-1";
     timestamp := clock_10 (Some 0); userId := PyStr "u-7";
     itemsInCart := 3; totalValue := total |}.

(** A total of one, written with 26 zeros after the point: its coefficient
    has 27 digits. *)
Definition long_total : string := "1.00000000000000000000000000".

Definition long_line : string :=
  example_line "2023-01-25T10:00:00" "3" (quoted long_total).

Definition long_members : list (string * json) :=
  [("eventType", JString "addToCart"); ("eventId", JString "e-1");
   ("timestamp", JString "2023-01-25T10:00:00"); ("userId", JString "u-7");
   ("itemsInCart", JInt "3"); ("totalValue", JString long_total)].

(** A line that is well-formed JSON but not an object. *)
Definition array_line : string := "[1, 2]" ++ newline.

(** *** Runs *)

(** The world at the start of a process: the given files, nothing done
    yet. *)
Definition fresh (fs : gmap string string) (lk : gset string) : world :=
  {| files := fs; locked := lk; trace := [] |}.

(** The world after more events. *)
Definition after (w : world) (events : list event) : world :=
  {| files := files w; locked := locked w; trace := (trace w ++ events)%list |}.

(** *** One record per line *)


(** A small file system for the examples: a schema and an input of two
    lines. *)
Definition two_lines : string :=
  example_line "2023-01-25T10:00:00" "3" "19.995"
  ++ example_line "2023-01-25T11:30:00Z" "1" "5".

Definition example_files : gmap string string :=
  <["events.json" := two_lines]> (<["schema.avsc" := "{}"]> ∅).

(** *** What a computation leaves alone *)

(** The computation [m] changes no file other than [out] and no lock, only
    adds events to the trace, and leaves the process, if it does, with
    status 1. *)
Definition confined (out : string) {A : Type} (m : io A) : Prop :=
  forall w w' r,
    m w = (w', r) ->
    (forall p, p <> out -> files w' !! p = files w !! p)
    /\ locked w' = locked w
    /\ (exists events, trace w' = (trace w ++ events)%list)
    /\ (forall status, r = inl (SystemExit status) -> status = 1).

(** *** Characters of an integer text *)

(** The characters [int] can accept somewhere in a text: digits, the
    underscore, the two signs and white space. *)
Definition int_char (c : ascii) : bool :=
  is_digit c || Ascii.eqb c "_" || Ascii.eqb c "-" || Ascii.eqb c "+" || Py_ISSPACE c.

(** *** More concrete inputs *)

(** The lines of a file, put together again. *)
Definition join_lines (lines : list string) : string :=
  fold_right String.append EmptyString lines.

Definition plain_line : string := example_line "2023-01-25T10:00:00" "3" "12.34".

Definition plain_members : list (string * json) :=
  [("eventType", JString "addToCart"); ("eventId", JString "e-1");
   ("timestamp", JString "2023-01-25T10:00:00"); ("userId", JString "u-7");
   ("itemsInCart", JInt "3"); ("totalValue", JFloat "12.34")].

(** The same event with its keys in another order, a key that is not
    read, and [userId] given twice. *)
Definition shuffled_line : string :=
  "{" ++ quoted "totalValue" ++ ": 12.34, " ++ quoted "userId" ++ ": " ++ quoted "old" ++ ", "
  ++ quoted "note" ++ ": [1, 2], " ++ quoted "itemsInCart" ++ ": 3, "
  ++ quoted "timestamp" ++ ": " ++ quoted "2023-01-25T10:00:00" ++ ", "
  ++ quoted "eventId" ++ ": " ++ quoted "e-1" ++ ", "
  ++ quoted "userId" ++ ": " ++ quoted "u-7" ++ ", "
  ++ quoted "eventType" ++ ": " ++ quoted "addToCart" ++ "}" ++ newline.

Definition shuffled_members : list (string * json) :=
  [("totalValue", JFloat "12.34"); ("userId", JString "old");
   ("note", JArray [JInt "1"; JInt "2"]); ("itemsInCart", JInt "3");
   ("timestamp", JString "2023-01-25T10:00:00"); ("eventId", JString "e-1");
   ("userId", JString "u-7"); ("eventType", JString "addToCart")].

(** Lines with a total that is not a number, with a count written with a
    decimal point, and with a count that is a boolean. *)
Definition nan_line : string := example_line "2023-01-25T10:00:00" "3" (quoted "NaN").

Definition nan_members : list (string * json) :=
  [("eventType", JString "addToCart"); ("eventId", JString "e-1");
   ("timestamp", JString "2023-01-25T10:00:00"); ("userId", JString "u-7");
   ("itemsInCart", JInt "3"); ("totalValue", JString "NaN")].

Definition point_line : string := example_line "2023-01-25T10:00:00" "3.0" "12.34".

Definition point_members : list (string * json) :=
  [("eventType", JString "addToCart"); ("eventId", JString "e-1");
   ("timestamp", JString "2023-01-25T10:00:00"); ("userId", JString "u-7");
   ("itemsInCart", JFloat "3.0"); ("totalValue", JFloat "12.34")].

Definition true_line : string := example_line "2023-01-25T10:00:00" "true" "12.34".

Definition true_members : list (string * json) :=
  [("eventType", JString "addToCart"); ("eventId", JString "e-1");
   ("timestamp", JString "2023-01-25T10:00:00"); ("userId", JString "u-7");
   ("itemsInCart", JBool true); ("totalValue", JFloat "12.34")].

(** A line whose pass-through fields are a number, [null] and a string. *)
Definition typed_line : string :=
  "{" ++ quoted "eventType" ++ ": 7, " ++ quoted "eventId" ++ ": null, "
  ++ quoted "timestamp" ++ ": " ++ quoted "2023-01-25T10:00:00" ++ ", "
  ++ quoted "userId" ++ ": " ++ quoted "u-7" ++ ", "
  ++ quoted "itemsInCart" ++ ": 3, " ++ quoted "totalValue" ++ ": 12.34}" ++ newline.

Definition typed_members : list (string * json) :=
  [("eventType", JInt "7"); ("eventId", JNull);
   ("timestamp", JString "2023-01-25T10:00:00"); ("userId", JString "u-7");
   ("itemsInCart", JInt "3"); ("totalValue", JFloat "12.34")].

(** An input of three lines whose second line is not an object, and the
    files around it. *)
Definition broken_input : string := plain_line ++ array_line ++ plain_line.

Definition broken_files : gmap string string :=
  <["events.json" := broken_input]> (<["schema.avsc" := "{}"]> ∅).


Definition convert_argv : list string :=
  ["convert.py"; "schema.avsc"; "events.json"; "out.avro"].

(** *** Inputs at the limits *)

(** An item count of 4301 digits, one more than [int] converts. *)
Definition long_count : string := string_of_list_ascii (repeat "1"%char 4301).

Definition long_count_line : string :=
  example_line "2023-01-25T10:00:00" (quoted long_count) "12.34".

Definition long_count_members : list (string * json) :=
  [("eventType", JString "addToCart"); ("eventId", JString "e-1");
   ("timestamp", JString "2023-01-25T10:00:00"); ("userId", JString "u-7");
   ("itemsInCart", JString long_count); ("totalValue", JFloat "12.34")].

(** Arrays nested [n] deep. *)
Definition nested (n : nat) : string :=
  string_of_list_ascii (repeat "["%char n ++ repeat "]"%char n).

(** The valid line [plain_line] with one more field, which is not read;
    it holds arrays nested [n] deep. *)
Definition noted_line (n : nat) : string :=
  "{" ++ quoted "note" ++ ": " ++ nested n ++ ", "
  ++ quoted "eventType" ++ ": " ++ quoted "addToCart" ++ ", "
  ++ quoted "eventId" ++ ": " ++ quoted "e-1" ++ ", "
  ++ quoted "timestamp" ++ ": " ++ quoted "2023-01-25T10:00:00" ++ ", "
  ++ quoted "userId" ++ ": " ++ quoted "u-7" ++ ", "
  ++ quoted "itemsInCart" ++ ": 3, " ++ quoted "totalValue" ++ ": 12.34}" ++ newline.

(** With the object itself the nesting of this line is one level more than
    the scanner has room for. *)
Definition deep_line : string := noted_line Reference.recursion_room.


(** * Properties *)

(** ** The error monad *)

Lemma bind_OK_inv {A B : Type} (m : result A) (k : A -> result B) (b : B) :
  m ≫= k = OK b -> exists a, m = OK a /\ k a = OK b.
Proof. destruct m as [a|e]; simpl; [eauto | discriminate]. Qed.

Lemma bind_OK {A B : Type} (m : result A) (k : A -> result B) (a : A) :
  m = OK a -> m ≫= k = k a.
Proof. intros ->. reflexivity. Qed.

(** ** Dictionaries made from JSON objects *)

Lemma fold_insert_lookup (ps : list (string * pyval)) (d : gmap string pyval) (key : string) :
  fold_left (fun (d : gmap string pyval) kv => <[kv.1 := kv.2]> d) ps d !! key
  = match fold_left (fun (d : gmap string pyval) kv => <[kv.1 := kv.2]> d) ps ∅ !! key with
    | Some v => Some v
    | None => d !! key
    end.
Proof.
  revert d. induction ps as [|[k v] ps IH]; intros d; simpl.
  - rewrite lookup_empty. reflexivity.
  - rewrite IH. rewrite (IH (<[k:=v]> ∅)).
    destruct (fold_left _ ps ∅ !! key) as [w|]; [reflexivity|].
    destruct (decide (k = key)) as [->|Hne].
    + rewrite !lookup_insert_eq. reflexivity.
    + rewrite !lookup_insert_ne by assumption. rewrite lookup_empty. reflexivity.
Qed.

Lemma dict_of_pairs_lookup (f : json -> pyval) (ms : list (string * json)) (key : string) :
  dict_of_pairs (map (fun kv => (kv.1, f kv.2)) ms) !! key = f <$> json_member ms key.
Proof.
  unfold dict_of_pairs. induction ms as [|[k v] ms IH]; simpl.
  - apply lookup_empty.
  - rewrite fold_insert_lookup, IH.
    destruct (json_member ms key) as [w|]; simpl; [reflexivity|].
    destruct (decide (k = key)) as [->|Hne]; simpl.
    + apply lookup_insert_eq.
    + rewrite lookup_insert_ne by assumption. apply lookup_empty.
Qed.

(** Looking a key up in a decoded object. *)
Lemma subscript_object (pf pi : string -> pyval) (ms : list (string * json)) (key : string) :
  subscript (decode pf pi (JObject ms)) key
  = match json_member ms key with
    | Some v => OK (decode pf pi v)
    | None => Err (KeyError key)
    end.
Proof.
  simpl. rewrite dict_of_pairs_lookup.
  destruct (json_member ms key); reflexivity.
Qed.

(** ** What a successful transformation went through *)

Section Inversion.
Context `{Externals}.

Lemma json_loads_OK (line : string) (data : pyval) :
  json_loads str str line = OK data ->
  exists j, json_scan line = Some j /\ data = decode str str j.
Proof.
  unfold json_loads. destruct (json_scan line) as [j|]; [|discriminate].
  intros [= <-]. eauto.
Qed.

Lemma fastavro_steps (line : string) (r : record) :
  PythonFastavro.transform_record line = OK r <->
  exists j parsed total,
    common_steps line j (eventType r) (eventId r) parsed (userId r) (itemsInCart r) total
    /\ timestamp r = replace_tzinfo parsed timezone_utc
    /\ decimal_Decimal total = OK (totalValue r).
Proof.
  unfold PythonFastavro.transform_record, common_steps. split.
  - intros Ht.
    apply bind_OK_inv in Ht as (data & Hd & Ht).
    apply json_loads_OK in Hd as (j & Hj & ->).
    apply bind_OK_inv in Ht as (et & Het & Ht).
    apply bind_OK_inv in Ht as (ei & Hei & Ht).
    apply bind_OK_inv in Ht as (ts & Hts & Ht).
    apply bind_OK_inv in Ht as (parsed & Hp & Ht).
    apply bind_OK_inv in Ht as (ui & Hui & Ht).
    apply bind_OK_inv in Ht as (items & Hit & Ht).
    apply bind_OK_inv in Ht as (n & Hn & Ht).
    apply bind_OK_inv in Ht as (total & Htot & Ht).
    apply bind_OK_inv in Ht as (d & Hdec & Ht).
    injection Ht as <-. simpl.
    exists j, parsed, total. repeat split; eauto.
  - intros (j & parsed & total & (Hj & Het & Hei & (ts & Hts & Hp) & Hui & (items & Hit & Hn) & Htot)
            & Htime & Hdec).
    unfold json_loads. rewrite Hj. simpl.
    rewrite Het; simpl. rewrite Hei; simpl. rewrite Hts; simpl. rewrite Hp; simpl.
    rewrite Hui; simpl. rewrite Hit; simpl. rewrite Hn; simpl. rewrite Htot; simpl.
    rewrite Hdec; simpl. rewrite <- Htime. destruct r; reflexivity.
Qed.

Lemma avro_steps (line : string) (r : record) :
  PythonAvro.transform_record line = OK r <->
  exists j parsed total dec shifted,
    common_steps line j (eventType r) (eventId r) parsed (userId r) (itemsInCart r) total
    /\ timestamp r = replace_tzinfo parsed timezone_utc
    /\ decimal_Decimal total = OK dec
    /\ shift dec 2 = OK shifted
    /\ to_integral_value shifted ROUND_HALF_EVEN = OK (totalValue r).
Proof.
  unfold PythonAvro.transform_record, common_steps. split.
  - intros Ht.
    apply bind_OK_inv in Ht as (data & Hd & Ht).
    apply json_loads_OK in Hd as (j & Hj & ->).
    apply bind_OK_inv in Ht as (et & Het & Ht).
    apply bind_OK_inv in Ht as (ei & Hei & Ht).
    apply bind_OK_inv in Ht as (ts & Hts & Ht).
    apply bind_OK_inv in Ht as (parsed & Hp & Ht).
    apply bind_OK_inv in Ht as (ui & Hui & Ht).
    apply bind_OK_inv in Ht as (items & Hit & Ht).
    apply bind_OK_inv in Ht as (n & Hn & Ht).
    apply bind_OK_inv in Ht as (total & Htot & Ht).
    apply bind_OK_inv in Ht as (d & Hdec & Ht).
    apply bind_OK_inv in Ht as (sh & Hsh & Ht).
    apply bind_OK_inv in Ht as (tv & Htv & Ht).
    injection Ht as <-. simpl.
    exists j, parsed, total, d, sh. repeat split; eauto.
  - intros (j & parsed & total & d & sh
            & (Hj & Het & Hei & (ts & Hts & Hp) & Hui & (items & Hit & Hn) & Htot)
            & Htime & Hdec & Hsh & Htv).
    unfold json_loads. rewrite Hj. simpl.
    rewrite Het; simpl. rewrite Hei; simpl. rewrite Hts; simpl. rewrite Hp; simpl.
    rewrite Hui; simpl. rewrite Hit; simpl. rewrite Hn; simpl. rewrite Htot; simpl.
    rewrite Hdec; simpl. rewrite Hsh; simpl. rewrite Htv; simpl.
    rewrite <- Htime. destruct r; reflexivity.
Qed.
End Inversion.

(** ** The outcome, check by check *)

Section Outcomes.
Context `{Externals}.

Ltac step_outcome :=
  match goal with
  | |- context [json_member ?ms ?k] =>
      destruct (json_member ms k); simpl; [|reflexivity]
  | |- context [dateutil_parser_parse ?x] =>
      destruct (dateutil_parser_parse x); simpl; [|reflexivity]
  | |- context [py_int ?x] =>
      destruct (py_int x); simpl; [|reflexivity]
  | |- context [decimal_Decimal ?x] =>
      destruct (decimal_Decimal x); simpl; [|reflexivity]
  | |- context [shift ?x 2] =>
      destruct (shift x 2); simpl; [|reflexivity]
  | |- context [to_integral_value ?x ?r] =>
      destruct (to_integral_value x r); simpl; [|reflexivity]
  end.

Lemma avro_outcome (line : string) :
  PythonAvro.transform_record line
  = outcome_by_first_failure scaled_total (json_document line).
Proof.
  unfold PythonAvro.transform_record, json_loads, json_document,
    outcome_by_first_failure, scaled_total.
  destruct (json_scan line) as [j|]; [|reflexivity].
  destruct j; try reflexivity.
  change (OK (decode str str (JObject members)) ≫= ?k)
    with (k (decode str str (JObject members))).
  cbv beta zeta. rewrite !subscript_object.
  repeat step_outcome. reflexivity.
Qed.

Lemma fastavro_outcome (line : string) :
  PythonFastavro.transform_record line
  = outcome_by_first_failure decimal_Decimal (json_document line).
Proof.
  unfold PythonFastavro.transform_record, json_loads, json_document,
    outcome_by_first_failure.
  destruct (json_scan line) as [j|]; [|reflexivity].
  destruct j; try reflexivity.
  change (OK (decode str str (JObject members)) ≫= ?k)
    with (k (decode str str (JObject members))).
  cbv beta zeta. rewrite !subscript_object.
  repeat step_outcome. reflexivity.
Qed.

Lemma json_document_object (line : string) (ms : list (string * json)) :
  json_scan line = Some (JObject ms) -> json_document line = OK (JObject ms).
Proof. unfold json_document. intros ->. reflexivity. Qed.

(** The outcome on an object whose six fields are valid: the record made
    of the values of the fields, converted. *)
Lemma valid_outcome (conv : pyval -> result Decimal) (ms : list (string * json)) :
  fields_valid conv required_keys ms ->
  exists parsed n d,
    dateutil_parser_parse (field_value ms "timestamp") = OK parsed
    /\ py_int (field_value ms "itemsInCart") = OK n
    /\ conv (field_value ms "totalValue") = OK d
    /\ outcome_by_first_failure conv (OK (JObject ms))
       = OK {| eventType := field_value ms "eventType";
               eventId := field_value ms "eventId";
               timestamp := replace_tzinfo parsed timezone_utc;
               userId := field_value ms "userId";
               itemsInCart := n;
               totalValue := d |}.
Proof.
  intros Hv.
  destruct (Hv "eventType") as (v1 & H1 & _); [unfold required_keys; simpl; auto 10|].
  destruct (Hv "eventId") as (v2 & H2 & _); [unfold required_keys; simpl; auto 10|].
  destruct (Hv "timestamp") as (v3 & H3 & [parsed Hp]); [unfold required_keys; simpl; auto 10|].
  destruct (Hv "userId") as (v4 & H4 & _); [unfold required_keys; simpl; auto 10|].
  destruct (Hv "itemsInCart") as (v5 & H5 & [n Hn]); [unfold required_keys; simpl; auto 10|].
  destruct (Hv "totalValue") as (v6 & H6 & [d Hd]); [unfold required_keys; simpl; auto 10|].
  exists parsed, n, d. unfold field_value, outcome_by_first_failure.
  rewrite H1, H2, H3, H4, H5, H6. simpl.
  rewrite Hp; simpl. rewrite Hn; simpl. rewrite Hd; simpl. auto.
Qed.

Lemma avro_valid_line (line : string) (ms : list (string * json)) :
  json_scan line = Some (JObject ms) ->
  fields_valid scaled_total required_keys ms ->
  exists parsed n d,
    dateutil_parser_parse (field_value ms "timestamp") = OK parsed
    /\ py_int (field_value ms "itemsInCart") = OK n
    /\ scaled_total (field_value ms "totalValue") = OK d
    /\ PythonAvro.transform_record line
       = OK {| eventType := field_value ms "eventType";
               eventId := field_value ms "eventId";
               timestamp := replace_tzinfo parsed timezone_utc;
               userId := field_value ms "userId";
               itemsInCart := n;
               totalValue := d |}.
Proof.
  intros Hs Hv. rewrite avro_outcome, (json_document_object _ _ Hs).
  apply valid_outcome, Hv.
Qed.

Lemma fastavro_valid_line (line : string) (ms : list (string * json)) :
  json_scan line = Some (JObject ms) ->
  fields_valid decimal_Decimal required_keys ms ->
  exists parsed n d,
    dateutil_parser_parse (field_value ms "timestamp") = OK parsed
    /\ py_int (field_value ms "itemsInCart") = OK n
    /\ decimal_Decimal (field_value ms "totalValue") = OK d
    /\ PythonFastavro.transform_record line
       = OK {| eventType := field_value ms "eventType";
               eventId := field_value ms "eventId";
               timestamp := replace_tzinfo parsed timezone_utc;
               userId := field_value ms "userId";
               itemsInCart := n;
               totalValue := d |}.
Proof.
  intros Hs Hv. rewrite fastavro_outcome, (json_document_object _ _ Hs).
  apply valid_outcome, Hv.
Qed.

Lemma field_value_member (ms : list (string * json)) (key : string) (v : json) :
  json_member ms key = Some v -> field_value ms key = decode str str v.
Proof. unfold field_value. intros ->. reflexivity. Qed.
End Outcomes.

(** ** Pass-through fields *)

Section PassThrough.
Context `{Externals}.

Lemma common_steps_object (line : string) (j : json) (ms : list (string * json))
    (et ei : pyval) (parsed : datetime) (ui : pyval) (n : Z) (total : pyval) :
  json_scan line = Some (JObject ms) ->
  common_steps line j et ei parsed ui n total ->
  j = JObject ms.
Proof. intros Hs (Hj & _). congruence. Qed.

Lemma subscript_member (ms : list (string * json)) (key : string) (x : pyval) (v : json) :
  subscript (decode str str (JObject ms)) key = OK x ->
  json_member ms key = Some v ->
  x = decode str str v.
Proof. rewrite subscript_object. intros Hx Hm. rewrite Hm in Hx. congruence. Qed.

Lemma common_steps_fields (line : string) (ms : list (string * json))
    (et ei : pyval) (parsed : datetime) (ui : pyval) (n : Z) (total : pyval) :
  common_steps line (JObject ms) et ei parsed ui n total ->
  (forall v, json_member ms "eventType" = Some v -> et = decode str str v)
  /\ (forall v, json_member ms "eventId" = Some v -> ei = decode str str v)
  /\ (forall v, json_member ms "userId" = Some v -> ui = decode str str v).
Proof.
  intros (_ & Het & Hei & _ & Hui & _).
  repeat split; intros v Hv; eapply subscript_member; eassumption.
Qed.

(** Either variant went through the common steps. *)
Lemma either_common_steps (line : string) (r : record) :
  PythonAvro.transform_record line = OK r \/ PythonFastavro.transform_record line = OK r ->
  exists j parsed total,
    common_steps line j (eventType r) (eventId r) parsed (userId r) (itemsInCart r) total
    /\ timestamp r = replace_tzinfo parsed timezone_utc.
Proof.
  intros [Ha|Hf].
  - apply avro_steps in Ha as (j & parsed & total & _ & _ & Hc & Ht & _). eauto.
  - apply fastavro_steps in Hf as (j & parsed & total & Hc & Ht & _). eauto.
Qed.
End PassThrough.

(** C4. For every valid line whose [eventType], [eventId] and [userId]
    are strings, each variant returns a record, and these three fields of
    the record are the strings of the input, character for character. *)
Theorem C4_pass_through `{Externals} (line : string) (ms : list (string * json))
    (s1 s2 s3 : string) :
  json_scan line = Some (JObject ms) ->
  json_member ms "eventType" = Some (JString s1) ->
  json_member ms "eventId" = Some (JString s2) ->
  json_member ms "userId" = Some (JString s3) ->
  (fields_valid scaled_total required_keys ms ->
   exists r, PythonAvro.transform_record line = OK r
             /\ eventType r = PyStr s1 /\ eventId r = PyStr s2 /\ userId r = PyStr s3)
  /\ (fields_valid decimal_Decimal required_keys ms ->
      exists r, PythonFastavro.transform_record line = OK r
                /\ eventType r = PyStr s1 /\ eventId r = PyStr s2 /\ userId r = PyStr s3).
Proof.
  intros Hs H1 H2 H3. split; intros Hv.
  - destruct (avro_valid_line line ms Hs Hv) as (parsed & n & d & _ & _ & _ & Ht).
    eexists. split; [exact Ht|]. simpl.
    rewrite (field_value_member _ _ _ H1), (field_value_member _ _ _ H2),
      (field_value_member _ _ _ H3). auto.
  - destruct (fastavro_valid_line line ms Hs Hv) as (parsed & n & d & _ & _ & _ & Ht).
    eexists. split; [exact Ht|]. simpl.
    rewrite (field_value_member _ _ _ H1), (field_value_member _ _ _ H2),
      (field_value_member _ _ _ H3). auto.
Qed.

(** ** The two variants side by side *)

(** C10. On a line that both variants transform, the two records agree on
    [eventType], [eventId], [timestamp], [userId] and [itemsInCart]; the
    [totalValue] of the scaled variant is the [totalValue] of the other
    one, shifted by two places and rounded to an integer. *)
Theorem C10_variants_agree `{Externals} (line : string) (ra rf : record) :
  PythonAvro.transform_record line = OK ra ->
  PythonFastavro.transform_record line = OK rf ->
  eventType ra = eventType rf
  /\ eventId ra = eventId rf
  /\ timestamp ra = timestamp rf
  /\ userId ra = userId rf
  /\ itemsInCart ra = itemsInCart rf
  /\ exists shifted,
       shift (totalValue rf) 2 = OK shifted
       /\ to_integral_value shifted ROUND_HALF_EVEN = OK (totalValue ra).
Proof.
  intros Ha Hf.
  apply avro_steps in Ha
    as (j & parsed & total & dec & shifted
        & (Hj & Het & Hei & (ts & Hts & Hp) & Hui & (items & Hit & Hn) & Htot)
        & Htime & Hdec & Hsh & Htv).
  apply fastavro_steps in Hf
    as (j' & parsed' & total'
        & (Hj' & Het' & Hei' & (ts' & Hts' & Hp') & Hui' & (items' & Hit' & Hn') & Htot')
        & Htime' & Hdec').
  assert (j' = j) as -> by congruence.
  assert (ts' = ts) as -> by congruence.
  assert (items' = items) as -> by congruence.
  assert (total' = total) as -> by congruence.
  assert (parsed' = parsed) as -> by congruence.
  assert (totalValue rf = dec) as Hd by congruence.
  repeat split; try congruence.
  exists shifted. rewrite Hd. auto.
Qed.

(** ** Numbers as text *)

Lemma requoted_decode (v v' : json) :
  requoted v v' -> decode str str v' = decode str str v.
Proof.
  intros [-> | (s & [-> | ->] & ->)]; reflexivity.
Qed.

Lemma members_requoted_decode (ms ms' : list (string * json)) :
  members_requoted ms ms' ->
  decode str str (JObject ms') = decode str str (JObject ms).
Proof.
  intros Hr. simpl. f_equal. f_equal.
  induction Hr as [|[k v] [k' v'] ms ms' [Hk Hv] _ IH]; simpl in *.
  - reflexivity.
  - subst k'. rewrite (requoted_decode _ _ Hv), IH. reflexivity.
Qed.

(** C9. A field written as an unquoted number gives the same result, in
    both variants, as the same field written as a string of the same
    characters.  On a valid line that result is a record, and where
    [itemsInCart] or [totalValue] is a number literal the record holds the
    conversion of the text of the literal: the integer [int] reads from it,
    the decimal [Decimal] reads from it. *)
Theorem C9_numbers_as_text `{Externals} (line line' : string)
    (ms ms' : list (string * json)) :
  json_scan line = Some (JObject ms) ->
  json_scan line' = Some (JObject ms') ->
  members_requoted ms ms' ->
  (PythonAvro.transform_record line' = PythonAvro.transform_record line
   /\ PythonFastavro.transform_record line' = PythonFastavro.transform_record line)
  /\ (fields_valid scaled_total required_keys ms ->
      exists r,
        PythonAvro.transform_record line = OK r
        /\ PythonAvro.transform_record line' = OK r
        /\ (forall lit, json_member ms "itemsInCart" = Some (JInt lit) ->
              py_int (PyStr lit) = OK (itemsInCart r))
        /\ (forall lit, json_member ms "totalValue" = Some (JInt lit)
                        \/ json_member ms "totalValue" = Some (JFloat lit) ->
              scaled_total (PyStr lit) = OK (totalValue r)))
  /\ (fields_valid decimal_Decimal required_keys ms ->
      exists r,
        PythonFastavro.transform_record line = OK r
        /\ PythonFastavro.transform_record line' = OK r
        /\ (forall lit, json_member ms "itemsInCart" = Some (JInt lit) ->
              py_int (PyStr lit) = OK (itemsInCart r))
        /\ (forall lit, json_member ms "totalValue" = Some (JInt lit)
                        \/ json_member ms "totalValue" = Some (JFloat lit) ->
              decimal_Decimal (PyStr lit) = OK (totalValue r))).
Proof.
  intros Hs Hs' Hr.
  assert (PythonAvro.transform_record line' = PythonAvro.transform_record line
          /\ PythonFastavro.transform_record line' = PythonFastavro.transform_record line)
    as [Ha Hf].
  { pose proof (members_requoted_decode _ _ Hr) as Hd.
    unfold PythonAvro.transform_record, PythonFastavro.transform_record, json_loads.
    rewrite Hs, Hs', Hd. split; reflexivity. }
  split; [split; assumption|]. split; intros Hv.
  - destruct (avro_valid_line line ms Hs Hv) as (parsed & n & d & _ & Hn & Hd & Ht).
    eexists. split; [exact Ht|]. split; [rewrite Ha; exact Ht|]. simpl. split.
    + intros lit Hm. rewrite (field_value_member _ _ _ Hm) in Hn. exact Hn.
    + intros lit [Hm|Hm]; rewrite (field_value_member _ _ _ Hm) in Hd; exact Hd.
  - destruct (fastavro_valid_line line ms Hs Hv) as (parsed & n & d & _ & Hn & Hd & Ht).
    eexists. split; [exact Ht|]. split; [rewrite Hf; exact Ht|]. simpl. split.
    + intros lit Hm. rewrite (field_value_member _ _ _ Hm) in Hn. exact Hn.
    + intros lit [Hm|Hm]; rewrite (field_value_member _ _ _ Hm) in Hd; exact Hd.
Qed.

(** ** Integer conversion *)

Lemma is_digit_code (c : ascii) :
  is_digit c = true -> (48 <= code c <= 57)%N.
Proof. unfold is_digit. rewrite andb_true_iff, !N.leb_le. tauto. Qed.

Lemma is_digit_ascii (c : ascii) : is_digit c = true -> is_ascii c = true.
Proof.
  intros Hd. apply is_digit_code in Hd. unfold is_ascii.
  apply N.ltb_lt. lia.
Qed.

Lemma is_digit_not_space (c : ascii) : is_digit c = true -> Py_ISSPACE c = false.
Proof.
  intros Hd. apply is_digit_code in Hd. unfold Py_ISSPACE.
  apply orb_false_iff. split.
  - apply andb_false_iff. right. apply N.leb_gt. lia.
  - apply N.eqb_neq. lia.
Qed.

Lemma is_digit_not_sign (c : ascii) :
  is_digit c = true -> Ascii.eqb c "-" = false /\ Ascii.eqb c "+" = false.
Proof.
  intros Hd. apply is_digit_code in Hd.
  split; apply Ascii.eqb_neq; intros ->; change (code _) with 45%N in Hd || change (code _) with 43%N in Hd; lia.
Qed.

(** *** The characters of an accepted text *)

Lemma drop_while_forallb (p q : ascii -> bool) (l : list ascii) :
  (forall c, p c = true -> q c = true) ->
  forallb q (drop_while p l) = true -> forallb q l = true.
Proof.
  intros Hpq. induction l as [|c t IH]; simpl; [reflexivity|].
  destruct (p c) eqn:Hp; [|tauto].
  intros Hd. rewrite (Hpq c Hp), (IH Hd). reflexivity.
Qed.

Lemma space_is_int_char (c : ascii) : Py_ISSPACE c = true -> int_char c = true.
Proof. intros Hs. unfold int_char. rewrite Hs. apply orb_true_r. Qed.

Lemma split_sign_forallb (l body : list ascii) (negative : bool) :
  split_sign l = (negative, body) ->
  forallb int_char body = true -> forallb int_char l = true.
Proof.
  unfold split_sign. destruct l as [|c t]; [intros [= <- <-]; reflexivity|].
  destruct (Ascii.eqb c "-") eqn:Hm.
  - intros [= <- <-] Hb. simpl. rewrite Hb. unfold int_char. rewrite Hm.
    rewrite !orb_true_r. reflexivity.
  - destruct (Ascii.eqb c "+") eqn:Hp.
    + intros [= <- <-] Hb. simpl. rewrite Hb. unfold int_char. rewrite Hp.
      rewrite !orb_true_r. reflexivity.
    + intros [= <- <-] Hb. exact Hb.
Qed.

Lemma scan_int_digits_forallb (l rest : list ascii) (acc n : N) (b : bool) :
  scan_int_digits acc b l = Some (n, rest) ->
  forallb int_char rest = true -> forallb int_char l = true.
Proof.
  revert acc b. induction l as [|c t IH]; intros acc b; simpl.
  - destruct b; [discriminate|]. intros [= <- <-]. tauto.
  - destruct (is_digit c) eqn:Hd.
    + intros Hs Hr. rewrite (IH _ _ Hs Hr). unfold int_char. rewrite Hd. reflexivity.
    + destruct (Ascii.eqb c "_") eqn:Hu.
      * destruct b; [discriminate|]. intros Hs Hr. rewrite (IH _ _ Hs Hr).
        unfold int_char. rewrite Hu, Hd. reflexivity.
      * destruct b; [discriminate|]. intros [= <- <-]. simpl. tauto.
Qed.

(** A text that [int] accepts is made of digits, underscores, signs and
    white space only. *)
Lemma int_of_ascii_chars (l : list ascii) (n : Z) :
  int_of_ascii l = Some n -> forallb int_char l = true.
Proof.
  unfold int_of_ascii.
  destruct (split_sign (drop_while Py_ISSPACE l)) as [negative body] eqn:Hss.
  intros Hi.
  apply (drop_while_forallb Py_ISSPACE int_char l space_is_int_char).
  apply (split_sign_forallb _ _ _ Hss).
  destruct body as [|c t]; [discriminate|].
  destruct (is_digit c); [|discriminate].
  destruct (scan_int_digits 0 false (c :: t)) as [[m rest]|] eqn:Hscan; [|discriminate].
  apply (scan_int_digits_forallb _ _ _ _ _ Hscan).
  apply (drop_while_forallb Py_ISSPACE int_char rest space_is_int_char).
  destruct (int_max_str_digits <? count_int_digits (c :: t))%N; [discriminate|].
  destruct (drop_while Py_ISSPACE rest); [reflexivity | discriminate].
Qed.

Section ItemCounts.
Context `{Externals}.

(** In a successful transformation the item count is what [int] made of
    the value under [itemsInCart]. *)
Lemma items_conversion (line : string) (ms : list (string * json)) (v : json) (r : record) :
  json_scan line = Some (JObject ms) ->
  json_member ms "itemsInCart" = Some v ->
  PythonAvro.transform_record line = OK r \/ PythonFastavro.transform_record line = OK r ->
  py_int (decode str str v) = OK (itemsInCart r).
Proof.
  intros Hs Hm Ht.
  apply either_common_steps in Ht as (j & parsed & total & Hc & _).
  rewrite (common_steps_object _ _ _ _ _ _ _ _ _ Hs Hc) in Hc.
  destruct Hc as (_ & _ & _ & _ & _ & (items & Hit & Hn) & _).
  rewrite (subscript_member _ _ _ _ Hit Hm) in Hn. exact Hn.
Qed.

Lemma items_rejected (line : string) (ms : list (string * json)) (v : json) (e : pyerr) :
  json_scan line = Some (JObject ms) ->
  json_member ms "itemsInCart" = Some v ->
  py_int (decode str str v) = Err e ->
  fails (PythonAvro.transform_record line)
  /\ fails (PythonFastavro.transform_record line).
Proof.
  intros Hs Hm He. split.
  - destruct (PythonAvro.transform_record line) as [r|e'] eqn:Ht; [|eexists; reflexivity].
    pose proof (items_conversion _ _ _ r Hs Hm (or_introl Ht)). congruence.
  - destruct (PythonFastavro.transform_record line) as [r|e'] eqn:Ht; [|eexists; reflexivity].
    pose proof (items_conversion _ _ _ r Hs Hm (or_intror Ht)). congruence.
Qed.
End ItemCounts.

(** *** The texts [int] accepts *)

Lemma drop_while_split (p : ascii -> bool) (l : list ascii) :
  exists pre, l = (pre ++ drop_while p l)%list /\ forallb p pre = true.
Proof.
  induction l as [|c t (pre & Ht & Hp)]; simpl.
  - exists []. split; reflexivity.
  - destruct (p c) eqn:Hc.
    + exists (c :: pre). simpl. rewrite Hc, Hp. split; [f_equal; exact Ht | reflexivity].
    + exists []. split; reflexivity.
Qed.

Lemma drop_while_all (p : ascii -> bool) (l : list ascii) :
  drop_while p l = [] <-> forallb p l = true.
Proof.
  induction l as [|c t IH]; simpl; [tauto|].
  destruct (p c); simpl; [exact IH|]. split; discriminate.
Qed.

Lemma drop_while_app_all (p : ascii -> bool) (pre rest : list ascii) :
  forallb p pre = true -> drop_while p (pre ++ rest) = drop_while p rest.
Proof.
  induction pre as [|c t IH]; simpl; [reflexivity|].
  intros Hp. apply andb_true_iff in Hp as [Hc Ht]. rewrite Hc. apply IH, Ht.
Qed.

Lemma split_sign_inv (l body : list ascii) (negative : bool) :
  split_sign l = (negative, body) ->
  exists signed, l = (signed ++ body)%list /\ sign_text signed negative.
Proof.
  unfold split_sign, sign_text. destruct l as [|c t].
  - intros [= <- <-]. exists []. auto.
  - destruct (Ascii.eqb c "-") eqn:Hm.
    + apply Ascii.eqb_eq in Hm. subst c. intros [= <- <-]. exists ["-"%char]. auto.
    + destruct (Ascii.eqb c "+") eqn:Hp.
      * apply Ascii.eqb_eq in Hp. subst c. intros [= <- <-]. exists ["+"%char]. auto.
      * intros [= <- <-]. exists []. auto.
Qed.

Lemma sign_then_digit (signed : list ascii) (negative : bool) (d : ascii)
    (rest : list ascii) :
  sign_text signed negative ->
  is_digit d = true ->
  split_sign (drop_while Py_ISSPACE (signed ++ d :: rest)) = (negative, d :: rest).
Proof.
  intros [[-> ->]|[[-> ->]|[-> ->]]] Hd.
  - simpl. rewrite (is_digit_not_space _ Hd). unfold split_sign.
    destruct (is_digit_not_sign _ Hd) as [-> ->]. reflexivity.
  - reflexivity.
  - reflexivity.
Qed.

(** The digit loop on a group of digits. *)
Lemma scan_group (g tail : list ascii) (acc : N) (b : bool) :
  all_digits g = true ->
  g <> [] \/ b = false ->
  scan_int_digits acc b (g ++ tail)
  = scan_int_digits (digits_from acc g) false tail.
Proof.
  revert acc b. induction g as [|c g IH]; intros acc b Hall Hb.
  - destruct Hb as [Hb| ->]; [contradiction | reflexivity].
  - unfold all_digits in Hall. simpl in Hall. apply andb_true_iff in Hall as [Hc Hg].
    simpl. rewrite Hc. apply IH; [exact Hg | right; reflexivity].
Qed.

(** The digit loop on the groups that follow an underscore each. *)
Lemma scan_groups (gs : list (list ascii)) (tail : list ascii) (acc : N) :
  Forall (fun g => g <> [] /\ all_digits g = true) gs ->
  ends_digits tail ->
  scan_int_digits acc false (flat_map (fun g' => "_"%char :: g') gs ++ tail)
  = Some (digits_from acc (concat gs), tail).
Proof.
  intros Hgs Ht. revert acc. induction Hgs as [|g gs [Hne Hall] _ IH]; intros acc.
  - simpl. destruct tail as [|c t]; [reflexivity|]. destruct Ht as [Hd Hu].
    simpl. rewrite Hd, Hu. reflexivity.
  - change (scan_int_digits acc false
              (flat_map (fun g' => "_"%char :: g') (g :: gs) ++ tail))
      with (scan_int_digits acc true
              ((g ++ flat_map (fun g' => "_"%char :: g') gs) ++ tail)).
    rewrite <- app_assoc.
    rewrite (scan_group g _ acc true Hall (or_introl Hne)), IH.
    unfold digits_from. simpl. rewrite fold_left_app. reflexivity.
Qed.

Lemma count_group (g tail : list ascii) :
  all_digits g = true ->
  count_int_digits (g ++ tail) = (N.of_nat (length g) + count_int_digits tail)%N.
Proof.
  induction g as [|c g IH]; intros Hall; [reflexivity|].
  unfold all_digits in Hall. simpl in Hall. apply andb_true_iff in Hall as [Hc Hg].
  simpl app. simpl length. cbn [count_int_digits]. rewrite Hc, (IH Hg). lia.
Qed.

Lemma count_groups (gs : list (list ascii)) (tail : list ascii) :
  Forall (fun g => g <> [] /\ all_digits g = true) gs ->
  ends_digits tail ->
  count_int_digits (flat_map (fun g' => "_"%char :: g') gs ++ tail)
  = N.of_nat (length (concat gs)).
Proof.
  intros Hgs Ht. induction Hgs as [|g gs [Hne Hall] _ IH].
  - simpl. destruct tail as [|c t]; [reflexivity|]. destruct Ht as [Hd Hu].
    simpl. rewrite Hd, Hu. reflexivity.
  - change (count_int_digits (flat_map (fun g' => "_"%char :: g') (g :: gs) ++ tail))
      with (count_int_digits ((g ++ flat_map (fun g' => "_"%char :: g') gs) ++ tail)).
    rewrite <- app_assoc, (count_group _ _ Hall), IH.
    simpl. rewrite length_app. lia.
Qed.

(** What the digit loop has read when it stops. *)
Lemma scan_int_digits_inv (l : list ascii) (acc : N) (b : bool) (n : N) (rest : list ascii) :
  scan_int_digits acc b l = Some (n, rest) ->
  exists g gs,
    l = (g ++ flat_map (fun g' => "_"%char :: g') gs ++ rest)%list
    /\ all_digits g = true
    /\ (b = true -> g <> [])
    /\ Forall (fun g' => g' <> [] /\ all_digits g' = true) gs
    /\ n = digits_from acc (g ++ concat gs)
    /\ ends_digits rest.
Proof.
  revert acc b. induction l as [|c t IH]; intros acc b; simpl.
  - destruct b; [discriminate|]. intros [= <- <-]. exists [], [].
    repeat split; [discriminate | constructor].
  - destruct (is_digit c) eqn:Hd.
    + intros Hs. apply IH in Hs as (g & gs & -> & Hall & _ & Hgs & -> & He).
      exists (c :: g), gs. split; [reflexivity|].
      split; [unfold all_digits; simpl; rewrite Hd; exact Hall|].
      split; [discriminate|]. auto.
    + destruct (Ascii.eqb c "_") eqn:Hu.
      * destruct b; [discriminate|]. intros Hs.
        apply IH in Hs as (g & gs & -> & Hall & Hne & Hgs & -> & He).
        apply Ascii.eqb_eq in Hu. subst c. exists [], (g :: gs).
        split; [simpl; rewrite <- app_assoc; reflexivity|].
        split; [reflexivity|]. split; [discriminate|].
        split; [constructor; [split; [apply Hne; reflexivity | exact Hall] | exact Hgs]|].
        split; [reflexivity | exact He].
      * destruct b; [discriminate|]. intros [= <- <-]. exists [], [].
        repeat split; [discriminate | constructor | exact Hd | exact Hu].
Qed.

Lemma spaces_end_digits (after : list ascii) :
  forallb Py_ISSPACE after = true -> ends_digits after.
Proof.
  destruct after as [|c t]; simpl; [tauto|].
  intros Hs. apply andb_true_iff in Hs as [Hc _]. split.
  - destruct (is_digit c) eqn:Hd; [|reflexivity].
    rewrite (is_digit_not_space _ Hd) in Hc. discriminate.
  - apply Ascii.eqb_neq. intros ->. discriminate.
Qed.

(** [int] accepts exactly the integer texts of at most
    [int_max_str_digits] digits, and returns the integer they write. *)
Lemma int_of_ascii_integer_text (s : string) (n : Z) :
  int_of_ascii (list_ascii_of_string s) = Some n
  <-> integer_text (Some int_max_str_digits) s n.
Proof.
  unfold integer_text. generalize (list_ascii_of_string s) as l. intros l. split.
  - unfold int_of_ascii.
    destruct (drop_while_split Py_ISSPACE l) as (before & Hl & Hbefore).
    destruct (split_sign (drop_while Py_ISSPACE l)) as [negative body] eqn:Hss.
    apply split_sign_inv in Hss as (signed & Hsigned & Hsign).
    destruct body as [|c t]; [discriminate|].
    destruct (is_digit c) eqn:Hc; [|discriminate].
    destruct (scan_int_digits 0 false (c :: t)) as [[m rest]|] eqn:Hscan; [|discriminate].
    destruct (int_max_str_digits <? count_int_digits (c :: t))%N eqn:Hlim; [discriminate|].
    destruct (drop_while Py_ISSPACE rest) eqn:Hrest; [|discriminate].
    intros [= <-].
    apply drop_while_all in Hrest.
    pose proof (scan_int_digits_inv _ _ _ _ _ Hscan)
      as (g & gs & Hbody & Hall & _ & Hgs & -> & He).
    assert (g <> []) as Hg.
    { intros ->. simpl in Hbody. destruct gs as [|g1 gs].
      - simpl in Hbody. subst rest. destruct He as [Hd _]. congruence.
      - simpl in Hbody. injection Hbody as -> _. discriminate. }
    exists before, signed, negative, (g :: gs), rest.
    split; [rewrite Hl at 1; rewrite Hsigned, Hbody; unfold join_groups;
            rewrite <- app_assoc; reflexivity|].
    split; [exact Hbefore|]. split; [exact Hrest|]. split; [exact Hsign|].
    split; [discriminate|].
    split; [constructor; [split; assumption | exact Hgs]|].
    split; [|reflexivity].
    apply N.ltb_ge in Hlim. rewrite Hbody in Hlim.
    rewrite (count_group _ _ Hall), (count_groups _ _ Hgs He) in Hlim.
    simpl concat. rewrite length_app. lia.
  - intros (before & signed & negative & groups & after
            & -> & Hb & Ha & Hsign & Hne & Hgs & Hlim & ->).
    destruct groups as [|g gs]; [contradiction|].
    apply Forall_cons in Hgs as [[Hg Hall] Hgs].
    destruct g as [|d g0]; [contradiction|].
    assert (is_digit d = true) as Hd
      by (unfold all_digits in Hall; simpl in Hall; apply andb_true_iff in Hall; tauto).
    pose proof (is_digit_not_space _ Hd) as Hds.
    destruct (is_digit_not_sign _ Hd) as [Hdm Hdp].
    pose proof (spaces_end_digits _ Ha) as He.
    assert (forall neg,
              match scan_int_digits 0 false ((d :: g0) ++ flat_map (fun g' => "_"%char :: g') gs ++ after) with
              | Some (m, rest) =>
                  if (int_max_str_digits <? count_int_digits
                        ((d :: g0) ++ flat_map (fun g' => "_"%char :: g') gs ++ after))%N
                  then None
                  else match drop_while Py_ISSPACE rest with
                       | [] => Some (apply_sign neg m)
                       | _ :: _ => None
                       end
              | None => None
              end = Some (apply_sign neg (digits_value (concat ((d :: g0) :: gs))))) as Hbody.
    { intros neg.
      rewrite (scan_group _ _ 0%N false Hall (or_intror eq_refl)), (scan_groups _ _ _ Hgs He).
      rewrite (count_group _ _ Hall), (count_groups _ _ Hgs He).
      assert ((int_max_str_digits <? N.of_nat (length (d :: g0)) + N.of_nat (length (concat gs)))%N
              = false) as ->.
      { apply N.ltb_ge.
        change (concat ((d :: g0) :: gs)) with ((d :: g0) ++ concat gs)%list in Hlim.
        rewrite length_app in Hlim. lia. }
      rewrite (proj2 (drop_while_all _ _) Ha).
      change (concat ((d :: g0) :: gs)) with ((d :: g0) ++ concat gs)%list.
      unfold digits_value, digits_from. rewrite fold_left_app. reflexivity. }
    unfold int_of_ascii. rewrite (drop_while_app_all _ _ _ Hb).
    unfold join_groups. rewrite <- (app_assoc (d :: g0)).
    change ((d :: g0) ++ ?x)%list with (d :: (g0 ++ x))%list.
    rewrite (sign_then_digit _ _ _ _ Hsign Hd). rewrite Hd. exact (Hbody negative).
Qed.

Lemma int_char_ascii (c : ascii) : int_char c = true -> is_ascii c = true.
Proof.
  unfold int_char, is_ascii. intros Hc. apply N.ltb_lt.
  repeat (apply orb_true_iff in Hc as [Hc|Hc]).
  - apply is_digit_code in Hc. lia.
  - apply Ascii.eqb_eq in Hc. subst c. vm_compute. reflexivity.
  - apply Ascii.eqb_eq in Hc. subst c. vm_compute. reflexivity.
  - apply Ascii.eqb_eq in Hc. subst c. vm_compute. reflexivity.
  - apply andb_true_iff in Hc as [_ Hc]. apply N.leb_le in Hc. lia.
  - apply N.eqb_eq in Hc. lia.
Qed.

Section IntegerText.
Context `{Externals}.

(** On text, [int] succeeds with [n] exactly on the integer texts of at
    most 4300 digits that write [n]; any other ASCII text is rejected with
    [ValueError]. *)
Lemma py_int_integer_text (s : string) (n : Z) :
  integer_text (Some int_max_str_digits) s n -> py_int (PyStr s) = OK n.
Proof.
  intros Ht. apply int_of_ascii_integer_text in Ht.
  assert (ascii_text s = true) as Ha.
  { unfold ascii_text. apply int_of_ascii_chars in Ht.
    rewrite forallb_forall in *. intros c Hc. apply int_char_ascii, Ht, Hc. }
  unfold py_int. rewrite Ha, Ht. reflexivity.
Qed.

Lemma py_int_other_text (s : string) :
  ascii_text s = true ->
  (forall n, ~ integer_text (Some int_max_str_digits) s n) ->
  py_int (PyStr s) = Err ValueError.
Proof.
  intros Ha Hno. unfold py_int. rewrite Ha.
  destruct (int_of_ascii (list_ascii_of_string s)) as [n|] eqn:Hi; [|reflexivity].
  apply int_of_ascii_integer_text in Hi. destruct (Hno n Hi).
Qed.

Lemma other_keys_valid (conv : pyval -> result Decimal) (ms : list (string * json))
    (v : json) (n : Z) :
  json_member ms "itemsInCart" = Some v ->
  py_int (decode str str v) = OK n ->
  fields_valid conv other_keys ms ->
  fields_valid conv required_keys ms.
Proof.
  intros Hm Hn Hv k Hk. unfold required_keys in Hk. simpl in Hk.
  destruct Hk as [<-|[<-|[<-|[<-|[<-|[<-|[]]]]]]];
    try (apply Hv; unfold other_keys; simpl; solve [auto 10]).
  exists v. split; [exact Hm|]. exists n. exact Hn.
Qed.
End IntegerText.

(** C5, as amended.  When [itemsInCart] holds the text of an integer of
    at most 4300 digits, every record a variant returns shows that integer,
    and each variant returns a record when the other fields of the line are
    valid; when it holds ASCII text that is no such text, both variants
    fail. *)
Theorem C5_items_in_cart `{Externals} (line : string) :
  items_claim (integer_text (Some int_max_str_digits)) line.
Proof.
  intros ms v s Hs Hm Hv. split.
  - intros n Ht. pose proof (py_int_integer_text s n Ht) as Hn.
    rewrite <- Hv in Hn. split; [|split].
    + intros r Hr. pose proof (items_conversion _ _ _ r Hs Hm Hr). congruence.
    + intros Hval.
      destruct (avro_valid_line line ms Hs (other_keys_valid _ _ _ _ Hm Hn Hval))
        as (parsed & n' & d & _ & Hn' & _ & Hr).
      eexists. split; [exact Hr|]. simpl.
      rewrite (field_value_member _ _ _ Hm) in Hn'. congruence.
    + intros Hval.
      destruct (fastavro_valid_line line ms Hs (other_keys_valid _ _ _ _ Hm Hn Hval))
        as (parsed & n' & d & _ & Hn' & _ & Hr).
      eexists. split; [exact Hr|]. simpl.
      rewrite (field_value_member _ _ _ Hm) in Hn'. congruence.
  - intros Ha Hno. apply (items_rejected line ms v ValueError Hs Hm).
    rewrite Hv. apply py_int_other_text; assumption.
Qed.

(** ** Rounding to an integer *)

Lemma pow10_pos (k : Z) : (0 < pow10 k)%N.
Proof. unfold pow10. apply N.neq_0_lt_0, N.pow_nonzero. discriminate. Qed.

Lemma pow10_step (k : Z) : 1 <= k -> pow10 k = (10 * pow10 (k - 1))%N.
Proof.
  intros Hk. unfold pow10.
  replace (Z.to_N k) with (N.succ (Z.to_N (k - 1))) by lia.
  apply N.pow_succ_r'.
Qed.

Lemma pow10_Z (k : Z) : 0 <= k -> Z.of_N (pow10 k) = 10 ^ k.
Proof.
  intros Hk. unfold pow10. rewrite N2Z.inj_pow. f_equal. lia.
Qed.

(** The nearest integer, ties to even, is unique. *)
Lemma nearest_half_even_unique (n d m1 m2 : Z) :
  0 < d -> nearest_half_even n d m1 -> nearest_half_even n d m2 -> m1 = m2.
Proof.
  unfold nearest_half_even. intros Hd [H1 E1] [H2 E2].
  assert (m1 = m2 \/ m1 = m2 + 1 \/ m2 = m1 + 1) as [?|[->| ->]] by nia; [assumption| |].
  - assert (2 * Z.abs (n - (m2 + 1) * d) = d) as T1 by nia.
    assert (2 * Z.abs (n - m2 * d) = d) as T2 by nia.
    specialize (E1 T1). specialize (E2 T2).
    rewrite Z.even_add in E1. rewrite E2 in E1. discriminate.
  - assert (2 * Z.abs (n - (m1 + 1) * d) = d) as T2 by nia.
    assert (2 * Z.abs (n - m1 * d) = d) as T1 by nia.
    specialize (E1 T1). specialize (E2 T2).
    rewrite Z.even_add in E2. rewrite E1 in E2. discriminate.
Qed.

Lemma nearest_half_even_scale (a d t m : Z) :
  0 < t -> nearest_half_even (a * t) (d * t) m -> nearest_half_even a d m.
Proof.
  unfold nearest_half_even. intros Ht.
  replace (a * t - m * (d * t)) with ((a - m * d) * t) by ring.
  rewrite Z.abs_mul, (Z.abs_eq t) by lia.
  intros [Hle Hev]. split; [nia|]. intros Heq. apply Hev. nia.
Qed.

Lemma nearest_half_even_opp (a d m : Z) :
  nearest_half_even a d m -> nearest_half_even (- a) d (- m).
Proof.
  unfold nearest_half_even.
  replace (- a - - m * d) with (- (a - m * d)) by ring.
  rewrite Z.abs_opp, Z.even_opp. tauto.
Qed.

Lemma nearest_half_even_sign (s : bool) (c m : N) (d : Z) :
  nearest_half_even (Z.of_N c) d (Z.of_N m) ->
  nearest_half_even (apply_sign s c) d (apply_sign s m).
Proof.
  destruct s; simpl; [apply nearest_half_even_opp | tauto].
Qed.

(** Rounding half to even, as [_rescale] does it digit by digit, yields
    the integer nearest to [c / 10^(-e)], ties to even. *)
Lemma rescale0_nearest (s : bool) (c : N) (e : Z) :
  e < 0 ->
  exists m, rescale0 ROUND_HALF_EVEN s c e = Finite s m 0
            /\ nearest_half_even (Z.of_N c) (Z.of_N (pow10 (- e))) (Z.of_N m).
Proof.
  intros He. unfold rescale0.
  pose proof (pow10_pos (- e)) as Hp.
  destruct (c =? 0)%N eqn:Hc0.
  - apply N.eqb_eq in Hc0. subst c. exists 0%N. split; [reflexivity|].
    unfold nearest_half_even. simpl. lia.
  - cbv zeta. unfold pick_rounding_function, round_half_even, round_half_up.
    pose proof (pow10_step (- e) ltac:(lia)) as Hstep.
    set (p := pow10 (- e)) in *. set (h := (5 * pow10 (- e - 1))%N).
    assert (p = 2 * h)%N as Hh by (unfold h; lia).
    pose proof (N.div_mod c p ltac:(lia)) as Hdm.
    pose proof (N.mod_lt c p ltac:(lia)) as Hlt.
    set (q := (c / p)%N) in *. set (r := (c mod p)%N) in *.
    destruct (r =? h)%N eqn:Hrh; [apply N.eqb_eq in Hrh | apply N.eqb_neq in Hrh].
    + destruct (N.even q) eqn:Hev; simpl.
      * exists q. split; [reflexivity|]. unfold nearest_half_even.
        split; [lia|]. intros _. rewrite <- Hev.
        destruct q; reflexivity.
      * assert ((h <=? r)%N = true) as -> by (apply N.leb_le; lia).
        simpl. exists (q + 1)%N. split; [reflexivity|]. unfold nearest_half_even.
        split; [lia|]. intros _.
        rewrite N2Z.inj_add, Z.even_add.
        replace (Z.even (Z.of_N q)) with (N.even q) by (destruct q; reflexivity).
        rewrite Hev. reflexivity.
    + simpl. destruct (h <=? r)%N eqn:Hle; [apply N.leb_le in Hle | apply N.leb_gt in Hle].
      * simpl. exists (q + 1)%N. split; [reflexivity|]. unfold nearest_half_even.
        split; lia.
      * destruct (r =? 0)%N; simpl; exists q; (split; [reflexivity|]);
          unfold nearest_half_even; split; lia.
Qed.

(** ** The scaled total *)

Lemma shift_two_small (s : bool) (c : N) (e : Z) :
  digits_at_most 26 c -> shift (Finite s c e) 2 = OK (Finite s (c * 100) e).
Proof.
  unfold digits_at_most, shift. intros Hc. simpl check_nans. cbv iota.
  change ((2 <? - prec) || (prec <? 2)) with false. cbv iota.
  change (2 <? 0) with false. cbv iota.
  assert (pow10 prec = pow10 26 * 100)%N as Hp by reflexivity.
  assert (pow10 2 = 100)%N as H2 by reflexivity.
  pose proof (pow10_pos 26) as H26.
  rewrite (N.mod_small c) by lia.
  rewrite N.mod_small by lia.
  rewrite H2. reflexivity.
Qed.

Lemma integral_sign (s : bool) (c : N) (e : Z) :
  0 <= e -> integral (Finite s c e) = Some (apply_sign s c * 10 ^ e).
Proof.
  intros He. unfold integral.
  destruct (0 <=? e) eqn:Hle; [|apply Z.leb_gt in Hle; lia].
  f_equal. destruct s; simpl; rewrite N2Z.inj_mul, pow10_Z by assumption; ring.
Qed.

(** Shifting by two places and rounding gives the number of cents, as long
    as the shift loses no digit. *)
Lemma scaled_total_rounds (s : bool) (c : N) (e : Z) :
  digits_at_most 26 c ->
  exists out,
    (shift (Finite s c e) 2 ≫= fun d => to_integral_value d ROUND_HALF_EVEN) = OK out
    /\ rounds_cents s c e out.
Proof.
  intros Hc. rewrite (shift_two_small s c e Hc). simpl.
  unfold rounds_cents, cents_fraction.
  destruct (0 <=? e) eqn:He; [apply Z.leb_le in He | apply Z.leb_gt in He].
  - eexists. split; [reflexivity|].
    exists (apply_sign s (c * 100) * 10 ^ e). split; [apply integral_sign, He|].
    destruct (0 <=? e + 2) eqn:He2; [|apply Z.leb_gt in He2; lia]. simpl.
    replace (apply_sign s (c * 100) * 10 ^ e) with (apply_sign s c * 10 ^ (e + 2)).
    + unfold nearest_half_even.
      replace (_ - _ * 1) with 0 by ring. simpl. lia.
    + rewrite Z.pow_add_r by lia. destruct s; simpl; lia.
  - destruct (rescale0_nearest s (c * 100) e He) as (m & Hm & Hn).
    exists (Finite s m 0). split; [rewrite Hm; reflexivity|].
    exists (apply_sign s m). split.
    { rewrite integral_sign by lia. f_equal. lia. }
    rewrite pow10_Z in Hn by lia.
    destruct (0 <=? e + 2) eqn:He2; [apply Z.leb_le in He2 | apply Z.leb_gt in He2]; simpl.
    + replace (apply_sign s c * 10 ^ (e + 2))
        with (apply_sign s (c * pow10 (e + 2))%N)
        by (rewrite <- (pow10_Z (e + 2)) by lia; destruct s; simpl; lia).
      apply nearest_half_even_sign.
      apply (nearest_half_even_scale _ _ (10 ^ (- e))); [lia|].
      replace (Z.of_N (c * pow10 (e + 2)) * 10 ^ (- e)) with (Z.of_N (c * 100)).
      * rewrite Z.mul_1_l. exact Hn.
      * rewrite !N2Z.inj_mul, pow10_Z by lia. simpl Z.of_N.
        rewrite <- Z.mul_assoc, <- Z.pow_add_r by lia.
        replace (e + 2 + - e) with 2 by lia. reflexivity.
    + apply nearest_half_even_sign.
      apply (nearest_half_even_scale _ _ 100); [lia|].
      replace (10 ^ (- (e + 2)) * 100) with (10 ^ (- e)).
      * rewrite N2Z.inj_mul in Hn. exact Hn.
      * replace (- e) with (- (e + 2) + 2) at 1 by lia.
        rewrite Z.pow_add_r by lia. reflexivity.
Qed.

Section ScaledTotal.
Context `{Externals}.

(** What the scaled variant did to the value found under [totalValue]. *)
Lemma avro_total (line : string) (ms : list (string * json)) (v : json) (r : record) :
  json_scan line = Some (JObject ms) ->
  json_member ms "totalValue" = Some v ->
  PythonAvro.transform_record line = OK r ->
  (decimal_Decimal (decode str str v) ≫= fun dec =>
   shift dec 2 ≫= fun d => to_integral_value d ROUND_HALF_EVEN) = OK (totalValue r).
Proof.
  intros Hs Hm Ht.
  apply avro_steps in Ht as (j & parsed & total & dec & shifted & Hc & _ & Hdec & Hsh & Htv).
  rewrite (common_steps_object _ _ _ _ _ _ _ _ _ Hs Hc) in Hc.
  destruct Hc as (_ & _ & _ & _ & _ & _ & Htot).
  rewrite <- (subscript_member _ _ _ _ Htot Hm).
  rewrite Hdec. simpl. rewrite Hsh. simpl. exact Htv.
Qed.
End ScaledTotal.


(** C3, on a total of one written with 26 zeros after the point.  One
    hundred times the exact value is one hundred, and the variant that
    keeps the decimal returns the value as it is written; the scaled
    variant returns zero, because the shift by two places works on 28
    digits and drops the leading digit of the 27-digit coefficient. *)
Theorem C3_leading_digit_dropped :
  Reference.scan_document long_line = Some (JObject long_members)
  /\ Decimal_of_ascii (list_ascii_of_string long_total)
     = Some (Finite false (10 ^ 26) (-26))
  /\ nearest_half_even (cents_fraction false (10 ^ 26) (-26)).1
       (cents_fraction false (10 ^ 26) (-26)).2 100
  /\ PythonFastavro.transform_record (H := Reference.externals) long_line
     = OK (offset_record (Finite false (10 ^ 26) (-26)))
  /\ PythonAvro.transform_record (H := Reference.externals) long_line
     = OK (offset_record (Finite false 0 0))
  /\ integral (Finite false 0 0) = Some 0
  /\ ~ rounds_cents false (10 ^ 26) (-26) (Finite false 0 0).
Proof.
  split; [vm_compute; reflexivity|]. split; [vm_compute; reflexivity|].
  split; [vm_compute; split; [discriminate | discriminate]|].
  split; [vm_compute; reflexivity|]. split; [vm_compute; reflexivity|].
  split; [reflexivity|].
  intros (m & Hm & Hle & _). injection Hm as <-. vm_compute in Hle. apply Hle. reflexivity.
Qed.


(** The six fields of a concrete object are valid, by evaluation. *)
Ltac fields_valid_by_evaluation :=
  let k := fresh "k" in
  let Hk := fresh "Hk" in
  intros k Hk; simpl in Hk;
  repeat (destruct Hk as [<-|Hk];
          [eexists; split;
           [reflexivity | vm_compute; first [exact I | eexists; reflexivity]]|]);
  destruct Hk.

Lemma C4_witness :
  Reference.scan_document offset_line = Some (JObject offset_members)
  /\ PythonAvro.transform_record (H := Reference.externals) offset_line
     = OK (offset_record (Finite false 2000 0))
  /\ PythonFastavro.transform_record (H := Reference.externals) offset_line
     = OK (offset_record (Finite false 19995 (-3)))
  /\ (exists r, PythonAvro.transform_record (H := Reference.externals) offset_line = OK r
                /\ eventType r = PyStr "addToCart" /\ eventId r = PyStr "e-1"
                /\ userId r = PyStr "u-7")
  /\ (exists r, PythonFastavro.transform_record (H := Reference.externals) offset_line = OK r
                /\ eventType r = PyStr "addToCart" /\ eventId r = PyStr "e-1"
                /\ userId r = PyStr "u-7").
Proof.
  assert (Reference.scan_document offset_line = Some (JObject offset_members)) as Hs
    by (vm_compute; reflexivity).
  assert (fields_valid (H := Reference.externals) (scaled_total (H := Reference.externals))
            required_keys offset_members) as Hva by fields_valid_by_evaluation.
  assert (fields_valid (H := Reference.externals) (decimal_Decimal (H := Reference.externals))
            required_keys offset_members) as Hvf by fields_valid_by_evaluation.
  split; [exact Hs|].
  split; [vm_compute; reflexivity|]. split; [vm_compute; reflexivity|].
  destruct (C4_pass_through (H := Reference.externals) offset_line offset_members
              "addToCart" "e-1" "u-7" Hs) as [Ha Hf].
  - vm_compute; reflexivity.
  - vm_compute; reflexivity.
  - vm_compute; reflexivity.
  - split; [exact (Ha Hva) | exact (Hf Hvf)].
Defined.

(** An item count of 4301 digits is the text of an integer and the other
    fields of the line are valid, but [int] converts at most 4300 digits:
    both variants fail, with [ValueError]. *)
Lemma C5_counterexample :
  (exists n, integer_text None long_count n)
  /\ PythonAvro.transform_record (H := Reference.externals) long_count_line
     = Err ValueError
  /\ PythonFastavro.transform_record (H := Reference.externals) long_count_line
     = Err ValueError
  /\ ~ items_claim (H := Reference.externals) (integer_text None) long_count_line.
Proof.
  assert (integer_text None long_count
            (apply_sign false (digits_value (concat [list_ascii_of_string long_count]))))
    as Ht.
  { exists [], [], false, [list_ascii_of_string long_count], [].
    split; [vm_compute; reflexivity|].
    split; [reflexivity|]. split; [reflexivity|].
    split; [left; split; reflexivity|].
    split; [discriminate|].
    split; [constructor; [split; [vm_compute; discriminate | vm_compute; reflexivity]
                         | constructor]|].
    split; [exact I | reflexivity]. }
  assert (PythonAvro.transform_record (H := Reference.externals) long_count_line
          = Err ValueError) as Ha by (vm_compute; reflexivity).
  assert (PythonFastavro.transform_record (H := Reference.externals) long_count_line
          = Err ValueError) as Hf by (vm_compute; reflexivity).
  split; [eexists; exact Ht|]. split; [exact Ha|]. split; [exact Hf|].
  intros Hclaim.
  assert (fields_valid (H := Reference.externals) (scaled_total (H := Reference.externals))
            other_keys long_count_members) as Hva by fields_valid_by_evaluation.
  destruct (Hclaim long_count_members (JString long_count) long_count) as [Hvalid _].
  { vm_compute; reflexivity. }
  { vm_compute; reflexivity. }
  { reflexivity. }
  destruct (Hvalid _ Ht) as (_ & Hsome & _).
  destruct (Hsome Hva) as (r & Hr & _). congruence.
Qed.

Lemma C5_witness :
  integer_text (Some int_max_str_digits) "3" 3
  /\ PythonAvro.transform_record (H := Reference.externals) offset_line
     = OK (offset_record (Finite false 2000 0))
  /\ PythonFastavro.transform_record (H := Reference.externals) offset_line
     = OK (offset_record (Finite false 19995 (-3)))
  /\ (exists r, PythonAvro.transform_record (H := Reference.externals) offset_line = OK r
                /\ itemsInCart r = 3)
  /\ (exists r, PythonFastavro.transform_record (H := Reference.externals) offset_line = OK r
                /\ itemsInCart r = 3)
  /\ (forall n, ~ integer_text (Some int_max_str_digits) "3.0" n)
  /\ fails (PythonAvro.transform_record (H := Reference.externals) point_line)
  /\ fails (PythonFastavro.transform_record (H := Reference.externals) point_line).
Proof.
  assert (integer_text (Some int_max_str_digits) "3" 3) as Hthree.
  { exists [], [], false, [["3"%char]], [].
    repeat split; try reflexivity.
    - left. split; reflexivity.
    - discriminate.
    - constructor; [split; [discriminate | reflexivity] | constructor].
    - vm_compute. discriminate. }
  assert (forall n, ~ integer_text (Some int_max_str_digits) "3.0" n) as Hpoint.
  { intros n Hn. apply int_of_ascii_integer_text in Hn. vm_compute in Hn. discriminate. }
  assert (fields_valid (H := Reference.externals) (scaled_total (H := Reference.externals))
            other_keys offset_members) as Hva by fields_valid_by_evaluation.
  assert (fields_valid (H := Reference.externals) (decimal_Decimal (H := Reference.externals))
            other_keys offset_members) as Hvf by fields_valid_by_evaluation.
  split; [exact Hthree|].
  split; [vm_compute; reflexivity|]. split; [vm_compute; reflexivity|].
  destruct (C5_items_in_cart (H := Reference.externals) offset_line offset_members
              (JString "3") "3") as [Hvalid _].
  { vm_compute; reflexivity. }
  { vm_compute; reflexivity. }
  { reflexivity. }
  destruct (Hvalid 3 Hthree) as (_ & Ha & Hf).
  split; [exact (Ha Hva)|]. split; [exact (Hf Hvf)|].
  split; [exact Hpoint|].
  destruct (C5_items_in_cart (H := Reference.externals) point_line point_members
              (JFloat "3.0") "3.0") as [_ Hother].
  { vm_compute; reflexivity. }
  { vm_compute; reflexivity. }
  { reflexivity. }
  apply Hother; [vm_compute; reflexivity | exact Hpoint].
Defined.

Lemma C9_witness :
  members_requoted unquoted_members offset_members
  /\ PythonAvro.transform_record (H := Reference.externals) unquoted_line
     = OK (offset_record (Finite false 2000 0))
  /\ PythonFastavro.transform_record (H := Reference.externals) unquoted_line
     = OK (offset_record (Finite false 19995 (-3)))
  /\ (exists r,
        PythonAvro.transform_record (H := Reference.externals) unquoted_line = OK r
        /\ PythonAvro.transform_record (H := Reference.externals) offset_line = OK r
        /\ py_int (H := Reference.externals) (PyStr "3") = OK (itemsInCart r)
        /\ scaled_total (H := Reference.externals) (PyStr "19.995") = OK (totalValue r))
  /\ (exists r,
        PythonFastavro.transform_record (H := Reference.externals) unquoted_line = OK r
        /\ PythonFastavro.transform_record (H := Reference.externals) offset_line = OK r
        /\ py_int (H := Reference.externals) (PyStr "3") = OK (itemsInCart r)
        /\ decimal_Decimal (H := Reference.externals) (PyStr "19.995") = OK (totalValue r)).
Proof.
  assert (members_requoted unquoted_members offset_members) as Hr.
  { unfold members_requoted, unquoted_members, offset_members.
    repeat (apply List.Forall2_cons;
            [split;
             [reflexivity
             |unfold requoted; simpl;
              first [left; reflexivity
                    |right; eexists; split;
                     [first [left; reflexivity | right; reflexivity] | reflexivity]]]
            |]).
    apply List.Forall2_nil. }
  assert (fields_valid (H := Reference.externals) (scaled_total (H := Reference.externals))
            required_keys unquoted_members) as Hva by fields_valid_by_evaluation.
  assert (fields_valid (H := Reference.externals) (decimal_Decimal (H := Reference.externals))
            required_keys unquoted_members) as Hvf by fields_valid_by_evaluation.
  split; [exact Hr|].
  split; [vm_compute; reflexivity|]. split; [vm_compute; reflexivity|].
  destruct (C9_numbers_as_text (H := Reference.externals) unquoted_line offset_line
              unquoted_members offset_members) as (_ & Ha & Hf).
  - vm_compute; reflexivity.
  - vm_compute; reflexivity.
  - exact Hr.
  - split.
    + destruct (Ha Hva) as (r & H1 & H2 & Hn & Ht). exists r.
      split; [exact H1|]. split; [exact H2|].
      split; [apply Hn; reflexivity | apply Ht; right; reflexivity].
    + destruct (Hf Hvf) as (r & H1 & H2 & Hn & Ht). exists r.
      split; [exact H1|]. split; [exact H2|].
      split; [apply Hn; reflexivity | apply Ht; right; reflexivity].
Defined.

Lemma C10_witness :
  PythonAvro.transform_record (H := Reference.externals) offset_line
  = OK (offset_record (Finite false 2000 0))
  /\ PythonFastavro.transform_record (H := Reference.externals) offset_line
     = OK (offset_record (Finite false 19995 (-3)))
  /\ timestamp (offset_record (Finite false 2000 0))
     = timestamp (offset_record (Finite false 19995 (-3)))
  /\ itemsInCart (offset_record (Finite false 2000 0))
     = itemsInCart (offset_record (Finite false 19995 (-3))).
Proof.
  assert (PythonAvro.transform_record (H := Reference.externals) offset_line
          = OK (offset_record (Finite false 2000 0))) as Ha
    by (vm_compute; reflexivity).
  assert (PythonFastavro.transform_record (H := Reference.externals) offset_line
          = OK (offset_record (Finite false 19995 (-3)))) as Hf
    by (vm_compute; reflexivity).
  split; [exact Ha|]. split; [exact Hf|].
  destruct (C10_variants_agree (H := Reference.externals) offset_line _ _ Ha Hf)
    as (_ & _ & Hts & _ & Hn & _).
  split; [exact Hts | exact Hn].
Defined.

(** ** Time stamps *)

Lemma wall_seconds_replace (dt : datetime) (tz : Z) :
  wall_seconds (replace_tzinfo dt tz) = wall_seconds dt.
Proof. reflexivity. Qed.

(** A naive value is tagged: same clock reading, attached to UTC. *)
Lemma replace_tzinfo_naive (parsed : datetime) :
  tzinfo parsed = None ->
  normalised_to_utc parsed (replace_tzinfo parsed timezone_utc).
Proof.
  intros Hn. unfold normalised_to_utc. rewrite Hn. split; reflexivity.
Qed.

(** An aware value keeps its clock reading too, so that its instant is
    kept only when its offset is zero. *)
Lemma replace_tzinfo_aware (parsed : datetime) (off : Z) :
  tzinfo parsed = Some off ->
  normalised_to_utc parsed (replace_tzinfo parsed timezone_utc) <-> off = 0.
Proof.
  intros Ha. unfold normalised_to_utc, instant. rewrite Ha. simpl.
  unfold timezone_utc. rewrite wall_seconds_replace. split.
  - intros [_ Hi]. injection Hi as Hi. lia.
  - intros ->. split; reflexivity.
Qed.

(** C1, on the specification's own example.  The time stamp
    "2023-01-25T10:00:00-05:00" parses to an aware value whose instant is
    that of "2023-01-25T15:00:00Z"; both variants output the clock reading
    10:00:00 attached to UTC, which is another instant. *)
Theorem C1_offset_discarded :
  exists parsed expected,
    Reference.iso8601 offset_timestamp = Some parsed
    /\ tzinfo parsed = Some (-18000)
    /\ Reference.iso8601 offset_timestamp_in_utc = Some expected
    /\ instant parsed = instant expected
    /\ PythonAvro.transform_record (H := Reference.externals) offset_line
       = OK (offset_record (Finite false 2000 0))
    /\ PythonFastavro.transform_record (H := Reference.externals) offset_line
       = OK (offset_record (Finite false 19995 (-3)))
    /\ timestamp (offset_record (Finite false 2000 0)) = clock_10 (Some 0)
    /\ instant (clock_10 (Some 0)) <> instant expected
    /\ ~ normalised_to_utc parsed (clock_10 (Some 0)).
Proof.
  exists (clock_10 (Some (-18000))).
  exists {| year := 2023; month := 1; day := 25; hour := 15; minute := 0; second := 0;
            microsecond := 0; tzinfo := Some 0 |}.
  repeat split; try (vm_compute; reflexivity).
  - vm_compute. discriminate.
  - intros [_ Hi]. vm_compute in Hi. discriminate.
Qed.

(** ** Failures *)

Section Success.
Context `{Externals}.

Lemma required_key_missing (line : string) (ms : list (string * json)) (k : string) :
  json_scan line = Some (JObject ms) ->
  In k required_keys ->
  json_member ms k = None ->
  key_missing line.
Proof.
  intros Hs Hin Hm. exists (JObject ms), k. repeat split; try assumption.
  rewrite subscript_object, Hm. reflexivity.
Qed.

Lemma present_key_not_missing (ms : list (string * json)) (k : string) (v : json) :
  json_member ms k = Some v ->
  subscript (decode str str (JObject ms)) k <> Err (KeyError k).
Proof. intros Hm. rewrite subscript_object, Hm. discriminate. Qed.

(** The outcome is a success exactly when the scanner returns a document,
    the document is an object, no key is missing and no conversion rejects
    its value. *)
Lemma outcome_succeeds (conv : pyval -> result Decimal) (line : string) :
  succeeds (outcome_by_first_failure conv (json_document line)) <->
  ~ malformed_json line /\ ~ nested_too_deep line /\ ~ not_an_object line
  /\ ~ key_missing line /\ ~ field_malformed conv line.
Proof.
  unfold malformed_json, nested_too_deep, json_document.
  destruct (json_scan line) as [j|] eqn:Hs.
  2: { split; [intros [r Hr]; discriminate|].
       intros (Hm & Hd & _). exfalso.
       destruct (json_too_deep line); [apply Hd | apply Hm]; split; reflexivity. }
  destruct j as [| | | | | | |ms];
    try (split;
         [intros [r Hr]; discriminate
         |intros (_ & _ & Hno & _); exfalso; apply Hno; eexists; split;
          [exact Hs | intros ms; discriminate]]).
  unfold outcome_by_first_failure. cbv zeta. split.
  - intros [r Hr].
    apply bind_OK_inv in Hr as (et & Het & Hr).
    apply bind_OK_inv in Hr as (ei & Hei & Hr).
    apply bind_OK_inv in Hr as (ts & Hts & Hr).
    apply bind_OK_inv in Hr as (parsed & Hp & Hr).
    apply bind_OK_inv in Hr as (ui & Hui & Hr).
    apply bind_OK_inv in Hr as (items & Hit & Hr).
    apply bind_OK_inv in Hr as (n & Hn & Hr).
    apply bind_OK_inv in Hr as (total & Htot & Hr).
    apply bind_OK_inv in Hr as (d & Hd & Hr).
    destruct (json_member ms "eventType") as [v1|] eqn:H1; [|discriminate].
    destruct (json_member ms "eventId") as [v2|] eqn:H2; [|discriminate].
    destruct (json_member ms "timestamp") as [v3|] eqn:H3; [|discriminate].
    destruct (json_member ms "userId") as [v4|] eqn:H4; [|discriminate].
    destruct (json_member ms "itemsInCart") as [v5|] eqn:H5; [|discriminate].
    destruct (json_member ms "totalValue") as [v6|] eqn:H6; [|discriminate].
    assert (ts = decode str str v3) as -> by congruence.
    assert (items = decode str str v5) as -> by congruence.
    assert (total = decode str str v6) as -> by congruence.
    split; [intros [Hx _]; discriminate|].
    split; [intros [Hx _]; discriminate|]. split.
    { intros (j & Hj & Hno). rewrite Hs in Hj. injection Hj as <-. eapply Hno. reflexivity. }
    split.
    { intros (j & k & Hj & Hin & Hsub). rewrite Hs in Hj. injection Hj as <-.
      unfold required_keys in Hin. simpl in Hin.
      destruct Hin as [<-|[<-|[<-|[<-|[<-|[<-|[]]]]]]];
        revert Hsub; eapply present_key_not_missing; eassumption. }
    intros (j & v & Hj & Hcases). rewrite Hs in Hj. injection Hj as <-.
    rewrite !subscript_object, H3, H5, H6 in Hcases.
    destruct Hcases as [[Hv [e He]]|[[Hv [e He]]|[Hv [e He]]]];
      injection Hv as <-; congruence.
  - intros (_ & _ & _ & Hk & Hf).
    destruct (json_member ms "eventType") as [v1|] eqn:H1;
      [|exfalso; apply Hk; eapply (required_key_missing _ _ _ Hs); [|exact H1];
        unfold required_keys; simpl; auto 10].
    destruct (json_member ms "eventId") as [v2|] eqn:H2;
      [|exfalso; apply Hk; eapply (required_key_missing _ _ _ Hs); [|exact H2];
        unfold required_keys; simpl; auto 10].
    destruct (json_member ms "timestamp") as [v3|] eqn:H3;
      [|exfalso; apply Hk; eapply (required_key_missing _ _ _ Hs); [|exact H3];
        unfold required_keys; simpl; auto 10].
    destruct (json_member ms "userId") as [v4|] eqn:H4;
      [|exfalso; apply Hk; eapply (required_key_missing _ _ _ Hs); [|exact H4];
        unfold required_keys; simpl; auto 10].
    destruct (json_member ms "itemsInCart") as [v5|] eqn:H5;
      [|exfalso; apply Hk; eapply (required_key_missing _ _ _ Hs); [|exact H5];
        unfold required_keys; simpl; auto 10].
    destruct (json_member ms "totalValue") as [v6|] eqn:H6;
      [|exfalso; apply Hk; eapply (required_key_missing _ _ _ Hs); [|exact H6];
        unfold required_keys; simpl; auto 10].
    simpl.
    destruct (dateutil_parser_parse (decode str str v3)) as [parsed|e] eqn:Hp.
    2: { exfalso. apply Hf. exists (JObject ms), (decode str str v3).
         split; [exact Hs|]. left. rewrite subscript_object, H3.
         split; [reflexivity | eexists; exact Hp]. }
    simpl.
    destruct (py_int (decode str str v5)) as [n|e] eqn:Hn.
    2: { exfalso. apply Hf. exists (JObject ms), (decode str str v5).
         split; [exact Hs|]. right. left. rewrite subscript_object, H5.
         split; [reflexivity | eexists; exact Hn]. }
    simpl.
    destruct (conv (decode str str v6)) as [d|e] eqn:Hd.
    2: { exfalso. apply Hf. exists (JObject ms), (decode str str v6).
         split; [exact Hs|]. right. right. rewrite subscript_object, H6.
         split; [reflexivity | eexists; exact Hd]. }
    simpl. eexists. reflexivity.
Qed.
End Success.

Section TextErrors.
Context `{Externals}.

(** The errors of the two numeric conversions on text. *)
Lemma py_int_text_error (s : string) (e : pyerr) :
  py_int (PyStr s) = Err e -> e = ValueError.
Proof.
  unfold py_int.
  destruct (if ascii_text s then int_of_ascii (list_ascii_of_string s)
            else int_of_unicode s); [discriminate | congruence].
Qed.

Lemma decimal_text_error (s : string) (e : pyerr) :
  decimal_Decimal (PyStr s) = Err e -> e = InvalidOperation.
Proof.
  unfold decimal_Decimal.
  destruct (if ascii_text s then Decimal_of_ascii (list_ascii_of_string s)
            else Decimal_of_unicode s); [discriminate | congruence].
Qed.
End TextErrors.

(** C6, as amended.  Both variants check, in this order: that the scanner
    returns a document (if the line is not well-formed JSON:
    [JSONDecodeError], the parse error; if it is nested too deeply for the
    recursion limit: [RecursionError]); that the document is an object (if
    not: [TypeError]); then, for [eventType], [eventId], [timestamp],
    [userId], [itemsInCart] and [totalValue] in turn, that the key is
    present (if not: [KeyError]) and that the conversion of the field
    accepts the value (if not: the error of the conversion, which for text
    is [ValueError] from [int] and [InvalidOperation] from [Decimal], and
    for [null] is [TypeError]).  The first check that fails decides the
    error, and the transformation succeeds exactly when no check fails. *)
Theorem C6_first_failure `{Externals} (line : string) :
  PythonAvro.transform_record line
  = outcome_by_first_failure scaled_total (json_document line)
  /\ PythonFastavro.transform_record line
     = outcome_by_first_failure decimal_Decimal (json_document line)
  /\ (malformed_json line ->
      PythonAvro.transform_record line = Err JSONDecodeError
      /\ PythonFastavro.transform_record line = Err JSONDecodeError)
  /\ (nested_too_deep line ->
      PythonAvro.transform_record line = Err RecursionError
      /\ PythonFastavro.transform_record line = Err RecursionError)
  /\ (not_an_object line ->
      PythonAvro.transform_record line = Err TypeError
      /\ PythonFastavro.transform_record line = Err TypeError)
  /\ (succeeds (PythonAvro.transform_record line) <->
      ~ malformed_json line /\ ~ nested_too_deep line /\ ~ not_an_object line
      /\ ~ key_missing line /\ ~ field_malformed scaled_total line)
  /\ (succeeds (PythonFastavro.transform_record line) <->
      ~ malformed_json line /\ ~ nested_too_deep line /\ ~ not_an_object line
      /\ ~ key_missing line /\ ~ field_malformed decimal_Decimal line)
  /\ (forall s e,
        (py_int (PyStr s) = Err e -> e = ValueError)
        /\ (decimal_Decimal (PyStr s) = Err e -> e = InvalidOperation))
  /\ py_int PyNone = Err TypeError
  /\ decimal_Decimal PyNone = Err TypeError.
Proof.
  split; [apply avro_outcome|]. split; [apply fastavro_outcome|].
  split.
  { intros [Hm Hd]. rewrite avro_outcome, fastavro_outcome.
    unfold json_document. rewrite Hm, Hd. split; reflexivity. }
  split.
  { intros [Hm Hd]. rewrite avro_outcome, fastavro_outcome.
    unfold json_document. rewrite Hm, Hd. split; reflexivity. }
  split.
  { intros (j & Hj & Hno). rewrite avro_outcome, fastavro_outcome.
    unfold json_document. rewrite Hj.
    destruct j; try (split; reflexivity). exfalso. eapply Hno. reflexivity. }
  split; [rewrite avro_outcome; apply outcome_succeeds|].
  split; [rewrite fastavro_outcome; apply outcome_succeeds|].
  split; [|split; reflexivity].
  intros s e. split; [apply py_int_text_error | apply decimal_text_error].
Qed.

(** Two lines on which none of the three conditions of the specification
    holds and both variants fail: a line that holds a JSON array
    ([TypeError]), and a valid line with one more field, nested one level
    deeper than the scanner can go ([RecursionError]).  With one level
    less the same line is transformed. *)
Lemma C6_counterexample :
  PythonAvro.transform_record (H := Reference.externals) array_line = Err TypeError
  /\ PythonFastavro.transform_record (H := Reference.externals) array_line = Err TypeError
  /\ class_of TypeError = OtherClass
  /\ ~ error_claim (H := Reference.externals)
         (PythonAvro.transform_record (H := Reference.externals))
         (scaled_total (H := Reference.externals)) array_line
  /\ ~ error_claim (H := Reference.externals)
         (PythonFastavro.transform_record (H := Reference.externals))
         (decimal_Decimal (H := Reference.externals)) array_line
  /\ PythonAvro.transform_record (H := Reference.externals) deep_line = Err RecursionError
  /\ PythonFastavro.transform_record (H := Reference.externals) deep_line
     = Err RecursionError
  /\ PythonAvro.transform_record (H := Reference.externals) (noted_line 993)
     = OK (offset_record (Finite false 1234 0))
  /\ ~ error_claim (H := Reference.externals)
         (PythonAvro.transform_record (H := Reference.externals))
         (scaled_total (H := Reference.externals)) deep_line
  /\ ~ error_claim (H := Reference.externals)
         (PythonFastavro.transform_record (H := Reference.externals))
         (decimal_Decimal (H := Reference.externals)) deep_line.
Proof.
  assert (json_scan (Externals := Reference.externals) array_line
          = Some (JArray [JInt "1"; JInt "2"])) as Hs by (vm_compute; reflexivity).
  assert (~ malformed_json (H := Reference.externals) array_line) as Hm
    by (unfold malformed_json; rewrite Hs; intros [Hx _]; discriminate).
  assert (~ key_missing (H := Reference.externals) array_line) as Hk.
  { intros (j & k & Hj & _ & Hsub). rewrite Hs in Hj. injection Hj as <-.
    simpl in Hsub. discriminate. }
  assert (forall conv, ~ field_malformed (H := Reference.externals) conv array_line) as Hf.
  { intros conv (j & v & Hj & Hc). rewrite Hs in Hj. injection Hj as <-.
    simpl in Hc. destruct Hc as [[Hv _]|[[Hv _]|[Hv _]]]; discriminate. }
  assert (PythonAvro.transform_record (H := Reference.externals) array_line
          = Err TypeError) as Ha by (vm_compute; reflexivity).
  assert (PythonFastavro.transform_record (H := Reference.externals) array_line
          = Err TypeError) as Hfa by (vm_compute; reflexivity).
  assert (json_scan (Externals := Reference.externals) deep_line = None) as Hds
    by (vm_compute; reflexivity).
  assert (json_too_deep (Externals := Reference.externals) deep_line = true) as Hdd
    by (vm_compute; reflexivity).
  assert (~ malformed_json (H := Reference.externals) deep_line) as Hdm
    by (unfold malformed_json; rewrite Hdd; intros [_ Hx]; discriminate).
  assert (~ key_missing (H := Reference.externals) deep_line) as Hdk.
  { intros (j & k & Hj & _). rewrite Hds in Hj. discriminate. }
  assert (forall conv, ~ field_malformed (H := Reference.externals) conv deep_line) as Hdf.
  { intros conv (j & v & Hj & _). rewrite Hds in Hj. discriminate. }
  assert (PythonAvro.transform_record (H := Reference.externals) deep_line
          = Err RecursionError) as Hda by (vm_compute; reflexivity).
  assert (PythonFastavro.transform_record (H := Reference.externals) deep_line
          = Err RecursionError) as Hdfa by (vm_compute; reflexivity).
  split; [exact Ha|]. split; [exact Hfa|]. split; [reflexivity|].
  split; [intros (_ & _ & _ & Hiff);
          destruct (proj2 Hiff (conj Hm (conj Hk (Hf _)))) as [r Hr]; congruence|].
  split; [intros (_ & _ & _ & Hiff);
          destruct (proj2 Hiff (conj Hm (conj Hk (Hf _)))) as [r Hr]; congruence|].
  split; [exact Hda|]. split; [exact Hdfa|].
  split; [vm_compute; reflexivity|].
  split; intros (_ & _ & _ & Hiff);
    destruct (proj2 Hiff (conj Hdm (conj Hdk (Hdf _)))) as [r Hr]; congruence.
Qed.

Lemma C6_witness :
  not_an_object (H := Reference.externals) array_line
  /\ PythonAvro.transform_record (H := Reference.externals) array_line = Err TypeError
  /\ PythonFastavro.transform_record (H := Reference.externals) array_line = Err TypeError
  /\ nested_too_deep (H := Reference.externals) deep_line
  /\ PythonAvro.transform_record (H := Reference.externals) deep_line = Err RecursionError
  /\ PythonFastavro.transform_record (H := Reference.externals) deep_line
     = Err RecursionError.
Proof.
  assert (not_an_object (H := Reference.externals) array_line) as Hno.
  { exists (JArray [JInt "1"; JInt "2"]). split; [vm_compute; reflexivity|].
    intros ms. discriminate. }
  assert (nested_too_deep (H := Reference.externals) deep_line) as Hdeep
    by (split; vm_compute; reflexivity).
  split; [exact Hno|].
  destruct (C6_first_failure (H := Reference.externals) array_line)
    as (_ & _ & _ & _ & Hobj & _).
  destruct (Hobj Hno) as [Ha Hf].
  split; [exact Ha|]. split; [exact Hf|]. split; [exact Hdeep|].
  destruct (C6_first_failure (H := Reference.externals) deep_line)
    as (_ & _ & _ & Hrec & _).
  exact (Hrec Hdeep).
Defined.

(** ** The drivers *)



Lemma mapM_OK_Forall2 {A B : Type} (f : A -> result B) (l : list A) (rs : list B) :
  mapM f l = OK rs -> Forall2 (fun x y => f x = OK y) l rs.
Proof.
  revert rs. induction l as [|x l IH]; intros rs; simpl.
  - intros [= <-]. constructor.
  - intros Hm. apply bind_OK_inv in Hm as (y & Hy & Hm).
    apply bind_OK_inv in Hm as (ys & Hys & Hm).
    injection Hm as <-. constructor; auto.
Qed.

Section Drivers.
Context `{Externals} `{AvroLibrary}.

End Drivers.

Section Mains.
Context `{Externals} `{AvroLibrary}.


(** A successful run of the batch driver. *)
Lemma fastavro_main_ok (fs : gmap string string) (lk : gset string)
    (prog sf jf af stext content : string) (sch : schema) (rs : list record) :
  fs !! sf = Some stext ->
  load_schema stext = OK sch ->
  fs !! jf = Some content ->
  af ∉ lk ->
  mapM PythonFastavro.transform_record (readlines content) = OK rs ->
  forallb (datum_valid sch) rs = true ->
  PythonFastavro.main [prog; sf; jf; af] (fresh fs lk)
  = ({| files := <[af := EmptyString]> fs; locked := lk;
        trace := [EOpenRead sf; EClose sf; EOpenRead jf; EClose jf;
                  EOpenWrite af; EWrite rs; EClose af] |}, inr tt).
Proof.
  intros Hsf Hsch Hjf Hlk Hm Hv.
  unfold PythonFastavro.main, PythonFastavro.fastavro_writer,
    with_open_read, with_open_write, finally, fresh.
  simpl. unfold mbind, io_bind. simpl. rewrite Hsf. simpl. rewrite Hsch. simpl.
  rewrite Hjf. rewrite Hm. simpl.
  destruct (decide (af ∈ lk)) as [Hin|_]; [contradiction|].
  simpl. rewrite Hv. reflexivity.
Qed.

End Mains.



(** C8. With an argument count other than three (the list [argv] counts
    the program name as well), each script prints its usage text to the
    error stream and exits with status 1; nothing else happens: no file is
    opened and the files are as before. *)
Theorem C8_usage `{Externals} `{AvroLibrary} (argv : list string) (w : world) :
  length argv <> 4%nat ->
  run (PythonAvro.main argv) w = (after w [EStderr (doc ++ newline)], 1)
  /\ run (PythonFastavro.main argv) w = (after w [EStderr (doc ++ newline)], 1).
Proof.
  intros Hlen. apply Nat.eqb_neq in Hlen.
  unfold PythonAvro.main, PythonFastavro.main. rewrite Hlen. simpl.
  split; reflexivity.
Qed.


Lemma C8_witness :
  length ["convert.py"; "schema.avsc"] <> 4%nat
  /\ run (PythonAvro.main (H := Reference.externals) (H0 := Reference.avro_library)
            ["convert.py"; "schema.avsc"]) (fresh example_files ∅)
     = (after (fresh example_files ∅) [EStderr (doc ++ newline)], 1).
Proof.
  assert (length ["convert.py"; "schema.avsc"] <> 4%nat) as Hlen by (simpl; lia).
  split; [exact Hlen|].
  apply (C8_usage (H := Reference.externals) (H0 := Reference.avro_library)
           ["convert.py"; "schema.avsc"] (fresh example_files ∅) Hlen).
Defined.

(** * Further properties of the drivers *)

Lemma mapM_first_failure {A B : Type} (f : A -> result B) (good : list A) (bad : A)
    (rest : list A) (rs : list B) (e : pyerr) :
  mapM f good = OK rs -> f bad = Err e -> mapM f (good ++ bad :: rest) = Err e.
Proof.
  revert rs. induction good as [|x good IH]; intros rs; simpl.
  - intros _ Hb. rewrite Hb. reflexivity.
  - intros Hm Hb. apply bind_OK_inv in Hm as (y & Hy & Hm).
    apply bind_OK_inv in Hm as (ys & Hys & _).
    rewrite Hy. simpl. rewrite (IH ys Hys Hb). reflexivity.
Qed.

Section FailingRuns.
Context `{Externals} `{AvroLibrary}.

End FailingRuns.


(** X2. On the same kind of input the batch driver hands the writer
    nothing: it fails while it transforms the lines, before it opens the
    output, so that the files are as they were. *)
Theorem batch_writes_nothing_on_failure `{Externals} `{AvroLibrary}
    (fs : gmap string string) (lk : gset string)
    (prog sf jf af stext content : string) (sch : schema)
    (good : list string) (bad : string) (rest : list string)
    (rs : list record) (e : pyerr) :
  fs !! sf = Some stext ->
  load_schema stext = OK sch ->
  fs !! jf = Some content ->
  readlines content = (good ++ bad :: rest)%list ->
  mapM PythonFastavro.transform_record good = OK rs ->
  PythonFastavro.transform_record bad = Err e ->
  let final := run (PythonFastavro.main [prog; sf; jf; af]) (fresh fs lk) in
  final = ({| files := fs; locked := lk;
              trace := [EOpenRead sf; EClose sf; EOpenRead jf; EClose jf;
                        ETraceback e] |}, 1)
  /\ handed (trace final.1) = [].
Proof.
  intros Hsf Hsch Hjf Hlines Hm Hb final.
  assert (final = ({| files := fs; locked := lk;
              trace := [EOpenRead sf; EClose sf; EOpenRead jf; EClose jf;
                        ETraceback e] |}, 1)) as Hfinal.
  { subst final.
    unfold run, PythonFastavro.main, with_open_read, with_open_write, finally, fresh.
    simpl. unfold mbind, io_bind. simpl. rewrite Hsf. simpl. rewrite Hsch. simpl.
    rewrite Hjf, Hlines. rewrite (mapM_first_failure _ good bad rest rs e Hm Hb).
    reflexivity. }
  split; [exact Hfinal|]. rewrite Hfinal. reflexivity.
Qed.

(** X3. A schema file that is missing, or that the library rejects, stops
    both drivers at once: the input is not opened, the output is not
    created, the status is 1. *)
Theorem schema_failure_stops_both `{Externals} `{AvroLibrary}
    (fs : gmap string string) (lk : gset string) (prog sf jf af : string) :
  let argv := [prog; sf; jf; af] in
  (fs !! sf = None ->
   let final := ({| files := fs; locked := lk;
                    trace := [EOpenRead sf; ETraceback (OSError sf)] |}, 1) in
   run (PythonAvro.main argv) (fresh fs lk) = final
   /\ run (PythonFastavro.main argv) (fresh fs lk) = final)
  /\ (forall stext e,
        fs !! sf = Some stext -> load_schema stext = Err e ->
        let final := ({| files := fs; locked := lk;
                         trace := [EOpenRead sf; EClose sf; ETraceback e] |}, 1) in
        run (PythonAvro.main argv) (fresh fs lk) = final
        /\ run (PythonFastavro.main argv) (fresh fs lk) = final).
Proof.
  intros argv. subst argv. split.
  - intros Hsf final. subst final.
    unfold run, PythonAvro.main, PythonFastavro.main, with_open_read, finally, fresh.
    simpl. unfold mbind, io_bind. simpl. rewrite Hsf. split; reflexivity.
  - intros stext e Hsf Hsch final. subst final.
    unfold run, PythonAvro.main, PythonFastavro.main, with_open_read, finally, fresh.
    simpl. unfold mbind, io_bind. simpl. rewrite Hsf. simpl. rewrite Hsch.
    split; reflexivity.
Qed.


(** X5. When the output path is the input path, the streaming driver
    empties the file before it reads it: whatever the file held, no record
    is written and the run ends with status 0.  The batch driver reads the
    lines first and writes their records. *)
Theorem output_over_input `{Externals} `{AvroLibrary}
    (fs : gmap string string) (lk : gset string)
    (prog sf p stext : string) (sch : schema) :
  fs !! sf = Some stext ->
  load_schema stext = OK sch ->
  p ∉ lk ->
  let argv := [prog; sf; p; p] in
  (let final := run (PythonAvro.main argv) (fresh fs lk) in
   final = ({| files := <[p := EmptyString]> fs; locked := lk;
               trace := [EOpenRead sf; EClose sf; EOpenWrite p; EOpenRead p;
                         EClose p; EClose p] |}, 0)
   /\ handed (trace final.1) = [])
  /\ (forall content rs,
        fs !! p = Some content ->
        mapM PythonFastavro.transform_record (readlines content) = OK rs ->
        forallb (datum_valid sch) rs = true ->
        let final := run (PythonFastavro.main argv) (fresh fs lk) in
        final.2 = 0 /\ handed (trace final.1) = rs).
Proof.
  intros Hsf Hsch Hlk argv. subst argv. split.
  - assert (run (PythonAvro.main [prog; sf; p; p]) (fresh fs lk)
            = ({| files := <[p := EmptyString]> fs; locked := lk;
                  trace := [EOpenRead sf; EClose sf; EOpenWrite p; EOpenRead p;
                            EClose p; EClose p] |}, 0)) as Hfinal.
    { unfold run, PythonAvro.main, with_open_read, with_open_write, finally, fresh.
      simpl. unfold mbind, io_bind. simpl. rewrite Hsf. simpl. rewrite Hsch. simpl.
      destruct (decide (p ∈ lk)) as [Hin|_]; [contradiction|].
      simpl. rewrite lookup_insert_eq. reflexivity. }
    intros final. subst final. rewrite Hfinal. split; reflexivity.
  - intros content rs Hp Hm Hv final. subst final. unfold run.
    rewrite (fastavro_main_ok fs lk prog sf p p stext content sch rs) by assumption.
    simpl. split; [reflexivity | apply app_nil_r].
Qed.

(** X6. When the output cannot be opened for writing, both drivers end
    with status 1 and hand the writer nothing; the streaming driver has not
    opened the input at that point, the batch driver has read and
    transformed all of it. *)
Theorem unwritable_output `{Externals} `{AvroLibrary}
    (fs : gmap string string) (lk : gset string)
    (prog sf jf af stext content : string) (sch : schema) (rs : list record) :
  fs !! sf = Some stext ->
  load_schema stext = OK sch ->
  af ∈ lk ->
  fs !! jf = Some content ->
  mapM PythonFastavro.transform_record (readlines content) = OK rs ->
  let argv := [prog; sf; jf; af] in
  run (PythonAvro.main argv) (fresh fs lk)
  = ({| files := fs; locked := lk;
        trace := [EOpenRead sf; EClose sf; EOpenWrite af;
                  ETraceback (OSError af)] |}, 1)
  /\ run (PythonFastavro.main argv) (fresh fs lk)
     = ({| files := fs; locked := lk;
           trace := [EOpenRead sf; EClose sf; EOpenRead jf; EClose jf;
                     EOpenWrite af; ETraceback (OSError af)] |}, 1).
Proof.
  intros Hsf Hsch Hlk Hjf Hm argv. subst argv.
  unfold run, PythonAvro.main, PythonFastavro.main,
    with_open_read, with_open_write, finally, fresh.
  simpl. unfold mbind, io_bind. simpl. rewrite Hsf. simpl. rewrite Hsch. simpl.
  rewrite Hjf. rewrite Hm. simpl.
  destruct (decide (af ∈ lk)) as [_|Hout]; [|contradiction].
  split; reflexivity.
Qed.

(** ** What the drivers leave alone *)

Lemma confined_ret (out : string) {A : Type} (a : A) : confined out (mret a : io A).
Proof.
  intros w w' r [= <- <-]. repeat split; try reflexivity.
  - exists []. symmetry. apply app_nil_r.
  - discriminate.
Qed.

Lemma confined_raise (out : string) {A : Type} (x : exn) :
  (forall status, x = SystemExit status -> status = 1) ->
  confined out (raise x : io A).
Proof.
  intros Hx w w' r [= <- <-]. repeat split; try reflexivity.
  - exists []. symmetry. apply app_nil_r.
  - intros status [= ->]. apply Hx. reflexivity.
Qed.

Lemma confined_emit (out : string) (e : event) : confined out (emit e).
Proof.
  intros w w' r [= <- <-]. simpl. repeat split; try reflexivity.
  - eexists. reflexivity.
  - discriminate.
Qed.

Lemma confined_lift (out : string) {A : Type} (m : result A) : confined out (lift m).
Proof.
  destruct m as [a|e]; simpl.
  - apply confined_ret.
  - apply confined_raise. discriminate.
Qed.

Lemma confined_bind (out : string) {A B : Type} (m : io A) (k : A -> io B) :
  confined out m -> (forall a, confined out (k a)) -> confined out (m ≫= k).
Proof.
  intros Hm Hk w w' r. unfold mbind, io_bind.
  destruct (m w) as [w1 [x|a]] eqn:Hmw.
  - intros [= <- <-]. destruct (Hm _ _ _ Hmw) as (Hf & Hl & Ht & Hs).
    repeat split; auto.
    intros status [= ->]. apply (Hs status). reflexivity.
  - intros Hka. destruct (Hm _ _ _ Hmw) as (Hf & Hl & [ev1 Ht] & _).
    destruct (Hk a _ _ _ Hka) as (Hf' & Hl' & [ev2 Ht'] & Hs').
    repeat split.
    + intros p Hp. rewrite (Hf' p Hp). apply Hf, Hp.
    + congruence.
    + exists (ev1 ++ ev2)%list. rewrite Ht', Ht, app_assoc. reflexivity.
    + exact Hs'.
Qed.

Lemma confined_finally (out : string) {A : Type} (body : io A) (e : event) :
  confined out body -> confined out (finally body (emit e)).
Proof.
  intros Hb w w' r. unfold finally.
  destruct (body w) as [w1 r1] eqn:Hbw. simpl.
  intros [= <- <-]. destruct (Hb _ _ _ Hbw) as (Hf & Hl & [ev Ht] & Hs).
  simpl. repeat split; auto.
  exists (ev ++ [e])%list. rewrite Ht, app_assoc. reflexivity.
Qed.

Lemma confined_with_open_read (out : string) {A : Type} (path : string)
    (body : string -> io A) :
  (forall text, confined out (body text)) -> confined out (with_open_read path body).
Proof.
  intros Hb. unfold with_open_read. apply confined_bind; [apply confined_emit|].
  intros _ w w' r. destruct (files w !! path) as [text|].
  - apply confined_finally, Hb.
  - apply confined_raise. discriminate.
Qed.

Lemma confined_with_open_write (out : string) {A : Type} (body : io A) :
  confined out body -> confined out (with_open_write out body).
Proof.
  intros Hb. unfold with_open_write. apply confined_bind; [apply confined_emit|].
  intros _ w w' r. destruct (decide (out ∈ locked w)) as [Hin|Hout].
  - apply confined_raise. discriminate.
  - intros Hrun. apply (confined_finally out body (EClose out) Hb) in Hrun
      as (Hf & Hl & Ht & Hs). simpl in *.
    repeat split; auto.
    intros p Hp. rewrite (Hf p Hp). apply lookup_insert_ne. congruence.
Qed.

Section Confinement.
Context `{Externals} `{AvroLibrary}.

Lemma confined_append_all (out : string) (sch : schema) (lines : list string) :
  confined out (PythonAvro.append_all sch lines).
Proof.
  induction lines as [|line lines IH]; simpl.
  - apply confined_ret.
  - apply confined_bind; [apply confined_lift|]. intros r.
    apply confined_bind; [apply confined_emit|]. intros _.
    apply confined_bind; [|intros _; exact IH].
    destruct (datum_valid sch r); [apply confined_ret | apply confined_raise; discriminate].
Qed.

Lemma confined_usage (out : string) :
  confined out (print_stderr doc ≫= fun _ : unit => (sys_exit 1 : io unit)).
Proof.
  apply confined_bind; [apply confined_emit|]. intros _.
  apply confined_raise. intros status [= <-]. reflexivity.
Qed.

Lemma avro_main_confined (argv : list string) :
  confined (nth 3 argv EmptyString) (PythonAvro.main argv).
Proof.
  unfold PythonAvro.main. destruct (negb (length argv =? 4)%nat).
  - apply confined_usage.
  - apply confined_bind; [apply confined_with_open_read; intros; apply confined_lift|].
    intros sch. apply confined_with_open_write, confined_with_open_read.
    intros text. apply confined_append_all.
Qed.

Lemma fastavro_main_confined (argv : list string) :
  confined (nth 3 argv EmptyString) (PythonFastavro.main argv).
Proof.
  unfold PythonFastavro.main. destruct (negb (length argv =? 4)%nat).
  - apply confined_usage.
  - apply confined_bind; [apply confined_with_open_read; intros; apply confined_lift|].
    intros sch.
    apply confined_bind; [apply confined_with_open_read; intros; apply confined_lift|].
    intros transformed. apply confined_with_open_write.
    unfold PythonFastavro.fastavro_writer.
    apply confined_bind; [apply confined_emit|]. intros _.
    destruct (forallb _ _); [apply confined_ret | apply confined_raise; discriminate].
Qed.

(** What [run] adds to a confined script body. *)
Lemma run_confined (out : string) (body : io unit) (w : world) :
  confined out body ->
  (forall p, p <> out -> files (run body w).1 !! p = files w !! p)
  /\ locked (run body w).1 = locked w
  /\ (exists events, trace (run body w).1 = (trace w ++ events)%list)
  /\ ((run body w).2 = 0 \/ (run body w).2 = 1).
Proof.
  intros Hb. unfold run. destruct (body w) as [w' r] eqn:Hbw.
  destruct (Hb _ _ _ Hbw) as (Hf & Hl & [ev Ht] & Hs).
  destruct r as [[status|e]|[]]; simpl.
  - split; [exact Hf|]. split; [exact Hl|]. split; [eexists; exact Ht|].
    right. apply Hs. reflexivity.
  - split; [exact Hf|]. split; [exact Hl|]. split; [|right; reflexivity].
    exists (ev ++ [ETraceback e])%list. rewrite Ht, app_assoc. reflexivity.
  - split; [exact Hf|]. split; [exact Hl|]. split; [eexists; exact Ht|].
    left. reflexivity.
Qed.
End Confinement.


(** X8. The exit status of either script is 0 or 1, for every argument
    list and every state of the files. *)
Theorem exit_status_is_0_or_1 `{Externals} `{AvroLibrary}
    (argv : list string) (w : world) :
  ((run (PythonAvro.main argv) w).2 = 0 \/ (run (PythonAvro.main argv) w).2 = 1)
  /\ ((run (PythonFastavro.main argv) w).2 = 0
      \/ (run (PythonFastavro.main argv) w).2 = 1).
Proof.
  split.
  - apply (run_confined _ _ w (avro_main_confined argv)).
  - apply (run_confined _ _ w (fastavro_main_confined argv)).
Qed.

(** * Further properties of the transformers *)

(** X9. A transformation reads the six keys and nothing else: two lines
    whose objects bind the six keys to the same values give the same
    result, whatever else the objects hold and in whatever order.  A key
    that occurs several times counts with its last occurrence. *)
Theorem only_the_six_keys_matter `{Externals} (line line' : string)
    (ms ms' : list (string * json)) :
  json_scan line = Some (JObject ms) ->
  json_scan line' = Some (JObject ms') ->
  (forall k, In k required_keys -> json_member ms k = json_member ms' k) ->
  PythonAvro.transform_record line = PythonAvro.transform_record line'
  /\ PythonFastavro.transform_record line = PythonFastavro.transform_record line'.
Proof.
  intros Hs Hs' Hk.
  assert (forall conv, outcome_by_first_failure conv (OK (JObject ms))
                       = outcome_by_first_failure conv (OK (JObject ms'))) as Ho.
  { intros conv. unfold outcome_by_first_failure.
    rewrite !(Hk "eventType"), !(Hk "eventId"), !(Hk "timestamp"),
      !(Hk "userId"), !(Hk "itemsInCart"), !(Hk "totalValue")
      by (unfold required_keys; simpl; auto 10).
    reflexivity. }
  rewrite !avro_outcome, !fastavro_outcome.
  rewrite (json_document_object _ _ Hs), (json_document_object _ _ Hs'). split; apply Ho.
Qed.

Lemma json_member_last (ms : list (string * json)) (k : string) (v : json) :
  json_member (ms ++ [(k, v)]) k = Some v.
Proof.
  induction ms as [|[k' v'] ms IH]; simpl.
  - destruct (decide (k = k)); [reflexivity | contradiction].
  - rewrite IH. reflexivity.
Qed.

(** X10. Every successful transformation, in either variant, outputs the
    clock reading of the parsed time stamp attached to UTC.  When the
    parsed value carried a UTC offset, the output instant is the parsed
    instant moved by exactly that offset. *)
Theorem timestamp_keeps_clock_reading `{Externals} (line : string)
    (ms : list (string * json)) (v : json) (r : record) :
  json_scan line = Some (JObject ms) ->
  json_member ms "timestamp" = Some v ->
  PythonAvro.transform_record line = OK r \/ PythonFastavro.transform_record line = OK r ->
  exists parsed,
    dateutil_parser_parse (decode str str v) = OK parsed
    /\ timestamp r = replace_tzinfo parsed timezone_utc
    /\ tzinfo (timestamp r) = Some 0
    /\ wall_seconds (timestamp r) = wall_seconds parsed
    /\ microsecond (timestamp r) = microsecond parsed
    /\ forall off i, tzinfo parsed = Some off -> instant parsed = Some i ->
                     instant (timestamp r) = Some (i + off * 1000000).
Proof.
  intros Hs Hm Ht.
  apply either_common_steps in Ht as (j & parsed & total & Hc & Htime).
  rewrite (common_steps_object _ _ _ _ _ _ _ _ _ Hs Hc) in Hc.
  destruct Hc as (_ & _ & _ & (ts & Hts & Hp) & _).
  rewrite (subscript_member _ _ _ _ Hts Hm) in Hp.
  exists parsed. rewrite Htime. repeat split; try assumption.
  intros off i Hoff Hi. unfold instant in *. rewrite Hoff in Hi. simpl.
  rewrite wall_seconds_replace. injection Hi as <-. unfold timezone_utc. f_equal. lia.
Qed.

(** X11. The scaled variant accepts no line the other variant rejects:
    whenever it transforms a line, so does the variant that keeps the
    decimal. *)
Theorem scaled_success_implies_plain_success `{Externals} (line : string) (r : record) :
  PythonAvro.transform_record line = OK r ->
  exists d,
    PythonFastavro.transform_record line
    = OK {| eventType := eventType r; eventId := eventId r; timestamp := timestamp r;
            userId := userId r; itemsInCart := itemsInCart r; totalValue := d |}.
Proof.
  intros Ha.
  apply avro_steps in Ha as (j & parsed & total & dec & shifted & Hc & Ht & Hdec & _).
  exists dec. apply fastavro_steps. simpl. exists j, parsed, total. auto.
Qed.

(** ** Totals out of the ordinary *)

(** Shifting by two places keeps the last 26 digits of the coefficient and
    appends two zeros. *)
Lemma shift_two_keeps_26_digits (s : bool) (c : N) (e : Z) :
  shift (Finite s c e) 2 = OK (Finite s ((c mod pow10 26) * 100) e).
Proof.
  unfold shift. simpl check_nans. cbv iota.
  change ((2 <? - prec) || (prec <? 2)) with false. cbv iota.
  change (2 <? 0) with false. cbv iota.
  assert (pow10 prec = pow10 26 * 100)%N as Hp by reflexivity.
  assert (pow10 2 = 100)%N as H2 by reflexivity.
  pose proof (pow10_pos 26) as H26.
  rewrite H2. do 2 f_equal.
  rewrite N.Div0.mul_mod_idemp_l. rewrite Hp.
  apply N.Div0.mul_mod_distr_r.
Qed.

Lemma mod_pow10_digits (c : N) : digits_at_most 26 (c mod pow10 26).
Proof.
  unfold digits_at_most. apply N.mod_lt. pose proof (pow10_pos 26). lia.
Qed.

(** X12. In the scaled variant only the last 26 digits of the coefficient
    of [totalValue] count: the output is the number of cents, rounded half
    to even, of the decimal whose coefficient is the given one cut to its
    last 26 digits.  Longer totals lose their leading digits without an
    error. *)
Theorem scaled_total_uses_last_26_digits `{Externals} (line : string)
    (ms : list (string * json)) (v : json) (s : string)
    (sg : bool) (c : N) (e : Z) (r : record) :
  json_scan line = Some (JObject ms) ->
  json_member ms "totalValue" = Some v ->
  decode str str v = PyStr s ->
  ascii_text s = true ->
  Decimal_of_ascii (list_ascii_of_string s) = Some (Finite sg c e) ->
  PythonAvro.transform_record line = OK r ->
  rounds_cents sg (c mod pow10 26) e (totalValue r).
Proof.
  intros Hs Hm Hd Ha Hp Ht.
  pose proof (avro_total _ _ _ _ Hs Hm Ht) as Hv.
  rewrite Hd in Hv. unfold decimal_Decimal in Hv. rewrite Ha, Hp in Hv.
  rewrite (bind_OK (OK (Finite sg c e)) _ (Finite sg c e) eq_refl) in Hv. cbv beta in Hv.
  destruct (scaled_total_rounds sg (c mod pow10 26) e (mod_pow10_digits c))
    as (out & Hout & Hr).
  rewrite shift_two_keeps_26_digits in Hv.
  rewrite (shift_two_small sg _ e (mod_pow10_digits c)) in Hout.
  rewrite Hout in Hv. injection Hv as <-. exact Hr.
Qed.

(** X13. A total with at most two digits after the point (and at most 26
    digits in all) is converted without rounding: the output is exactly one
    hundred times the value. *)
Theorem cents_are_exact `{Externals} (line : string)
    (ms : list (string * json)) (v : json) (s : string)
    (sg : bool) (c : N) (e : Z) (r : record) :
  json_scan line = Some (JObject ms) ->
  json_member ms "totalValue" = Some v ->
  decode str str v = PyStr s ->
  ascii_text s = true ->
  Decimal_of_ascii (list_ascii_of_string s) = Some (Finite sg c e) ->
  digits_at_most 26 c ->
  -2 <= e ->
  PythonAvro.transform_record line = OK r ->
  integral (totalValue r) = Some (apply_sign sg c * 10 ^ (e + 2)).
Proof.
  intros Hs Hm Hd Ha Hp Hc He Ht.
  pose proof (avro_total _ _ _ _ Hs Hm Ht) as Hv.
  rewrite Hd in Hv. unfold decimal_Decimal in Hv. rewrite Ha, Hp in Hv.
  rewrite (bind_OK (OK (Finite sg c e)) _ (Finite sg c e) eq_refl) in Hv. cbv beta in Hv.
  destruct (scaled_total_rounds sg c e Hc) as (out & Hout & (m & Hm' & Hn)).
  rewrite Hout in Hv. injection Hv as <-. rewrite Hm'. f_equal.
  unfold cents_fraction in Hn.
  destruct (0 <=? e + 2) eqn:He2; [|apply Z.leb_gt in He2; lia].
  simpl in Hn. destruct Hn as [Hn _]. lia.
Qed.

(** X14. Neither variant checks that the total is a finite number.  The
    text of an infinity is accepted by both and comes out as that infinity;
    a quiet NaN comes out as a NaN; a signaling NaN is accepted by the
    variant that keeps the decimal and makes the scaled variant fail. *)
Theorem non_finite_totals `{Externals} (line : string)
    (ms : list (string * json)) (v : json) (s : string) (d : Decimal) :
  json_scan line = Some (JObject ms) ->
  json_member ms "totalValue" = Some v ->
  decode str str v = PyStr s ->
  ascii_text s = true ->
  Decimal_of_ascii (list_ascii_of_string s) = Some d ->
  (forall r, PythonFastavro.transform_record line = OK r -> totalValue r = d)
  /\ (forall r sg, PythonAvro.transform_record line = OK r ->
        d = Infinity sg -> totalValue r = Infinity sg)
  /\ (forall r sg p, PythonAvro.transform_record line = OK r ->
        d = NaN sg false p -> totalValue r = NaN sg false (p mod pow10 prec))
  /\ (forall sg p, d = NaN sg true p -> fails (PythonAvro.transform_record line)).
Proof.
  intros Hs Hm Hd Ha Hp.
  assert (decimal_Decimal (decode str str v) = OK d) as Hdec
    by (rewrite Hd; unfold decimal_Decimal; rewrite Ha, Hp; reflexivity).
  split.
  { intros r Ht. apply fastavro_steps in Ht as (j & parsed & total & Hc & _ & Htv).
    rewrite (common_steps_object _ _ _ _ _ _ _ _ _ Hs Hc) in Hc.
    destruct Hc as (_ & _ & _ & _ & _ & _ & Htot).
    rewrite (subscript_member _ _ _ _ Htot Hm) in Htv. congruence. }
  split.
  { intros r sg Ht ->. pose proof (avro_total _ _ _ _ Hs Hm Ht) as Hv.
    rewrite Hdec in Hv. simpl in Hv. congruence. }
  split.
  { intros r sg p Ht ->. pose proof (avro_total _ _ _ _ Hs Hm Ht) as Hv.
    rewrite Hdec in Hv.
    change (OK (NaN sg false ((p mod pow10 prec) mod pow10 prec)%N) = OK (totalValue r)) in Hv.
    rewrite N.Div0.mod_mod in Hv. congruence. }
  intros sg p ->.
  destruct (PythonAvro.transform_record line) as [r|e] eqn:Ht; [|eexists; reflexivity].
  pose proof (avro_total _ _ _ _ Hs Hm Ht) as Hv.
  rewrite Hdec in Hv. simpl in Hv. discriminate.
Qed.

(** ** Item counts out of the ordinary *)

(** X15. An item count whose ASCII text holds any character other than a
    digit, an underscore, a sign or white space is rejected by [int] with
    [ValueError], and both variants fail on the line.  So a count written
    with a decimal point or an exponent, quoted or not, never passes. *)
Theorem stray_character_in_item_count `{Externals} (line : string)
    (ms : list (string * json)) (v : json) (s : string) (c : ascii) :
  json_scan line = Some (JObject ms) ->
  json_member ms "itemsInCart" = Some v ->
  decode str str v = PyStr s ->
  ascii_text s = true ->
  In c (list_ascii_of_string s) ->
  int_char c = false ->
  py_int (PyStr s) = Err ValueError
  /\ fails (PythonAvro.transform_record line)
  /\ fails (PythonFastavro.transform_record line).
Proof.
  intros Hs Hm Hd Ha Hin Hc.
  assert (py_int (PyStr s) = Err ValueError) as He.
  { unfold py_int. rewrite Ha.
    destruct (int_of_ascii (list_ascii_of_string s)) as [n|] eqn:Hi; [|reflexivity].
    apply int_of_ascii_chars in Hi. rewrite forallb_forall in Hi.
    rewrite (Hi c Hin) in Hc. discriminate. }
  split; [exact He|].
  apply (items_rejected line ms v ValueError Hs Hm). rewrite Hd. exact He.
Qed.

(** X16. The item count is not required to be a number or text: a JSON
    [true] counts as 1 and [false] as 0, while [null], an array or an
    object make both variants fail. *)
Theorem item_count_of_other_types `{Externals} (line : string)
    (ms : list (string * json)) (v : json) :
  json_scan line = Some (JObject ms) ->
  json_member ms "itemsInCart" = Some v ->
  (forall b r, v = JBool b ->
     PythonAvro.transform_record line = OK r \/ PythonFastavro.transform_record line = OK r ->
     itemsInCart r = if b then 1 else 0)
  /\ (v = JNull \/ (exists items, v = JArray items) \/ (exists members, v = JObject members) ->
      fails (PythonAvro.transform_record line)
      /\ fails (PythonFastavro.transform_record line)).
Proof.
  intros Hs Hm. split.
  - intros b r -> Ht. pose proof (items_conversion _ _ _ r Hs Hm Ht) as Hc.
    simpl in Hc. congruence.
  - intros Hv. apply (items_rejected line ms v TypeError Hs Hm).
    destruct Hv as [->|[[items ->]|[members ->]]]; reflexivity.
Qed.

(** X17. The three pass-through fields are copied whatever their JSON
    type: the output holds the decoded value, so that a number arrives as
    its text and [null] as [None]. *)
Theorem pass_through_any_type `{Externals} (line : string)
    (ms : list (string * json)) (r : record) (v1 v2 v3 : json) :
  json_scan line = Some (JObject ms) ->
  PythonAvro.transform_record line = OK r \/ PythonFastavro.transform_record line = OK r ->
  json_member ms "eventType" = Some v1 ->
  json_member ms "eventId" = Some v2 ->
  json_member ms "userId" = Some v3 ->
  (eventType r = decode str str v1
   /\ eventId r = decode str str v2
   /\ userId r = decode str str v3)
  /\ (forall s, v1 = JInt s \/ v1 = JFloat s -> eventType r = PyStr s)
  /\ (v1 = JNull -> eventType r = PyNone).
Proof.
  intros Hs Ht H1 H2 H3.
  apply either_common_steps in Ht as (j & parsed & total & Hc & _).
  rewrite (common_steps_object _ _ _ _ _ _ _ _ _ Hs Hc) in Hc.
  apply common_steps_fields in Hc as (Het & Hei & Hui).
  rewrite (Het _ H1), (Hei _ H2), (Hui _ H3).
  split; [auto|]. split.
  - intros s [->| ->]; reflexivity.
  - intros ->. reflexivity.
Qed.

(** ** Reading the lines *)

Lemma string_of_list_ascii_app (a b : list ascii) :
  string_of_list_ascii (a ++ b) = string_of_list_ascii a ++ string_of_list_ascii b.
Proof. induction a as [|c a IH]; simpl; [reflexivity | rewrite IH; reflexivity]. Qed.

Lemma append_empty_r (s : string) : s ++ EmptyString = s.
Proof.
  induction s as [|a s IH]; [reflexivity|].
  change (String a (s ++ EmptyString) = String a s). rewrite IH. reflexivity.
Qed.

Lemma split_lines_join (cur l : list ascii) :
  join_lines (split_lines cur l) = string_of_list_ascii (rev cur ++ l).
Proof.
  revert cur. induction l as [|c t IH]; intros cur.
  - rewrite app_nil_r. destruct cur as [|a cur]; [reflexivity|].
    cbn [split_lines join_lines fold_right]. apply append_empty_r.
  - cbn [split_lines]. destruct (Ascii.eqb c "010").
    + cbn [join_lines fold_right]. fold (join_lines (split_lines [] t)).
      rewrite IH. cbn [rev app]. rewrite <- string_of_list_ascii_app.
      rewrite <- app_assoc. reflexivity.
    + rewrite IH. cbn [rev]. rewrite <- app_assoc. reflexivity.
Qed.

Lemma split_lines_nonempty (cur l : list ascii) :
  Forall (fun line => line <> EmptyString) (split_lines cur l).
Proof.
  revert cur. induction l as [|c t IH]; intros cur; simpl.
  - destruct cur as [|a cur]; constructor; [|constructor].
    simpl. rewrite string_of_list_ascii_app. simpl.
    destruct (string_of_list_ascii (rev cur)); discriminate.
  - destruct (Ascii.eqb c "010"); [|apply IH].
    constructor; [|apply IH].
    simpl. rewrite string_of_list_ascii_app. simpl.
    destruct (string_of_list_ascii (rev cur)); discriminate.
Qed.

(** X18. The lines the drivers transform are the whole file, cut after
    each line feed: put together again they give the content back, and
    none of them is empty.  Text after the last line feed is a line of its
    own, and an empty file has no line. *)
Theorem readlines_cover_the_file (content : string) :
  join_lines (readlines content) = content
  /\ Forall (fun line => line <> EmptyString) (readlines content)
  /\ (readlines content = [] <-> content = EmptyString).
Proof.
  assert (join_lines (readlines content) = content) as Hjoin.
  { unfold readlines. rewrite split_lines_join. simpl.
    apply string_of_list_ascii_of_string. }
  split; [exact Hjoin|]. split; [apply split_lines_nonempty|].
  split.
  - intros Hnil. rewrite Hnil in Hjoin. simpl in Hjoin. congruence.
  - intros ->. reflexivity.
Qed.

(** * The further properties at concrete inputs *)


Lemma X2_witness :
  let final :=
    run (PythonFastavro.main (H := Reference.externals) (H0 := Reference.avro_library)
           convert_argv) (fresh broken_files ∅) in
  readlines broken_input = [plain_line; array_line; plain_line]
  /\ PythonFastavro.transform_record (H := Reference.externals) array_line = Err TypeError
  /\ final.2 = 1
  /\ files final.1 = broken_files
  /\ handed (trace final.1) = [].
Proof.
  intros final.
  assert (readlines broken_input = [plain_line; array_line; plain_line]) as Hl
    by (vm_compute; reflexivity).
  assert (PythonFastavro.transform_record (H := Reference.externals) array_line
          = Err TypeError) as Hb by (vm_compute; reflexivity).
  destruct (batch_writes_nothing_on_failure (H := Reference.externals)
              (H0 := Reference.avro_library)
              broken_files ∅ "convert.py" "schema.avsc" "events.json" "out.avro"
              "{}" broken_input "{}" [plain_line] array_line [plain_line]
              [offset_record (Finite false 1234 (-2))] TypeError)
    as [Hf Hh].
  - vm_compute; reflexivity.
  - reflexivity.
  - vm_compute; reflexivity.
  - exact Hl.
  - vm_compute; reflexivity.
  - exact Hb.
  - split; [exact Hl|]. split; [exact Hb|].
    split; [exact (f_equal snd Hf)|].
    split; [exact (f_equal (fun x => files x.1) Hf) | exact Hh].
Defined.

Lemma X3_witness :
  let final : world * Z :=
    ({| files := ∅; locked := ∅;
        trace := [EOpenRead "schema.avsc"; ETraceback (OSError "schema.avsc")] |}, 1) in
  (∅ : gmap string string) !! "schema.avsc" = None
  /\ run (PythonAvro.main (H := Reference.externals) (H0 := Reference.avro_library)
            convert_argv) (fresh ∅ ∅) = final
  /\ run (PythonFastavro.main (H := Reference.externals) (H0 := Reference.avro_library)
            convert_argv) (fresh ∅ ∅) = final.
Proof.
  intros final.
  assert ((∅ : gmap string string) !! "schema.avsc" = None) as Hs by reflexivity.
  split; [exact Hs|].
  destruct (schema_failure_stops_both (H := Reference.externals)
              (H0 := Reference.avro_library)
              ∅ ∅ "convert.py" "schema.avsc" "events.json" "out.avro") as [Hmissing _].
  exact (Hmissing Hs).
Defined.


Lemma X5_witness :
  let argv := ["convert.py"; "schema.avsc"; "events.json"; "events.json"] in
  let streamed :=
    run (PythonAvro.main (H := Reference.externals) (H0 := Reference.avro_library) argv)
        (fresh example_files ∅) in
  let batched :=
    run (PythonFastavro.main (H := Reference.externals) (H0 := Reference.avro_library) argv)
        (fresh example_files ∅) in
  example_files !! "events.json" = Some two_lines
  /\ streamed.2 = 0
  /\ files streamed.1 !! "events.json" = Some EmptyString
  /\ handed (trace streamed.1) = []
  /\ batched.2 = 0
  /\ length (handed (trace batched.1)) = 2%nat.
Proof.
  intros argv streamed batched.
  assert (example_files !! "events.json" = Some two_lines) as Hj
    by (vm_compute; reflexivity).
  destruct (mapM (PythonFastavro.transform_record (H := Reference.externals))
                 (readlines two_lines)) as [rs|e] eqn:Hm;
    [|vm_compute in Hm; discriminate].
  assert (length rs = 2%nat) as Hlen.
  { apply mapM_OK_Forall2 in Hm. apply Forall2_length in Hm. rewrite <- Hm.
    vm_compute; reflexivity. }
  destruct (output_over_input (H := Reference.externals) (H0 := Reference.avro_library)
              example_files ∅ "convert.py" "schema.avsc" "events.json" "{}" "{}")
    as [[Hs Hh] Hbatch].
  - vm_compute; reflexivity.
  - reflexivity.
  - set_solver.
  - destruct (Hbatch two_lines rs Hj Hm) as [Hb Hbh].
    { clear. induction rs; [reflexivity | assumption]. }
    split; [exact Hj|]. split; [exact (f_equal snd Hs)|].
    split.
    { subst streamed argv. rewrite Hs. simpl. apply lookup_insert_eq. }
    split; [exact Hh|]. split; [exact Hb|].
    subst batched argv. rewrite Hbh. exact Hlen.
Defined.

Lemma X6_witness :
  let lk : gset string := {["out.avro"]} in
  "out.avro" ∈ lk
  /\ (run (PythonAvro.main (H := Reference.externals) (H0 := Reference.avro_library)
             convert_argv) (fresh example_files lk)).2 = 1
  /\ (run (PythonFastavro.main (H := Reference.externals) (H0 := Reference.avro_library)
             convert_argv) (fresh example_files lk)).2 = 1.
Proof.
  intros lk.
  assert ("out.avro" ∈ lk) as Hlk by (subst lk; set_solver).
  destruct (mapM (PythonFastavro.transform_record (H := Reference.externals))
                 (readlines two_lines)) as [rs|e] eqn:Hm;
    [|vm_compute in Hm; discriminate].
  destruct (unwritable_output (H := Reference.externals) (H0 := Reference.avro_library)
              example_files lk "convert.py" "schema.avsc" "events.json" "out.avro"
              "{}" two_lines "{}" rs) as [Ha Hf].
  - vm_compute; reflexivity.
  - reflexivity.
  - exact Hlk.
  - vm_compute; reflexivity.
  - exact Hm.
  - split; [exact Hlk|].
    split; [exact (f_equal snd Ha) | exact (f_equal snd Hf)].
Defined.


Lemma X9_witness :
  Reference.scan_document plain_line = Some (JObject plain_members)
  /\ Reference.scan_document shuffled_line = Some (JObject shuffled_members)
  /\ PythonAvro.transform_record (H := Reference.externals) plain_line
     = PythonAvro.transform_record (H := Reference.externals) shuffled_line
  /\ PythonFastavro.transform_record (H := Reference.externals) plain_line
     = PythonFastavro.transform_record (H := Reference.externals) shuffled_line.
Proof.
  assert (Reference.scan_document plain_line = Some (JObject plain_members)) as Hs
    by (vm_compute; reflexivity).
  assert (Reference.scan_document shuffled_line = Some (JObject shuffled_members)) as Hs'
    by (vm_compute; reflexivity).
  split; [exact Hs|]. split; [exact Hs'|].
  apply (only_the_six_keys_matter (H := Reference.externals) plain_line shuffled_line
           plain_members shuffled_members Hs Hs').
  intros k Hk. unfold required_keys in Hk. simpl in Hk.
  destruct Hk as [<-|[<-|[<-|[<-|[<-|[<-|[]]]]]]]; vm_compute; reflexivity.
Defined.

Lemma X10_witness :
  PythonAvro.transform_record (H := Reference.externals) offset_line
  = OK (offset_record (Finite false 2000 0))
  /\ exists parsed,
       Reference.parse_timestamp (PyStr offset_timestamp) = OK parsed
       /\ tzinfo parsed = Some (-18000)
       /\ wall_seconds (clock_10 (Some 0)) = wall_seconds parsed
       /\ instant (clock_10 (Some 0)) = option_map (fun i => i + -18000 * 1000000) (instant parsed).
Proof.
  assert (PythonAvro.transform_record (H := Reference.externals) offset_line
          = OK (offset_record (Finite false 2000 0))) as Ht
    by (vm_compute; reflexivity).
  split; [exact Ht|].
  destruct (timestamp_keeps_clock_reading (H := Reference.externals) offset_line
              offset_members (JString offset_timestamp)
              (offset_record (Finite false 2000 0)))
    as (parsed & Hp & _ & _ & Hw & _ & Hi).
  - vm_compute; reflexivity.
  - vm_compute; reflexivity.
  - left. exact Ht.
  - exists parsed. split; [exact Hp|].
    assert (parsed = clock_10 (Some (-18000))) as ->.
    { assert (Reference.parse_timestamp (PyStr offset_timestamp)
              = OK (clock_10 (Some (-18000)))) as Hc by (vm_compute; reflexivity).
      change (Reference.parse_timestamp (PyStr offset_timestamp) = OK parsed) in Hp.
      rewrite Hc in Hp. injection Hp as <-. reflexivity. }
    split; [reflexivity|]. split; [exact Hw|].
    destruct (instant (clock_10 (Some (-18000)))) as [i|] eqn:Hinst;
      [|vm_compute in Hinst; discriminate].
    exact (Hi (-18000) i eq_refl eq_refl).
Defined.

Lemma X11_witness :
  PythonAvro.transform_record (H := Reference.externals) offset_line
  = OK (offset_record (Finite false 2000 0))
  /\ exists d,
       PythonFastavro.transform_record (H := Reference.externals) offset_line
       = OK (offset_record d).
Proof.
  assert (PythonAvro.transform_record (H := Reference.externals) offset_line
          = OK (offset_record (Finite false 2000 0))) as Ht
    by (vm_compute; reflexivity).
  split; [exact Ht|].
  exact (scaled_success_implies_plain_success (H := Reference.externals) offset_line
           (offset_record (Finite false 2000 0)) Ht).
Defined.

Lemma X12_witness :
  Decimal_of_ascii (list_ascii_of_string long_total)
  = Some (Finite false 100000000000000000000000000 (-26))
  /\ PythonAvro.transform_record (H := Reference.externals) long_line
     = OK (offset_record (Finite false 0 0))
  /\ rounds_cents false (100000000000000000000000000 mod pow10 26) (-26)
       (Finite false 0 0).
Proof.
  assert (Decimal_of_ascii (list_ascii_of_string long_total)
          = Some (Finite false 100000000000000000000000000 (-26))) as Hd
    by (vm_compute; reflexivity).
  assert (PythonAvro.transform_record (H := Reference.externals) long_line
          = OK (offset_record (Finite false 0 0))) as Ht
    by (vm_compute; reflexivity).
  split; [exact Hd|]. split; [exact Ht|].
  apply (scaled_total_uses_last_26_digits (H := Reference.externals) long_line
           long_members (JString long_total) long_total false
           100000000000000000000000000%N (-26) (offset_record (Finite false 0 0))).
  - vm_compute; reflexivity.
  - vm_compute; reflexivity.
  - reflexivity.
  - vm_compute; reflexivity.
  - exact Hd.
  - exact Ht.
Defined.

Lemma X13_witness :
  Decimal_of_ascii (list_ascii_of_string "12.34") = Some (Finite false 1234 (-2))
  /\ PythonAvro.transform_record (H := Reference.externals) plain_line
     = OK (offset_record (Finite false 1234 0))
  /\ integral (Finite false 1234 0) = Some 1234.
Proof.
  assert (Decimal_of_ascii (list_ascii_of_string "12.34")
          = Some (Finite false 1234 (-2))) as Hd by (vm_compute; reflexivity).
  assert (PythonAvro.transform_record (H := Reference.externals) plain_line
          = OK (offset_record (Finite false 1234 0))) as Ht
    by (vm_compute; reflexivity).
  split; [exact Hd|]. split; [exact Ht|].
  apply (cents_are_exact (H := Reference.externals) plain_line plain_members
           (JFloat "12.34") "12.34" false 1234%N (-2)
           (offset_record (Finite false 1234 0))).
  - vm_compute; reflexivity.
  - vm_compute; reflexivity.
  - reflexivity.
  - vm_compute; reflexivity.
  - exact Hd.
  - vm_compute; reflexivity.
  - lia.
  - exact Ht.
Defined.

Lemma X14_witness :
  Decimal_of_ascii (list_ascii_of_string "NaN") = Some (NaN false false 0)
  /\ match PythonFastavro.transform_record (H := Reference.externals) nan_line with
     | OK r => totalValue r = NaN false false 0
     | Err _ => False
     end
  /\ match PythonAvro.transform_record (H := Reference.externals) nan_line with
     | OK r => totalValue r = NaN false false 0
     | Err _ => False
     end.
Proof.
  assert (Decimal_of_ascii (list_ascii_of_string "NaN") = Some (NaN false false 0)) as Hd
    by (vm_compute; reflexivity).
  split; [exact Hd|].
  destruct (non_finite_totals (H := Reference.externals) nan_line nan_members
              (JString "NaN") "NaN" (NaN false false 0))
    as (Hfast & _ & Hquiet & _).
  - vm_compute; reflexivity.
  - vm_compute; reflexivity.
  - reflexivity.
  - vm_compute; reflexivity.
  - exact Hd.
  - split.
    + destruct (PythonFastavro.transform_record (H := Reference.externals) nan_line)
        as [r|e] eqn:Ht; [|vm_compute in Ht; discriminate].
      exact (Hfast r eq_refl).
    + destruct (PythonAvro.transform_record (H := Reference.externals) nan_line)
        as [r|e] eqn:Ht; [|vm_compute in Ht; discriminate].
      exact (Hquiet r false 0%N eq_refl eq_refl).
Defined.

Lemma X15_witness :
  Reference.scan_document point_line = Some (JObject point_members)
  /\ In "."%char (list_ascii_of_string "3.0")
  /\ int_char "." = false
  /\ py_int (H := Reference.externals) (PyStr "3.0") = Err ValueError
  /\ fails (PythonAvro.transform_record (H := Reference.externals) point_line)
  /\ fails (PythonFastavro.transform_record (H := Reference.externals) point_line).
Proof.
  assert (Reference.scan_document point_line = Some (JObject point_members)) as Hs
    by (vm_compute; reflexivity).
  assert (In "."%char (list_ascii_of_string "3.0")) as Hin by (simpl; auto).
  assert (int_char "." = false) as Hc by (vm_compute; reflexivity).
  split; [exact Hs|]. split; [exact Hin|]. split; [exact Hc|].
  apply (stray_character_in_item_count (H := Reference.externals) point_line
           point_members (JFloat "3.0") "3.0" "."%char Hs).
  - vm_compute; reflexivity.
  - reflexivity.
  - vm_compute; reflexivity.
  - exact Hin.
  - exact Hc.
Defined.

Lemma X16_witness :
  Reference.scan_document true_line = Some (JObject true_members)
  /\ match PythonAvro.transform_record (H := Reference.externals) true_line with
     | OK r => itemsInCart r = 1
     | Err _ => False
     end.
Proof.
  assert (Reference.scan_document true_line = Some (JObject true_members)) as Hs
    by (vm_compute; reflexivity).
  split; [exact Hs|].
  destruct (item_count_of_other_types (H := Reference.externals) true_line
              true_members (JBool true) Hs) as [Hb _].
  - vm_compute; reflexivity.
  - destruct (PythonAvro.transform_record (H := Reference.externals) true_line)
      as [r|e] eqn:Ht; [|vm_compute in Ht; discriminate].
    exact (Hb true r eq_refl (or_introl eq_refl)).
Defined.

Lemma X17_witness :
  Reference.scan_document typed_line = Some (JObject typed_members)
  /\ match PythonFastavro.transform_record (H := Reference.externals) typed_line with
     | OK r => eventType r = PyStr "7" /\ eventId r = PyNone /\ userId r = PyStr "u-7"
     | Err _ => False
     end.
Proof.
  assert (Reference.scan_document typed_line = Some (JObject typed_members)) as Hs
    by (vm_compute; reflexivity).
  split; [exact Hs|].
  destruct (PythonFastavro.transform_record (H := Reference.externals) typed_line)
    as [r|e] eqn:Ht; [|vm_compute in Ht; discriminate].
  destruct (pass_through_any_type (H := Reference.externals) typed_line typed_members r
              (JInt "7") JNull (JString "u-7") Hs (or_intror Ht))
    as [Hcopy _].
  - vm_compute; reflexivity.
  - vm_compute; reflexivity.
  - vm_compute; reflexivity.
  - exact Hcopy.
Defined.
